(** * The build recovery controller of [scripts/init_project.py]

    A shallow embedding of [AutomationEngine.match_error_pattern],
    [AutomationEngine.execute_auto_fix], [AutomationEngine._load_json] and
    [AutomationEngine.build_with_validation], together with the properties
    of the retry loop.

    Python text is modelled by [string] (one [ascii] per character), a
    [dict] read with [.get] by a record of optional fields, an exception by
    the [Exc] branch of [outcome], and everything the interpreter asks of
    the operating system (the platform name, [os.chdir], [subprocess.run],
    opening and decoding a JSON file) by a [world] that answers each request
    from the history of what the process did so far.  Regular expressions
    are searched by the model [Re] for the patterns it reads, and by the
    [re] of that [world] for all others. *)

From Stdlib Require Import String Ascii List ZArith Bool Arith Lia.
From Stdlib Require Import DecimalString.
Import ListNotations.

Local Open Scope string_scope.
Local Open Scope list_scope.

(** * The program *)

(** ** Python values *)

Module Py.

(** [d.get(key, default)] on a key that may be missing. *)
Definition get {A : Type} (field : option A) (default : A) : A :=
  match field with
  | Some v => v
  | None => default
  end.

(** Truth value of [d.get(key)] for a string-valued key: [None] and the
    empty string are false. *)
Definition truthy (v : option string) : bool :=
  match v with
  | Some EmptyString => false
  | Some _ => true
  | None => false
  end.

(** [a or b] on two such values. *)
Definition or_ (a b : option string) : option string :=
  if truthy a then a else b.

(** [x in xs] for a list of strings. *)
Fixpoint contains (x : string) (xs : list string) : bool :=
  match xs with
  | [] => false
  | y :: ys => String.eqb x y || contains x ys
  end.

(** [s[:n]]. *)
Fixpoint slice_to (n : nat) (s : string) : string :=
  match n, s with
  | S n', String c s' => String c (slice_to n' s')
  | _, _ => EmptyString
  end.

(** [str(n)] for a non-negative integer. *)
Definition str (n : nat) : string :=
  NilEmpty.string_of_uint (Nat.to_uint n).

End Py.

(** ** Regular expressions

    [re.search(pattern, text, re.IGNORECASE)] for the fragment of Python's
    pattern syntax made of literal characters, [.], backslash escapes of
    punctuation, groups, [|], and the greedy quantifiers [*], [+], [?].
    [compile] reads the patterns of the fragment and answers [None] for
    every other pattern: one that uses more of the syntax (anchors,
    classes, counted, lazy or possessive repetition, group extensions,
    letter escapes, characters beyond ASCII) and one that Python rejects
    with [re.error] (a quantifier with nothing to repeat, an unbalanced
    parenthesis, a trailing backslash) alike.  What [re] makes of a pattern
    that is not read here is asked of the surroundings, in [re_search]. *)

Module Re.

Inductive regex : Type :=
| Never
| Eps
| Lit (c : ascii)
| Dot
| Cat (r1 r2 : regex)
| Alt (r1 r2 : regex)
| Star (r : regex).

Definition newline : ascii := ascii_of_nat 10.

Definition lower (c : ascii) : ascii :=
  let n := nat_of_ascii c in
  if ((65 <=? n) && (n <=? 90))%nat then ascii_of_nat (n + 32) else c.

Fixpoint nullable (r : regex) : bool :=
  match r with
  | Never => false
  | Eps => true
  | Lit _ => false
  | Dot => false
  | Cat r1 r2 => nullable r1 && nullable r2
  | Alt r1 r2 => nullable r1 || nullable r2
  | Star _ => true
  end.

(** What remains of [r] once the character [c] has been read; letters are
    compared without case, and [.] refuses the newline. *)
Fixpoint deriv (c : ascii) (r : regex) : regex :=
  match r with
  | Never => Never
  | Eps => Never
  | Lit d => if Ascii.eqb (lower c) (lower d) then Eps else Never
  | Dot => if Ascii.eqb c newline then Never else Eps
  | Cat r1 r2 =>
      if nullable r1
      then Alt (Cat (deriv c r1) r2) (deriv c r2)
      else Cat (deriv c r1) r2
  | Alt r1 r2 => Alt (deriv c r1) (deriv c r2)
  | Star r1 => Cat (deriv c r1) (Star r1)
  end.

(** Some prefix of [s] is matched by [r]. *)
Fixpoint match_here (r : regex) (s : string) {struct s} : bool :=
  nullable r ||
  match s with
  | EmptyString => false
  | String c s' => match_here (deriv c r) s'
  end.

(** Some substring of [s] is matched by [r]. *)
Fixpoint search_from (r : regex) (s : string) {struct s} : bool :=
  match_here r s ||
  match s with
  | EmptyString => false
  | String _ s' => search_from r s'
  end.

(** *** Reading a pattern *)

(** One open group: the branches already closed by a [|] and the atoms of
    the branch being read, both most recent first. *)
Record frame : Type := {
  alts : list regex;
  atoms : list regex
}.

Record pstate : Type := {
  stack : list frame;
  cur : frame;
  can_repeat : bool
}.

Definition cat_all (atoms_rev : list regex) : regex :=
  fold_left (fun acc a => Cat a acc) atoms_rev Eps.

Definition close_frame (f : frame) : regex :=
  fold_left (fun acc b => Alt b acc) (alts f) (cat_all (atoms f)).

Definition push_atom (a : regex) (st : pstate) : pstate :=
  {| stack := stack st;
     cur := {| alts := alts (cur st); atoms := a :: atoms (cur st) |};
     can_repeat := true |}.

Definition repeat_last (q : regex -> regex) (st : pstate) : option pstate :=
  if can_repeat st then
    match atoms (cur st) with
    | a :: tl =>
        Some {| stack := stack st;
                cur := {| alts := alts (cur st); atoms := q a :: tl |};
                can_repeat := false |}
    | [] => None
    end
  else None.

Definition is_alnum (c : ascii) : bool :=
  let n := nat_of_ascii c in
  (((48 <=? n) && (n <=? 57)) || ((65 <=? n) && (n <=? 90))
   || ((97 <=? n) && (n <=? 122)))%nat.

Definition is_ascii (c : ascii) : bool := (nat_of_ascii c <? 128)%nat.

Definition is_reserved (c : ascii) : bool :=
  existsb (Ascii.eqb c) ["^"; "$"; "["; "]"; "{"; "}"]%char.

Fixpoint parse (s : string) (st : pstate) {struct s} : option regex :=
  match s with
  | EmptyString =>
      match stack st with
      | [] => Some (close_frame (cur st))
      | _ :: _ => None
      end
  | String c rest =>
      if Ascii.eqb c "\" then
        match rest with
        | EmptyString => None
        | String e rest' =>
            if is_ascii e && negb (is_alnum e)
            then parse rest' (push_atom (Lit e) st)
            else None
        end
      else if Ascii.eqb c "(" then
        parse rest {| stack := cur st :: stack st;
                      cur := {| alts := []; atoms := [] |};
                      can_repeat := false |}
      else if Ascii.eqb c ")" then
        match stack st with
        | [] => None
        | f :: stk =>
            parse rest {| stack := stk;
                          cur := {| alts := alts f;
                                    atoms := close_frame (cur st) :: atoms f |};
                          can_repeat := true |}
        end
      else if Ascii.eqb c "|" then
        parse rest {| stack := stack st;
                      cur := {| alts := cat_all (atoms (cur st)) :: alts (cur st);
                                atoms := [] |};
                      can_repeat := false |}
      else if Ascii.eqb c "*" then
        match repeat_last Star st with
        | Some st' => parse rest st'
        | None => None
        end
      else if Ascii.eqb c "+" then
        match repeat_last (fun a => Cat a (Star a)) st with
        | Some st' => parse rest st'
        | None => None
        end
      else if Ascii.eqb c "?" then
        match repeat_last (fun a => Alt a Eps) st with
        | Some st' => parse rest st'
        | None => None
        end
      else if Ascii.eqb c "." then parse rest (push_atom Dot st)
      else if is_reserved c || negb (is_ascii c) then None
      else parse rest (push_atom (Lit c) st)
  end.

Definition compile (pattern : string) : option regex :=
  parse pattern {| stack := []; cur := {| alts := []; atoms := [] |};
                   can_repeat := false |}.

End Re.

(** ** Exceptions and results *)

Inductive exn : Type :=
| FileNotFoundError
| JSONDecodeError
| TimeoutExpired
| ReError
| OtherError (name : string).

Inductive outcome (A : Type) : Type :=
| Val (a : A)
| Exc (e : exn).

Arguments Val {A} a.
Arguments Exc {A} e.


(** ** The pattern database *)

(** One entry of an [auto_fix] or [fallback] list. *)
Record action : Type := {
  method : option string;
  command : option string;
  command_windows : option string;
  command_linux : option string;
  message : option string
}.

(** One entry of the [patterns] list.  [other_keys] holds the keys of the
    JSON object that the controller never reads: they only take part in the
    truth value of the object. *)
Record pattern : Type := {
  regex : option string;
  platform : option (list string);
  auto_fix : option (list action);
  fallback : option (list action);
  user_message : option string;
  other_keys : list string
}.

(** The decoded [error-patterns.json]. *)
Record database : Type := {
  patterns : option (list pattern)
}.

(** The dictionary literal [{}]. *)
Definition empty_dict : database := {| patterns := None |}.

(** The dictionary literal [{"auto_fix": fixes}]. *)
Definition dict_auto_fix (fixes : list action) : pattern :=
  {| regex := None; platform := None; auto_fix := Some fixes;
     fallback := None; user_message := None; other_keys := [] |}.

Definition is_some {A : Type} (o : option A) : bool :=
  match o with
  | Some _ => true
  | None => false
  end.

(** Truth value of a pattern object: a [dict] is false exactly when it has
    no key. *)
Definition dict_truthy (p : pattern) : bool :=
  is_some (regex p) || is_some (platform p) || is_some (auto_fix p)
  || is_some (fallback p) || is_some (user_message p)
  || negb (Nat.eqb (length (other_keys p)) 0).

(** ** The process and its surroundings *)

Inductive cmdline : Type :=
| Argv (args : list string)
| Shell (line : string).

(** A [subprocess.CompletedProcess]. *)
Record completed : Type := {
  returncode : Z;
  stdout : string;
  stderr : string
}.

Inductive level : Type := INFO | WARNING | ERROR.

(** The records handed to [logger], by the statement that writes them. *)
Inductive log_msg : Type :=
| LoadFailed (filepath : string) (e : exn)
| Informational (text : string)
| ExecutingFix (method : string)
| Fixed (method : string)
| FixTimeout (method : string)
| FixFailed (method : string) (e : exn)
| BuildAttempt (number total : nat)
| RunningConfigure
| ConfigureFailed
| UserMessage (text : string)
| RunningBuild
| BuildFailed
| BuildSuccessful.

(** What the process did, in the order it did it. *)
Inductive event : Type :=
| Chdir (dir : string) (r : outcome string)
| Run (c : cmdline) (timeout : option nat) (r : outcome completed)
| Load (filepath : string) (r : outcome database)
| Log (lvl : level) (m : log_msg).

(** The surroundings answer each request from what happened before it:
    [os_chdir h cwd path] is the new working directory, or the [OSError]
    raised; [subprocess_run h c timeout] is the completed process, or what
    [subprocess.run] raised ([TimeoutExpired] once [timeout] seconds have
    passed, [FileNotFoundError] when the program cannot be started, ...);
    [json_load h filepath] is the result of opening and decoding the file.
    [re_compile pattern] is what the interpreter's [re.compile(pattern,
    re.IGNORECASE)] gives for a pattern that the model [Re] does not read:
    the search of the compiled pattern in a text, or [None] when it raises
    [re.error]. *)
Record world : Type := {
  platform_system : string;
  os_chdir : list event -> string -> string -> outcome string;
  subprocess_run : list event -> cmdline -> option nat -> outcome completed;
  json_load : list event -> string -> outcome database;
  re_compile : string -> option (string -> bool)
}.

(** [re.search(regex, text, re.IGNORECASE)] as a truth value: by the model
    [Re] for the patterns it reads, by the interpreter's [re] for the
    others. *)
Definition re_search (w : world) (regex text : string) : outcome bool :=
  match Re.compile regex with
  | Some r => Val (Re.search_from r text)
  | None =>
      match re_compile w regex with
      | Some found_in => Val (found_in text)
      | None => Exc ReError
      end
  end.

Record state : Type := {
  cwd : string;
  trace : list event
}.

Definition record (e : event) (s : state) : state :=
  {| cwd := cwd s; trace := trace s ++ [e] |}.

(** ** Computations that read and extend the state and may raise *)

Definition M (A : Type) : Type := state -> outcome A * state.

Definition ret {A : Type} (a : A) : M A := fun s => (Val a, s).

Definition raise {A : Type} (e : exn) : M A := fun s => (Exc e, s).

Definition bind {A B : Type} (m : M A) (k : A -> M B) : M B :=
  fun s =>
    match m s with
    | (Val a, s') => k a s'
    | (Exc e, s') => (Exc e, s')
    end.

(** A result computed without touching the state. *)
Definition lift {A : Type} (r : outcome A) : M A := fun s => (r, s).

(** The body of a [try]: what it raised becomes a value for the handlers. *)
Definition trying {A : Type} (m : M A) : M (outcome A) :=
  fun s => let (r, s') := m s in (Val r, s').

Declare Scope py_scope.
Delimit Scope py_scope with py.
Notation "x <- m ;; k" := (bind m (fun x => k))
  (at level 61, m at next level, right associativity) : py_scope.
Notation "m ;; k" := (bind m (fun _ => k))
  (at level 61, right associativity) : py_scope.
Local Open Scope py_scope.

Definition log (lvl : level) (m : log_msg) : M unit :=
  fun s => (Val tt, record (Log lvl m) s).

Definition chdir (w : world) (path : string) : M unit :=
  fun s =>
    let r := os_chdir w (trace s) (cwd s) path in
    match r with
    | Val dir => (Val tt, {| cwd := dir; trace := trace s ++ [Chdir path r] |})
    | Exc e => (Exc e, record (Chdir path r) s)
    end.

Definition run (w : world) (c : cmdline) (timeout : option nat) : M completed :=
  fun s =>
    let r := subprocess_run w (trace s) c timeout in
    (r, record (Run c timeout r) s).

Definition load (w : world) (filepath : string) : M database :=
  fun s =>
    let r := json_load w (trace s) filepath in
    (r, record (Load filepath r) s).

(** ** AutomationEngine *)

Record engine : Type := {
  error_patterns : database;
  max_retry_attempts : nat
}.

(** [_load_json]: a missing file and a file that does not decode are
    reported and give [{}]; any other exception goes to the caller. *)
Definition _load_json (w : world) (filepath : string) : M database :=
  r <- trying (load w filepath) ;;
  match r with
  | Val d => ret d
  | Exc FileNotFoundError => log WARNING (LoadFailed filepath FileNotFoundError) ;; ret empty_dict
  | Exc JSONDecodeError => log WARNING (LoadFailed filepath JSONDecodeError) ;; ret empty_dict
  | Exc e => raise e
  end.

(** [__init__], once the two file names are known; the decisions table,
    which only the project templates read, is not kept in [engine]. *)
Definition __init__ (w : world) (decisions_file error_patterns_file : string) : M engine :=
  _ <- _load_json w decisions_file ;;
  table <- _load_json w error_patterns_file ;;
  ret {| error_patterns := table; max_retry_attempts := 3 |}.

(** The test [if "all" not in pattern_platforms and current_platform not in
    pattern_platforms: continue], negated. *)
Definition platform_applies (current_platform : string) (p : pattern) : bool :=
  let pattern_platforms := Py.get (platform p) ["all"] in
  negb (negb (Py.contains "all" pattern_platforms)
        && negb (Py.contains current_platform pattern_platforms)).

(** The loop of [match_error_pattern] over the patterns not yet examined. *)
Fixpoint match_loop (w : world) (current_platform error_output : string)
    (ps : list pattern) : outcome (option pattern) :=
  match ps with
  | [] => Val None
  | p :: rest =>
      let regex := Py.get (regex p) "" in
      if negb (platform_applies current_platform p)
      then match_loop w current_platform error_output rest
      else
        match re_search w regex error_output with
        | Val true => Val (Some p)
        | Val false => match_loop w current_platform error_output rest
        | Exc e => Exc e
        end
  end.

Definition match_error_pattern (w : world) (self : engine) (error_output : string)
  : outcome (option pattern) :=
  let patterns := Py.get (patterns (error_patterns self)) [] in
  match_loop w (platform_system w) error_output patterns.

(** The command of one action for the current platform. *)
Definition select_command (current_platform : string) (fx : action) : option string :=
  if String.eqb current_platform "Windows"
  then Py.or_ (command_windows fx) (command fx)
  else Py.or_ (command_linux fx) (command fx).

(** The loop of [execute_auto_fix] over the actions not yet tried. *)
Fixpoint auto_fix_loop (w : world) (auto_fixes : list action) : M bool :=
  match auto_fixes with
  | [] => ret false
  | fx :: rest =>
      let method := Py.get (method fx) "" in
      let cmd := select_command (platform_system w) fx in
      if negb (Py.truthy cmd) then
        log INFO (Informational (Py.get (message fx) method)) ;;
        auto_fix_loop w rest
      else
        log INFO (ExecutingFix method) ;;
        r <- trying (run w (Shell (Py.get cmd "")) (Some 30)) ;;
        match r with
        | Val result =>
            if Z.eqb (returncode result) 0
            then log INFO (Fixed method) ;; ret true
            else auto_fix_loop w rest
        | Exc TimeoutExpired =>
            log WARNING (FixTimeout method) ;; auto_fix_loop w rest
        | Exc e =>
            log WARNING (FixFailed method e) ;; auto_fix_loop w rest
        end
  end.

Definition execute_auto_fix (w : world) (p : pattern) : M bool :=
  let auto_fixes := Py.get (auto_fix p) [] in
  match auto_fixes with
  | [] => ret false
  | _ :: _ => auto_fix_loop w auto_fixes
  end.

(** How one pass through the body of the [for attempt] loop ends. *)
Inductive flow : Type :=
| Continue
| Return (result : bool * string).

(** [for fallback in fallbacks: if self.execute_auto_fix(...): continue].
    The [continue] belongs to this loop: it moves on to the next fallback,
    as does reaching the end of the body. *)
Fixpoint fallback_loop (w : world) (fallbacks : list action) : M unit :=
  match fallbacks with
  | [] => ret tt
  | fallback :: rest =>
      fixed <- execute_auto_fix w (dict_auto_fix [fallback]) ;;
      if fixed then fallback_loop w rest else fallback_loop w rest
  end.

(** The block under [if result.returncode != 0], which the source writes
    once after each of the two phases; they differ by the record logged and
    by the head of the message. *)
Definition handle_failure (w : world) (self : engine) (failed : log_msg)
    (head : string) (result : completed) : M flow :=
  let error_output := (stderr result ++ stdout result)%string in
  log ERROR failed ;;
  found <- lift (match_error_pattern w self error_output) ;;
  fixed <-
    match found with
    | Some p =>
        if dict_truthy p then
          log WARNING (UserMessage (Py.get (user_message p) "Attempting auto-fix...")) ;;
          execute_auto_fix w p
        else ret false
    | None => ret false
    end ;;
  if fixed then ret Continue
  else
    let fallbacks :=
      match found with
      | Some p => if dict_truthy p then Py.get (fallback p) [] else []
      | None => []
      end in
    fallback_loop w fallbacks ;;
    ret (Return (false, (head ++ Py.slice_to 300 error_output)%string)).

Definition configure_cmd : cmdline := Argv ["cmake"; "-B"; "build"].
Definition compile_cmd : cmdline := Argv ["cmake"; "--build"; "build"].

(** The body of [for attempt in range(self.max_retry_attempts)]. *)
Definition attempt_body (w : world) (self : engine) (attempt : nat) : M flow :=
  log INFO (BuildAttempt (attempt + 1) (max_retry_attempts self)) ;;
  log INFO RunningConfigure ;;
  result <- run w configure_cmd None ;;
  if negb (Z.eqb (returncode result) 0) then
    handle_failure w self ConfigureFailed "CMake configure failed: " result
  else
    log INFO RunningBuild ;;
    result <- run w compile_cmd None ;;
    if negb (Z.eqb (returncode result) 0) then
      handle_failure w self BuildFailed "Build failed: " result
    else
      log INFO BuildSuccessful ;;
      ret (Return (true, "Build completed successfully")).

Fixpoint attempts_loop (w : world) (self : engine) (attempts : list nat)
  : M (bool * string) :=
  match attempts with
  | [] =>
      ret (false,
           ("Build failed after " ++ Py.str (max_retry_attempts self) ++ " attempts")%string)
  | attempt :: rest =>
      f <- attempt_body w self attempt ;;
      match f with
      | Continue => attempts_loop w self rest
      | Return result => ret result
      end
  end.

Definition build_with_validation (w : world) (self : engine) (project_dir : string)
  : M (bool * string) :=
  chdir w project_dir ;;
  attempts_loop w self (seq 0 (max_retry_attempts self)).

(** ** Concrete surroundings, for evaluating the controller *)

Module Scenario.

Definition ok (out : string) : outcome completed :=
  Val {| returncode := 0; stdout := out; stderr := "" |}.

Definition failed (code : Z) (out err : string) : outcome completed :=
  Val {| returncode := code; stdout := out; stderr := err |}.

(** [word] stands at the start of [text], whatever the case of the
    letters. *)
Fixpoint starts_with (word text : string) : bool :=
  match word, text with
  | EmptyString, _ => true
  | String a word', String b text' =>
      Ascii.eqb (Re.lower a) (Re.lower b) && starts_with word' text'
  | String _ _, EmptyString => false
  end.

(** The patterns of the evaluations that [Re] does not read: the anchored
    [^CMake Error] is found at the start of a text; the others, [(unclosed]
    and [a**], are ill formed. *)
Definition library (pattern : string) : option (string -> bool) :=
  if String.eqb pattern "^CMake Error" then Some (starts_with "CMake Error")
  else None.

(** Every directory exists; no JSON file does. *)
Definition make (sys : string)
    (proc : list event -> cmdline -> option nat -> outcome completed) : world :=
  {| platform_system := sys;
     os_chdir := fun _ cwd path =>
       if String.prefix "/" path then Val path else Val (cwd ++ "/" ++ path)%string;
     subprocess_run := proc;
     json_load := fun _ _ => Exc FileNotFoundError;
     re_compile := library |}.

Definition start : state := {| cwd := "/home/dev"; trace := [] |}.

Definition fix_with (cmd : string) : action :=
  {| method := Some "install"; command := Some cmd; command_windows := None;
     command_linux := None; message := None |}.

Definition note (text : string) : action :=
  {| method := Some "manual"; command := None; command_windows := None;
     command_linux := None; message := Some text |}.

Definition entry (re : string) (fixes fallbacks : list action) : pattern :=
  {| regex := Some re; platform := Some ["all"]; auto_fix := Some fixes;
     fallback := Some fallbacks; user_message := Some "known problem";
     other_keys := ["id"] |}.

Definition engine_of (table : list pattern) : engine :=
  {| error_patterns := {| patterns := Some table |}; max_retry_attempts := 3 |}.

Definition asks_shell (c : cmdline) (line : string) : bool :=
  match c with
  | Shell l => String.eqb l line
  | Argv _ => false
  end.

Definition asks_configure (c : cmdline) : bool :=
  match c with
  | Argv ["cmake"; "-B"; "build"] => true
  | _ => false
  end.

(** Configure always fails with a known message; the shell command
    [true] exits 0 and every other one exits 1. *)
Definition configure_broken : world :=
  make "Linux" (fun _ c _ =>
    if asks_configure c then failed 1 "" "CMake Error: generator not found"
    else if asks_shell c "true" then ok ""
    else failed 1 "" "").

(** Configure succeeds and the build step always fails. *)
Definition compile_broken : world :=
  make "Linux" (fun _ c _ =>
    if asks_configure c then ok "-- Configuring done"
    else failed 2 "" "undefined reference to main").

(** [cmake] is not installed. *)
Definition tool_missing : world :=
  make "Linux" (fun _ c _ =>
    match c with
    | Argv _ => Exc FileNotFoundError
    | Shell _ => failed 127 "" "not found"
    end).

(** Everything succeeds. *)
Definition healthy : world := make "Linux" (fun _ _ _ => ok "").

(** Configure always fails with a known message, and every shell command
    runs into its time limit. *)
Definition fix_hangs : world :=
  make "Linux" (fun _ c _ =>
    match c with
    | Argv _ =>
        if asks_configure c then failed 1 "" "CMake Error: generator not found"
        else ok ""
    | Shell _ => Exc TimeoutExpired
    end).

End Scenario.

(** ** Vocabulary of the properties *)

(** The state after a run of events. *)
Definition extend (s : state) (evs : list event) : state :=
  {| cwd := cwd s; trace := trace s ++ evs |}.

(** The shell commands of a run of events, with their results. *)
Definition shell_runs (evs : list event) : list (string * outcome completed) :=
  flat_map (fun e =>
              match e with
              | Run (Shell line) _ r => [(line, r)]
              | _ => []
              end) evs.

Definition exit_zero (r : outcome completed) : bool :=
  match r with
  | Val res => Z.eqb (returncode res) 0
  | Exc _ => false
  end.

Definition unsuccessful (run : string * outcome completed) : bool :=
  negb (exit_zero (snd run)).

(** The commands of the actions that have one, in list order. *)
Definition commands_of (current_platform : string) (fixes : list action) : list string :=
  flat_map (fun fx =>
              let cmd := select_command current_platform fx in
              if Py.truthy cmd then [Py.get cmd ""] else []) fixes.

(** The events of [execute_auto_fix]: shell commands under the 30 second
    limit, and the records about the actions. *)
Definition remediation_event (e : event) : bool :=
  match e with
  | Run (Shell _) (Some 30) _ => true
  | Log INFO (Informational _) => true
  | Log INFO (ExecutingFix _) => true
  | Log INFO (Fixed _) => true
  | Log WARNING (FixTimeout _) => true
  | Log WARNING (FixFailed _ _) => true
  | _ => false
  end.

(** The relation between the answer of [execute_auto_fix] and what it ran:
    on [True] the last command run exited 0, those before it did not, and
    the commands run are an initial part of the list; on [False] every
    command of the list was run and none exited 0. *)
Definition fix_report (cmds : list string) (b : bool) (evs : list event) : Prop :=
  if b then
    exists pre line r later m,
      shell_runs evs = pre ++ [(line, r)]
      /\ exit_zero r = true
      /\ forallb unsuccessful pre = true
      /\ cmds = map fst pre ++ line :: later
      /\ exists before, evs = before ++ [Run (Shell line) (Some 30) r; Log INFO (Fixed m)]
  else
    map fst (shell_runs evs) = cmds
    /\ forallb unsuccessful (shell_runs evs) = true.

(** The events of the recovery block after the record of the failure. *)
Definition recovery_event (e : event) : bool :=
  remediation_event e ||
  match e with
  | Log WARNING (UserMessage _) => true
  | _ => false
  end.

(** Events of an attempt other than the start of a phase. *)
Definition quiet (e : event) : bool :=
  recovery_event e ||
  match e with
  | Log ERROR ConfigureFailed => true
  | Log ERROR BuildFailed => true
  | Log INFO BuildSuccessful => true
  | _ => false
  end.

Definition count (f : event -> bool) (evs : list event) : nat :=
  length (filter f evs).

Definition is_configure (e : event) : bool :=
  match e with
  | Run (Argv ["cmake"; "-B"; "build"]) _ _ => true
  | _ => false
  end.

Definition is_compile (e : event) : bool :=
  match e with
  | Run (Argv ["cmake"; "--build"; "build"]) _ _ => true
  | _ => false
  end.

Definition is_chdir (e : event) : bool :=
  match e with
  | Chdir _ _ => true
  | _ => false
  end.

Definition is_shell_run (e : event) : bool :=
  match e with
  | Run (Shell _) _ _ => true
  | _ => false
  end.

(** A [Build attempt n/total] record with [n] outside [1..limit], or with
    another total, fails this test. *)
Definition attempt_in_range (limit : nat) (e : event) : bool :=
  match e with
  | Log _ (BuildAttempt n total) =>
      Nat.leb 1 n && Nat.leb n limit && Nat.eqb total limit
  | _ => true
  end.

(** The events of one pass through the loop body. *)
Definition attempt_shape (attempt total : nat) (evs : list event) : Prop :=
  exists r1 rest,
    evs = Log INFO (BuildAttempt (attempt + 1) total)
          :: Log INFO RunningConfigure :: Run configure_cmd None r1 :: rest
    /\ (forallb quiet rest = true
        \/ exists r2 rest2,
             rest = Log INFO RunningBuild :: Run compile_cmd None r2 :: rest2
             /\ forallb quiet rest2 = true).

(** Where an exception that leaves the controller was raised: the last
    thing the process did was the request that raised it. *)
Definition raised_at (w : world) (self : engine) (s' : state) (e : exn) : Prop :=
  (exists h c,
      trace s' = h ++ [Run c None (Exc e)]
      /\ (c = configure_cmd \/ c = compile_cmd)
      /\ subprocess_run w h c None = Exc e)
  \/ (exists h failed out,
         trace s' = h ++ [Log ERROR failed]
         /\ match_error_pattern w self out = Exc e).

(** In the words of the specification: the pattern's platform list
    contains the current platform or "all", and its regex matches the
    captured output. *)
Definition qualifies (w : world) (current_platform error_output : string)
    (p : pattern) : bool :=
  let platforms := Py.get (platform p) ["all"] in
  (Py.contains "all" platforms || Py.contains current_platform platforms)
  && match re_search w (Py.get (regex p) "") error_output with
     | Val true => true
     | _ => false
     end.

(** The first pattern in table order that qualifies. *)
Definition first_qualifying (w : world) (current_platform error_output : string)
    (table : list pattern) : option pattern :=
  find (qualifies w current_platform error_output) table.

(** The pattern compiles: it is read by [Re], or by the interpreter. *)
Definition well_formed (w : world) (regex : string) : bool :=
  is_some (Re.compile regex) || is_some (re_compile w regex).

Definition regex_valid (w : world) (p : pattern) : Prop :=
  well_formed w (Py.get (regex p) "") = true.

(** The regexes of the patterns that apply to the current platform are
    well formed. *)
Definition table_well_formed (w : world) (table : list pattern) : Prop :=
  forall q, In q table -> platform_applies (platform_system w) q = true ->
            regex_valid w q.

(** The pattern is examined and left behind: it is for another platform,
    or its regex is not found in the output. *)
Definition passed_over (w : world) (current_platform error_output : string)
    (p : pattern) : bool :=
  negb (platform_applies current_platform p)
  || match re_search w (Py.get (regex p) "") error_output with
     | Val false => true
     | _ => false
     end.

(** The regexes of the patterns that apply to the current platform are
    read by [Re]. *)
Definition table_in_fragment (w : world) (table : list pattern) : Prop :=
  forall q, In q table -> platform_applies (platform_system w) q = true ->
            Re.compile (Py.get (regex q) "") <> None.

(** The warning written for an exception of a remediation command. *)
Definition warning_for (method : string) (e : exn) : log_msg :=
  match e with
  | TimeoutExpired => FixTimeout method
  | _ => FixFailed method e
  end.

Fixpoint lower_string (s : string) : string :=
  match s with
  | EmptyString => EmptyString
  | String c s' => String (Re.lower c) (lower_string s')
  end.

(** How a call ended, when it answered a failure: the step that failed is
    the last process of the trace, and the message is the head for that
    step followed by the first 300 characters of its stderr and stdout. *)
Definition surfaced (evs : list event) (message : string) : Prop :=
  exists before step failed head res,
    evs = before ++ [Run step None (Val res); Log ERROR failed]
    /\ Z.eqb (returncode res) 0 = false
    /\ ((step = configure_cmd /\ failed = ConfigureFailed
         /\ head = "CMake configure failed: ")
        \/ (step = compile_cmd /\ failed = BuildFailed /\ head = "Build failed: "))
    /\ message = (head ++ Py.slice_to 300 (stderr res ++ stdout res))%string.

(** The number of actions a pattern holds, and the largest such number in
    a table. *)
Definition actions_of (p : pattern) : nat :=
  length (Py.get (auto_fix p) []) + length (Py.get (fallback p) []).

Definition actions_bound (table : list pattern) : nat :=
  list_max (map actions_of table).

(** ** Tables and results used in the evaluations *)

Module Evaluation.
Import Scenario.

(** One known pattern whose only auto-fix fails and whose fallback
    succeeds. *)
Definition rescued_by_fallback : engine :=
  engine_of [entry "generator not found" [fix_with "false"] [fix_with "true"]].

(** One known pattern whose auto-fix succeeds. *)
Definition rescued_by_fix : engine :=
  engine_of [entry "generator not found" [fix_with "true"] []].

Definition broken_step : completed :=
  {| returncode := 2; stdout := ""; stderr := "undefined reference to main" |}.

Definition configured_step : completed :=
  {| returncode := 0; stdout := "-- Configuring done"; stderr := "" |}.

(** A pattern for another platform, whose regex is found in the output
    of the broken configure step. *)
Definition windows_only : pattern :=
  {| regex := Some "generator"; platform := Some ["Windows"]; auto_fix := None;
     fallback := None; user_message := None; other_keys := [] |}.

(** A pattern without [regex] nor [platform]. *)
Definition blank : pattern :=
  {| regex := None; platform := None; auto_fix := None; fallback := None;
     user_message := None; other_keys := ["id"] |}.

Definition generator_entry : pattern :=
  entry "generator not found" [fix_with "true"] [].

Definition mixed_table : engine := engine_of [windows_only; generator_entry].

Definition shadowed_table : engine :=
  engine_of [entry "no such text" [] []; blank; generator_entry].

(** A pattern whose regex is ill formed, before the one written for the
    failure. *)
Definition malformed_table : engine :=
  engine_of [entry "(unclosed" [] []; generator_entry].

(** A pattern for another platform, with an ill-formed regex, and a
    pattern with an anchored regex, whose auto-fix and fallback are shell
    commands. *)
Definition foreign_malformed : pattern :=
  {| regex := Some "(unclosed"; platform := Some ["Windows"]; auto_fix := None;
     fallback := None; user_message := None; other_keys := [] |}.

Definition anchored_entry : pattern :=
  entry "^CMake Error" [fix_with "install-generator"] [fix_with "true"].

Definition anchored_table : engine := engine_of [foreign_malformed; anchored_entry].

(** The engine of a missing pattern file. *)
Definition without_table : engine :=
  {| error_patterns := empty_dict; max_retry_attempts := 3 |}.

End Evaluation.

(** * The rest of [scripts/init_project.py] *)

(** ** The environment check *)

(** What [subprocess.run(..., check=True)] raises on a non-zero exit. *)
Definition called_process_error : exn := OtherError "CalledProcessError".

(** [subprocess.run(args, timeout=..., check=True)]. *)
Definition run_checked (w : world) (c : cmdline) (timeout : option nat) : M completed :=
  result <- run w c timeout ;;
  if negb (Z.eqb (returncode result) 0) then raise called_process_error
  else ret result.

Definition cmake_version_cmd : cmdline := Argv ["cmake"; "--version"].

Definition compiler_version_cmd (compiler : string) : cmdline :=
  Argv [compiler; "--version"].

(** The loop [for compiler in compilers] of [validate_environment]: the
    answer is the value of [found] after the loop. *)
Fixpoint probe_compilers (w : world) (compilers : list string) : M bool :=
  match compilers with
  | [] => ret false
  | compiler :: rest =>
      r <- trying (run_checked w (compiler_version_cmd compiler) (Some 2)) ;;
      match r with
      | Val _ => ret true
      | Exc FileNotFoundError => probe_compilers w rest
      | Exc TimeoutExpired => probe_compilers w rest
      | Exc e => raise e
      end
  end.

Definition compilers_for (current_platform : string) : list string :=
  if String.eqb current_platform "Windows"
  then ["g++"; "clang++"; "cl"]
  else ["g++"; "clang++"].

Definition cmake_not_in_path : string := "CMake not found or not in PATH".
Definition cmake_not_installed : string :=
  "CMake not found. Install from https://cmake.org/download/".
Definition no_compiler : string :=
  "No C++ compiler detected. Set CXX environment variable.".

(** [validate_environment]; [environ_cxx] is [os.environ.get("CXX")]. *)
Definition validate_environment (w : world) (environ_cxx : option string)
    (fix_ : bool) : M (bool * list string) :=
  r <- trying (run w cmake_version_cmd (Some 5)) ;;
  issues <-
    match r with
    | Val result =>
        ret (if negb (Z.eqb (returncode result) 0) then [cmake_not_in_path] else [])
    | Exc FileNotFoundError => ret [cmake_not_installed]
    | Exc e => raise e
    end ;;
  issues <-
    (if negb (Py.truthy environ_cxx) then
       found <- probe_compilers w (compilers_for (platform_system w)) ;;
       ret (if negb found then issues ++ [no_compiler] else issues)
     else ret issues) ;;
  ret (Nat.eqb (length issues) 0, issues).

(** *** Vocabulary *)

(** The compilers whose [--version] was asked, with the answers. *)
Definition compiler_probes (evs : list event) : list (string * outcome completed) :=
  flat_map (fun e =>
              match e with
              | Run (Argv [compiler; "--version"]) (Some 2) r => [(compiler, r)]
              | _ => []
              end) evs.

(** A probe after which the loop goes on to the next compiler. *)
Definition probe_skipped (probe : string * outcome completed) : bool :=
  match snd probe with
  | Exc FileNotFoundError => true
  | Exc TimeoutExpired => true
  | _ => false
  end.

(** The issues found by the cmake probe. *)
Definition cmake_issues (r : outcome completed) : list string :=
  match r with
  | Val result => if Z.eqb (returncode result) 0 then [] else [cmake_not_in_path]
  | Exc _ => [cmake_not_installed]
  end.

(** A probe that ends the loop with [found = True]. *)
Definition probe_succeeded (probe : string * outcome completed) : bool :=
  match snd probe with
  | Val result => Z.eqb (returncode result) 0
  | Exc _ => false
  end.

(** What a probe that neither succeeds nor is skipped raises. *)
Definition probe_raises (probe : string * outcome completed) (e : exn) : Prop :=
  e <> FileNotFoundError /\ e <> TimeoutExpired
  /\ (snd probe = Exc e
      \/ exists res, snd probe = Val res /\ returncode res <> 0%Z
                     /\ e = called_process_error).

(** Surroundings where [g++ --version] starts and exits 1, and every other
    program succeeds. *)
Definition broken_gxx : world :=
  Scenario.make "Linux" (fun _ c _ =>
    match c with
    | Argv ["g++"; "--version"] => Scenario.failed 1 "" "g++: internal error"
    | _ => Scenario.ok ""
    end).

(** ** Python text

    Characters are code points below 256. *)

Module Text.

(** [needle in haystack] on two strings. *)
Fixpoint is_in (needle haystack : string) : bool :=
  String.prefix needle haystack ||
  match haystack with
  | EmptyString => false
  | String _ rest => is_in needle rest
  end.

(** [str.lower], character by character. *)
Definition lower_char (c : ascii) : ascii :=
  let n := nat_of_ascii c in
  if (((65 <=? n) && (n <=? 90))
      || ((192 <=? n) && (n <=? 222) && negb (n =? 215)))%nat
  then ascii_of_nat (n + 32) else c.

Fixpoint lower (s : string) : string :=
  match s with
  | EmptyString => EmptyString
  | String c s' => String (lower_char c) (lower s')
  end.

(** [str.isspace] on one character. *)
Definition is_space (c : ascii) : bool :=
  let n := nat_of_ascii c in
  (((9 <=? n) && (n <=? 13)) || ((28 <=? n) && (n <=? 32))
   || (n =? 133) || (n =? 160))%nat.

Definition is_empty (s : string) : bool :=
  match s with
  | EmptyString => true
  | String _ _ => false
  end.

(** [str.split()]: [word] holds the characters read since the last space. *)
Fixpoint split_from (s word : string) : list string :=
  match s with
  | EmptyString => if is_empty word then [] else [word]
  | String c s' =>
      if is_space c then
        if is_empty word then split_from s' EmptyString
        else word :: split_from s' EmptyString
      else split_from s' (word ++ String c EmptyString)
  end.

Definition split (s : string) : list string := split_from s EmptyString.

(** *** [repr] *)

Definition quote : ascii := ascii_of_nat 39.
Definition double_quote : ascii := ascii_of_nat 34.
Definition backslash : ascii := ascii_of_nat 92.

Fixpoint has_char (c : ascii) (s : string) : bool :=
  match s with
  | EmptyString => false
  | String x s' => Ascii.eqb x c || has_char c s'
  end.

(** [str.isprintable] on one character. *)
Definition is_printable (c : ascii) : bool :=
  let n := nat_of_ascii c in
  (((32 <=? n) && (n <=? 126)) || ((161 <=? n) && negb (n =? 173)))%nat.

Definition hex_digit (n : nat) : ascii :=
  if (n <? 10)%nat then ascii_of_nat (48 + n) else ascii_of_nat (87 + n).

(** One character of a [repr], between quotes [q]. *)
Definition repr_char (q c : ascii) : string :=
  let n := nat_of_ascii c in
  if Ascii.eqb c q || Ascii.eqb c backslash then String backslash (String c EmptyString)
  else if (n =? 9)%nat then String backslash "t"
  else if (n =? 10)%nat then String backslash "n"
  else if (n =? 13)%nat then String backslash "r"
  else if is_printable c then String c EmptyString
  else String backslash
         (String "x" (String (hex_digit (n / 16))
                        (String (hex_digit (n mod 16)) EmptyString))).

Fixpoint repr_chars (q : ascii) (s : string) : string :=
  match s with
  | EmptyString => EmptyString
  | String c s' => (repr_char q c ++ repr_chars q s')%string
  end.

(** [repr(s)]: double quotes are chosen when [s] holds a single quote and
    no double quote. *)
Definition repr (s : string) : string :=
  let q := if has_char quote s && negb (has_char double_quote s)
           then double_quote else quote in
  String q (repr_chars q s ++ String q EmptyString).

Fixpoint repr_items (items : list string) : string :=
  match items with
  | [] => EmptyString
  | [x] => repr x
  | x :: rest => (repr x ++ ", " ++ repr_items rest)%string
  end.

(** [str(items)] for a list of strings. *)
Definition str_list (items : list string) : string :=
  ("[" ++ repr_items items ++ "]")%string.

End Text.

(** ** Reading the request and choosing a framework *)

(** One entry of the [gui_frameworks] object of [decisions.json]. *)
Record framework_info : Type := {
  auto_select_when : option (list string);
  use_case_keywords : option (list string)
}.

(** [self.decisions.get("gui_frameworks", {})], in the order of the file. *)
Definition frameworks_table : Type := list (string * framework_info).

(** The dictionary [parse_user_request] answers and
    [auto_select_gui_framework] reads. *)
Record request_info : Type := {
  project_type : option string;
  mentioned_frameworks : option (list string);
  use_cases : option (list string);
  keywords : option (list string)
}.

Definition gui_words : list string :=
  ["gui"; "window"; "ui"; "app"; "viewer"; "viewer"; "graphics"].

Definition library_words : list string := ["library"; "lib"; "static"; "shared"].

Definition any_in (words : list string) (text : string) : bool :=
  existsb (fun word => Text.is_in word text) words.

(** [parse_user_request]. *)
Definition parse_user_request (frameworks : frameworks_table) (user_request : string)
  : request_info :=
  let request_lower := Text.lower user_request in
  let gui_frameworks := map fst frameworks in
  let mentioned :=
    filter (fun f => Text.is_in (Text.lower f) request_lower) gui_frameworks in
  let type :=
    if any_in gui_words request_lower then "gui"
    else if any_in library_words request_lower then "library"
    else "cli" in
  let cases :=
    (if Text.is_in "3d" request_lower || Text.is_in "viewer" request_lower
     then ["3d_viewer"] else [])
    ++ (if Text.is_in "enterprise" request_lower || Text.is_in "professional" request_lower
        then ["enterprise_ui"] else [])
    ++ (if Text.is_in "game" request_lower || Text.is_in "debug" request_lower
        then ["game_tools"] else [])
    ++ (if Text.is_in "simple" request_lower || Text.is_in "minimal" request_lower
        then ["minimal_gui"] else []) in
  {| project_type := Some type;
     mentioned_frameworks := Some mentioned;
     use_cases := Some cases;
     keywords := Some (Text.split request_lower) |}.

Definition count_if {A : Type} (f : A -> bool) (xs : list A) : nat :=
  length (filter f xs).

(** The score of one framework in [auto_select_gui_framework]. *)
Definition score (info : request_info) (fw : framework_info) : nat :=
  10 * count_if (fun use_case => Py.contains use_case (Py.get (auto_select_when fw) []))
         (Py.get (use_cases info) [])
  + 5 * count_if (fun keyword =>
                    Text.is_in keyword
                      (Text.str_list (Py.get (use_case_keywords fw) [])))
          (Py.get (keywords info) []).

(** The dictionary [scores], as the list of its items. *)
Definition scores_of (frameworks : frameworks_table) (info : request_info)
  : list (string * nat) :=
  flat_map (fun entry =>
              let s := score info (snd entry) in
              if (0 <? s)%nat then [(fst entry, s)] else [])
           frameworks.

(** [max(items, key=lambda x: x[1])], from the best item so far. *)
Fixpoint best (items : list (string * nat)) (so_far : string * nat) : string * nat :=
  match items with
  | [] => so_far
  | x :: rest => if (snd so_far <? snd x)%nat then best rest x else best rest so_far
  end.

(** [auto_select_gui_framework]: the answer, and the two names of the
    conflict it logs before answering a mentioned framework. *)
Definition auto_select_gui_framework (frameworks : frameworks_table)
    (info : request_info) : string * option (string * string) :=
  match scores_of frameworks info with
  | [] => ("wxwidgets", None)
  | first :: rest =>
      let selected := fst (best rest first) in
      match Py.get (mentioned_frameworks info) [] with
      | mentioned :: _ =>
          if Py.contains mentioned (map fst frameworks)
          then (mentioned, Some (selected, mentioned))
          else (selected, None)
      | [] => (selected, None)
      end
  end.

(** A table for the evaluations. *)
Definition sample_frameworks : frameworks_table :=
  [("qt6", {| auto_select_when := Some ["enterprise_ui"];
              use_case_keywords := Some ["enterprise"; "professional"] |});
   ("wxwidgets", {| auto_select_when := Some ["minimal_gui"];
                    use_case_keywords := Some ["simple"; "native"] |});
   ("imgui", {| auto_select_when := Some ["game_tools"; "3d_viewer"];
                use_case_keywords := Some ["game"; "debug"; "3d"] |})].

(** The characters of [s] that are no white space. *)
Fixpoint without_spaces (s : string) : string :=
  match s with
  | EmptyString => EmptyString
  | String c s' =>
      if Text.is_space c then without_spaces s' else String c (without_spaces s')
  end.

(** Printable characters that [repr] writes as they are, between single
    quotes. *)
Definition plain_char (c : ascii) : bool :=
  Text.is_printable c && negb (Ascii.eqb c Text.quote)
  && negb (Ascii.eqb c Text.double_quote) && negb (Ascii.eqb c Text.backslash).

Fixpoint plain (s : string) : bool :=
  match s with
  | EmptyString => true
  | String c s' => plain_char c && plain s'
  end.

(** A text without white space. *)
Definition no_space (s : string) : Prop :=
  forall c, Text.has_char c s = true -> Text.is_space c = false.

Local Open Scope string_scope.

(** ** Creating the project files

    A [Path] is kept as the expression that builds it: the directory named
    on the command line, or a path extended by one name with [/].  What
    [Path.mkdir] and [Path.write_text] ask of the file system is answered
    by a [disk], from what was asked before; [path_name] stands for
    [Path(...).name]. *)

Inductive path : Type :=
| Base (name : string)
| Child (parent : path) (part : string).

Inductive fs_event : Type :=
| Mkdir (p : path) (r : outcome unit)
| WriteText (p : path) (content : string) (r : outcome unit).

Record disk : Type := {
  mkdir_exist_ok : list fs_event -> path -> outcome unit;
  write_text : list fs_event -> path -> string -> outcome unit;
  path_name : string -> string
}.

(** Computations on the files: they extend the list of what was asked of
    the disk, and may raise. *)
Definition F (A : Type) : Type := list fs_event -> outcome A * list fs_event.

Definition fret {A : Type} (a : A) : F A := fun h => (Val a, h).

Definition fraise {A : Type} (e : exn) : F A := fun h => (Exc e, h).

Definition fbind {A B : Type} (m : F A) (k : A -> F B) : F B :=
  fun h =>
    match m h with
    | (Val a, h') => k a h'
    | (Exc e, h') => (Exc e, h')
    end.

Definition flift {A : Type} (r : outcome A) : F A := fun h => (r, h).

Declare Scope fs_scope.
Delimit Scope fs_scope with fs.
Notation "x <-- m ;; k" := (fbind m (fun x => k))
  (at level 61, m at next level, right associativity) : fs_scope.
Notation "m ;;; k" := (fbind m (fun _ => k))
  (at level 61, right associativity) : fs_scope.

Definition mkdir (d : disk) (p : path) : F unit :=
  fun h =>
    let r := mkdir_exist_ok d h p in
    (r, (h ++ [Mkdir p r])%list).

Definition write (d : disk) (p : path) (content : string) : F unit :=
  fun h =>
    let r := write_text d h p content in
    (r, (h ++ [WriteText p content r])%list).

(** [p.name]. *)
Definition name_of (d : disk) (p : path) : string :=
  match p with
  | Base n => path_name d n
  | Child _ part => part
  end.

Definition index_error : exn := OtherError "IndexError".
Definition attribute_error : exn := OtherError "AttributeError".

(** The double quote character. *)
Definition dq : string := String (ascii_of_nat 34) EmptyString.

(** [str.upper], character by character, on code points below 256: the
    letters a-z and the lower-case letters of Latin-1 go to their capitals
    and the sharp s to [SS]; the micro sign and the y with diaeresis,
    whose capitals are beyond code point 255, are left as they are. *)
Definition upper_char (c : ascii) : string :=
  let n := nat_of_ascii c in
  if (n =? 223)%nat then "SS"
  else if (((97 <=? n) && (n <=? 122))
           || ((224 <=? n) && (n <=? 254) && negb (n =? 247)))%nat
  then String (ascii_of_nat (n - 32)) EmptyString
  else String c EmptyString.

Fixpoint upper (s : string) : string :=
  match s with
  | EmptyString => EmptyString
  | String c s' => upper_char c ++ upper s'
  end.

Definition gitignore_text : string :=
  "build/
.vs/
*.o
*.exe
".

(** The text of [_create_cli_cmakelists]. *)
Definition cli_cmakelists_text (project_name : string) : string :=
  ("cmake_minimum_required(VERSION 3.15)
project(" ++ project_name ++ " VERSION 1.0.0 LANGUAGES CXX)

set(CMAKE_CXX_STANDARD 17)
set(CMAKE_CXX_STANDARD_REQUIRED ON)
set(CMAKE_CXX_EXTENSIONS OFF)

add_executable(" ++ project_name ++ " src/main.cpp)
target_include_directories(" ++ project_name ++ " PRIVATE include)

target_compile_options(" ++ project_name ++ " PRIVATE
    $<$<CXX_COMPILER_ID:MSVC>:/W4>
    $<$<NOT:$<CXX_COMPILER_ID:MSVC>>:-Wall -Wextra -Wpedantic>
)
")%string.

(** The text of [_create_gui_cmakelists], once [find_package] and
    [target_link] are known. *)
Definition gui_cmakelists_text (project_name find_package target_link : string) : string :=
  ("cmake_minimum_required(VERSION 3.15)
project(" ++ project_name ++ " VERSION 1.0.0 LANGUAGES CXX)

set(CMAKE_CXX_STANDARD 17)
set(CMAKE_CXX_STANDARD_REQUIRED ON)
set(CMAKE_CXX_EXTENSIONS OFF)

# Use vcpkg if available
if(DEFINED ENV{VCPKG_ROOT})
    set(CMAKE_TOOLCHAIN_FILE " ++ dq ++ "$ENV{VCPKG_ROOT}/scripts/buildsystems/vcpkg.cmake" ++ dq ++ ")
endif()

" ++ find_package ++ "

add_executable(" ++ project_name ++ " src/main.cpp)
target_include_directories(" ++ project_name ++ " PRIVATE include)
" ++ target_link ++ "

target_compile_options(" ++ project_name ++ " PRIVATE
    $<$<CXX_COMPILER_ID:MSVC>:/W4>
    $<$<NOT:$<CXX_COMPILER_ID:MSVC>>:-Wall -Wextra -Wpedantic>
)
")%string.

(** The text of [_create_cli_main]. *)
Definition cli_main_text (project_name : string) : string :=
  ("// " ++ project_name ++ " - Command-line application
// Copyright (c) 2025

#include <iostream>

int main() {
  std::cout << " ++ dq ++ "Hello from " ++ project_name ++ "!" ++ dq ++ " << std::endl;
  return 0;
}
")%string.

(** The texts of [_create_gui_main]. *)
Definition qt6_main_text (project_name : string) : string :=
  ("// " ++ project_name ++ " - Qt6 GUI Application
// Copyright (c) 2025

#include <QApplication>
#include <QMainWindow>
#include <QLabel>

int main(int argc, char* argv[]) {
  QApplication app(argc, argv);
  QMainWindow window;
  window.setWindowTitle(" ++ dq ++ "Qt Application" ++ dq ++ ");
  window.resize(400, 300);
  window.show();
  return app.exec();
}
")%string.

Definition wxwidgets_main_text (project_name : string) : string :=
  ("// " ++ project_name ++ " - wxWidgets GUI Application
// Copyright (c) 2025

#include <wx/wx.h>

class MainFrame : public wxFrame {
 public:
  MainFrame() : wxFrame(nullptr, wxID_ANY, " ++ dq ++ "wxWidgets Application" ++ dq ++ ") {
    wxPanel* panel = new wxPanel(this);
    new wxStaticText(panel, wxID_ANY, " ++ dq ++ "Hello, wxWidgets!" ++ dq ++ ");
    SetSize(400, 300);
  }
};

class MainApp : public wxApp {
 public:
  bool OnInit() override {
    MainFrame* frame = new MainFrame();
    frame->Show();
    return true;
  }
};

wxIMPLEMENT_APP(MainApp);
")%string.

Definition other_main_text (project_name framework_upper : string) : string :=
  ("// " ++ project_name ++ " - " ++ framework_upper ++ " GUI Application
// Copyright (c) 2025

#include <iostream>

int main() {
  std::cout << " ++ dq ++ "Hello from " ++ project_name ++ "!" ++ dq ++ " << std::endl;
  return 0;
}
")%string.

(** The text of [_create_clang_format_config]. *)
Definition clang_format_config : string :=
  ("---
Language: Cpp
BasedOnStyle: Google
IndentWidth: 4
ColumnLimit: 120
PointerAlignment: Left
AllowShortFunctionsOnASingleLine: Empty
BreakBeforeBraces: Attach
---
")%string.

(** [_create_cli_cmakelists]. *)
Definition _create_cli_cmakelists (d : disk) (project_dir : path)
    (project_name : string) : F unit :=
  write d (Child project_dir "CMakeLists.txt") (cli_cmakelists_text project_name).

(** The two strings [_create_gui_cmakelists] computes before the text: for
    wxwidgets, [str.format] is given two arguments for three fields. *)
Definition gui_package_lines (project_name framework : string)
  : outcome (string * string) :=
  if String.eqb framework "qt6" then
    Val ("find_package(Qt6 REQUIRED COMPONENTS Core Gui Widgets)",
         ("target_link_libraries(" ++ project_name
          ++ " PRIVATE Qt6::Core Qt6::Gui Qt6::Widgets)")%string)
  else if String.eqb framework "wxwidgets" then
    Exc index_error
  else
    Val (("find_package(" ++ upper framework ++ " REQUIRED)")%string,
         ("target_link_libraries(" ++ project_name ++ " PRIVATE "
          ++ upper framework ++ "::{framework})")%string).

(** [_create_gui_cmakelists]. *)
Definition _create_gui_cmakelists (d : disk) (project_dir : path)
    (project_name framework : string) : F unit :=
  (lines <-- flift (gui_package_lines project_name framework) ;;
   write d (Child project_dir "CMakeLists.txt")
     (gui_cmakelists_text project_name (fst lines) (snd lines)))%fs.

(** [_create_cli_main]. *)
Definition _create_cli_main (d : disk) (project_dir : path)
    (project_name : option string) : F unit :=
  let project_name :=
    match project_name with
    | None => name_of d project_dir
    | Some n => n
    end in
  write d (Child (Child project_dir "src") "main.cpp") (cli_main_text project_name).

(** The text [_create_gui_main] writes; without a framework, the last
    branch asks [None] for its [upper]. *)
Definition gui_main_text (project_name : string) (framework : option string)
  : outcome string :=
  match framework with
  | Some fw =>
      if String.eqb fw "qt6" then Val (qt6_main_text project_name)
      else if String.eqb fw "wxwidgets" then Val (wxwidgets_main_text project_name)
      else Val (other_main_text project_name (upper fw))
  | None => Exc attribute_error
  end.

(** [_create_gui_main]. *)
Definition _create_gui_main (d : disk) (project_dir : path)
    (framework : option string) (project_name : option string) : F unit :=
  let project_name :=
    match project_name with
    | None => name_of d project_dir
    | Some n => n
    end in
  (main_content <-- flift (gui_main_text project_name framework) ;;
   write d (Child (Child project_dir "src") "main.cpp") main_content)%fs.

(** *** [json.dumps(..., indent=2)] of the manifest *)

Definition backslash : string := String (ascii_of_nat 92) EmptyString.

Definition hex_digit (n : nat) : ascii :=
  if (n <? 10)%nat then ascii_of_nat (48 + n) else ascii_of_nat (87 + n).

(** One character inside a JSON string, as [json.dumps] writes it with
    [ensure_ascii]. *)
Definition json_char (c : ascii) : string :=
  let n := nat_of_ascii c in
  if (n =? 34)%nat then backslash ++ dq
  else if (n =? 92)%nat then backslash ++ backslash
  else if (n =? 10)%nat then backslash ++ "n"
  else if (n =? 13)%nat then backslash ++ "r"
  else if (n =? 9)%nat then backslash ++ "t"
  else if (n =? 12)%nat then backslash ++ "f"
  else if (n =? 8)%nat then backslash ++ "b"
  else if ((32 <=? n) && (n <=? 126))%nat then String c EmptyString
  else backslash ++ "u00"
       ++ String (hex_digit (n / 16)) (String (hex_digit (n mod 16)) EmptyString).

Fixpoint json_escape (s : string) : string :=
  match s with
  | EmptyString => EmptyString
  | String c s' => json_char c ++ json_escape s'
  end.

Definition json_string (s : string) : string := dq ++ json_escape s ++ dq.

Definition newline : string := String (ascii_of_nat 10) EmptyString.

(** The items of a list at the second level of indentation. *)
Fixpoint json_items (items : list string) : string :=
  match items with
  | [] => EmptyString
  | [x] => "    " ++ json_string x ++ newline
  | x :: rest => "    " ++ json_string x ++ "," ++ newline ++ json_items rest
  end.

Definition json_list (items : list string) : string :=
  match items with
  | [] => "[]"
  | _ :: _ => "[" ++ newline ++ json_items items ++ "  ]"
  end.

(** [json.dumps({"name": name, "version": "1.0.0", "dependencies":
    dependencies}, indent=2)]. *)
Definition vcpkg_manifest (name : string) (dependencies : list string) : string :=
  "{" ++ newline
  ++ "  " ++ json_string "name" ++ ": " ++ json_string name ++ "," ++ newline
  ++ "  " ++ json_string "version" ++ ": " ++ json_string "1.0.0" ++ "," ++ newline
  ++ "  " ++ json_string "dependencies" ++ ": " ++ json_list dependencies ++ newline
  ++ "}".

Definition vcpkg_dependencies (framework : string) : list string :=
  if String.eqb framework "qt6" then ["qt6-base"]
  else if String.eqb framework "wxwidgets" then ["wxwidgets"]
  else if String.eqb framework "fltk" then ["fltk"]
  else if String.eqb framework "imgui" then ["imgui"]
  else [].

(** [_create_vcpkg_json]. *)
Definition _create_vcpkg_json (d : disk) (project_dir : path)
    (framework : string) : F unit :=
  write d (Child project_dir "vcpkg.json")
    (vcpkg_manifest (name_of d project_dir) (vcpkg_dependencies framework)).

(** [_create_clang_format_config]. *)
Definition _create_clang_format_config (d : disk) (project_dir : path) : F unit :=
  write d (Child project_dir ".clang-format") clang_format_config.

(** [create_basic_project]. *)
Definition create_basic_project (d : disk) (project_name project_type : string)
    (gui_framework : option string) : F bool :=
  let project_dir := Base project_name in
  (mkdir d project_dir ;;;
   mkdir d (Child project_dir "src") ;;;
   mkdir d (Child project_dir "include") ;;;
   write d (Child project_dir ".gitignore") gitignore_text ;;;
   (if String.eqb project_type "gui" && Py.truthy gui_framework
    then _create_gui_cmakelists d project_dir project_name (Py.get gui_framework "")
    else _create_cli_cmakelists d project_dir project_name) ;;;
   (if String.eqb project_type "gui"
    then _create_gui_main d project_dir gui_framework (Some project_name)
    else _create_cli_main d project_dir (Some project_name)) ;;;
   (if Py.truthy gui_framework
    then _create_vcpkg_json d project_dir (Py.get gui_framework "")
    else fret tt) ;;;
   _create_clang_format_config d project_dir ;;;
   fret true)%fs.

(** A disk that accepts everything, with names read as [PurePosixPath]
    reads them: the last part between slashes that is neither empty nor a
    single dot. *)
Definition or_earlier (part earlier : string) : string :=
  if String.eqb part "" || String.eqb part "." then earlier else part.

Fixpoint last_part (s part earlier : string) : string :=
  match s with
  | EmptyString => or_earlier part earlier
  | String c s' =>
      if Ascii.eqb c "/" then last_part s' EmptyString (or_earlier part earlier)
      else last_part s' (part ++ String c EmptyString) earlier
  end.

Definition willing_disk : disk :=
  {| mkdir_exist_ok := fun _ _ => Val tt;
     write_text := fun _ _ _ => Val tt;
     path_name := fun s => last_part s EmptyString EmptyString |}.

Local Open Scope list_scope.

(** *** Vocabulary *)

(** A request the disk accepted. *)
Definition accepted (ev : fs_event) : bool :=
  match ev with
  | Mkdir _ (Val _) => true
  | WriteText _ _ (Val _) => true
  | _ => false
  end.

(** What a request the disk refused raised. *)
Definition refused_with (ev : fs_event) (e : exn) : Prop :=
  match ev with
  | Mkdir _ r => r = Exc e
  | WriteText _ _ r => r = Exc e
  end.

(** The files of a list of requests, and its directories. *)
Definition written (evs : list fs_event) : list path :=
  flat_map (fun ev =>
              match ev with
              | WriteText p _ _ => [p]
              | Mkdir _ _ => []
              end) evs.

Definition made (evs : list fs_event) : list path :=
  flat_map (fun ev =>
              match ev with
              | Mkdir p _ => [p]
              | WriteText _ _ _ => []
              end) evs.

(** A computation that stops at the first request the disk refuses, and
    otherwise raises only [own], with every request accepted. *)
Definition orderly {A : Type} (own : exn -> Prop) (m : F A) : Prop :=
  forall h, exists r evs,
    m h = (r, h ++ evs)
    /\ match r with
       | Val _ => forallb accepted evs = true
       | Exc e =>
           (forallb accepted evs = true /\ own e)
           \/ exists before last,
                evs = before ++ [last]
                /\ forallb accepted before = true
                /\ refused_with last e
       end.

(** What [create_basic_project] raises by itself. *)
Definition own_error (e : exn) : Prop := e = index_error \/ e = attribute_error.

(** The requests of a list of events: [(true, p)] for a file written,
    [(false, p)] for a directory made. *)
Definition requests (evs : list fs_event) : list (bool * path) :=
  map (fun ev =>
         match ev with
         | Mkdir p _ => (false, p)
         | WriteText p _ _ => (true, p)
         end) evs.

(** A computation that, when it returns, made exactly the requests [ps],
    all accepted, and returned a value in [post]. *)
Definition performs {A : Type} (m : F A) (ps : list (bool * path)) (post : A -> Prop)
  : Prop :=
  forall h,
    match m h with
    | (Val a, h') =>
        post a /\ exists evs, h' = h ++ evs /\ forallb accepted evs = true
                              /\ requests evs = ps
    | (Exc _, _) => True
    end.

(** The files of a project, in the order they are written. *)
Definition project_files (project_name : string) (gui_framework : option string)
  : list (bool * path) :=
  [(false, Base project_name);
   (false, Child (Base project_name) "src");
   (false, Child (Base project_name) "include");
   (true, Child (Base project_name) ".gitignore");
   (true, Child (Base project_name) "CMakeLists.txt");
   (true, Child (Child (Base project_name) "src") "main.cpp")]
  ++ (if Py.truthy gui_framework
      then [(true, Child (Base project_name) "vcpkg.json")] else [])
  ++ [(true, Child (Base project_name) ".clang-format")].

(** * Properties *)

(** ** States and steps *)

Lemma extend_nil (s : state) : extend s [] = s.
Proof. destruct s; unfold extend; simpl; now rewrite app_nil_r. Qed.

Lemma extend_extend (s : state) (a b : list event) :
  extend (extend s a) b = extend s (a ++ b).
Proof. unfold extend; simpl; now rewrite app_assoc. Qed.

Section Steps.
Context {A B : Type}.

Lemma bind_ret (a : A) (k : A -> M B) (s : state) : bind (ret a) k s = k a s.
Proof. reflexivity. Qed.

Lemma bind_lift (r : outcome A) (k : A -> M B) (s : state) :
  bind (lift r) k s =
  match r with
  | Val a => k a s
  | Exc e => (Exc e, s)
  end.
Proof. reflexivity. Qed.

Lemma bind_log (lvl : level) (m : log_msg) (k : unit -> M B) (s : state) :
  bind (log lvl m) k s = k tt (extend s [Log lvl m]).
Proof. reflexivity. Qed.

Lemma bind_run (w : world) (c : cmdline) (t : option nat)
    (k : completed -> M B) (s : state) :
  bind (run w c t) k s =
  match subprocess_run w (trace s) c t with
  | Val res => k res (extend s [Run c t (subprocess_run w (trace s) c t)])
  | Exc e => (Exc e, extend s [Run c t (subprocess_run w (trace s) c t)])
  end.
Proof. unfold bind, run; simpl. now destruct (subprocess_run w (trace s) c t). Qed.

Lemma bind_trying_run (w : world) (c : cmdline) (t : option nat)
    (k : outcome completed -> M B) (s : state) :
  bind (trying (run w c t)) k s =
  k (subprocess_run w (trace s) c t)
    (extend s [Run c t (subprocess_run w (trace s) c t)]).
Proof. reflexivity. Qed.

Lemma bind_bind {C : Type} (m : M A) (k : A -> M B) (h : B -> M C) (s : state) :
  bind (bind m k) h s = bind m (fun a => bind (k a) h) s.
Proof. unfold bind. destruct (m s) as [[a|e] s']; reflexivity. Qed.
End Steps.

(** ** The model on small inputs *)

(** [re.search] on the kind of text cmake prints: letter case is ignored,
    [.] stops at the end of a line, and a dangling quantifier is an error. *)
Example re_search_examples :
  (forall w,
      re_search w "cmake.*not found|command not found" "CMake Error: compiler NOT FOUND"
      = Val true
      /\ re_search w "could not find .*\.cmake" "Could not find FooConfig.cmake"
         = Val true
      /\ re_search w "error.*generator" ("error:" ++ String Re.newline "generator")%string
         = Val false
      /\ re_search w "(msvc|gcc) missing" "clang missing" = Val false)
  /\ re_search Scenario.healthy "^CMake Error" "cmake error: no generator" = Val true
  /\ re_search Scenario.healthy "^CMake Error" "-- CMake Error" = Val false
  /\ re_search Scenario.healthy "a**" "aaa" = Exc ReError
  /\ re_search Scenario.healthy "(unclosed" "unclosed" = Exc ReError.
Proof.
  split; [intros w; vm_compute; repeat split; reflexivity|].
  vm_compute. repeat split; reflexivity.
Qed.

(** [execute_auto_fix] on four actions: a note, a command that exits 1, one
    that exits 0, and one that is never reached. *)
Example first_success_stops_the_loop :
  execute_auto_fix Scenario.configure_broken
    (dict_auto_fix [Scenario.note "see the manual"; Scenario.fix_with "false";
                    Scenario.fix_with "true"; Scenario.fix_with "make install"])
    Scenario.start
  = (Val true,
     extend Scenario.start
       [Log INFO (Informational "see the manual");
        Log INFO (ExecutingFix "install");
        Run (Shell "false") (Some 30) (Scenario.failed 1 "" "");
        Log INFO (ExecutingFix "install");
        Run (Shell "true") (Some 30) (Scenario.ok "");
        Log INFO (Fixed "install")]).
Proof. vm_compute. reflexivity. Qed.

(** Configure fails with a known message and the auto-fix command exits
    0: the loop goes on to the next attempt, three times. *)
Lemma successful_fix_retries :
  fst (build_with_validation Scenario.configure_broken Evaluation.rescued_by_fix
         "/work/proj" Scenario.start)
  = Val (false, "Build failed after 3 attempts")
  /\ count is_configure
       (trace (snd (build_with_validation Scenario.configure_broken
                      Evaluation.rescued_by_fix "/work/proj" Scenario.start)))
     = 3.
Proof. vm_compute. split; reflexivity. Qed.

(** ** Matching a failure against the table *)

Lemma platform_applies_contains (sys : string) (p : pattern) :
  platform_applies sys p
  = Py.contains "all" (Py.get (platform p) ["all"])
    || Py.contains sys (Py.get (platform p) ["all"]).
Proof.
  unfold platform_applies.
  now destruct (Py.contains "all" _), (Py.contains sys _).
Qed.

Lemma re_search_valid (w : world) (re out : string) :
  well_formed w re = true -> exists b, re_search w re out = Val b.
Proof.
  unfold well_formed, re_search.
  destruct (Re.compile re) as [r|]; [intros _; now exists (Re.search_from r out)|].
  destruct (re_compile w re) as [found_in|]; [|discriminate].
  intros _. now exists (found_in out).
Qed.

Lemma re_search_raises (w : world) (re out : string) (e : exn) :
  re_search w re out = Exc e -> e = ReError /\ well_formed w re = false.
Proof.
  unfold well_formed, re_search. destruct (Re.compile re); [discriminate|].
  destruct (re_compile w re); [discriminate|].
  intros H. now inversion H.
Qed.

(** The empty pattern is found in every text. *)
Lemma re_search_empty (w : world) (out : string) : re_search w "" out = Val true.
Proof. unfold re_search. cbn [Re.compile Re.parse Re.stack]. now destruct out. Qed.

Lemma match_loop_app (w : world) (sys out : string) (l1 l2 : list pattern) :
  match_loop w sys out (l1 ++ l2)
  = match match_loop w sys out l1 with
    | Val None => match_loop w sys out l2
    | r => r
    end.
Proof.
  induction l1 as [|p l1 IH]; [reflexivity|].
  cbn [app match_loop].
  destruct (platform_applies sys p); cbn [negb]; [|exact IH].
  destruct (re_search w _ out) as [[|]|e]; auto.
Qed.

Lemma passed_over_not_qualifies (w : world) (sys out : string) (p : pattern) :
  passed_over w sys out p = true -> qualifies w sys out p = false.
Proof.
  unfold passed_over, qualifies. rewrite <- platform_applies_contains.
  destruct (platform_applies sys p); cbn [negb orb andb]; [|reflexivity].
  now destruct (re_search w _ out) as [[|]|e].
Qed.

(** What [match_loop] answers, whatever the table holds: the patterns are
    examined in order, up to the first one that applies to the platform
    and whose regex is found in the output, or is ill formed. *)
Lemma match_loop_sound (w : world) (sys out : string) (table : list pattern) :
  match match_loop w sys out table with
  | Val (Some p) =>
      exists l1 l2,
        table = l1 ++ p :: l2
        /\ forallb (passed_over w sys out) l1 = true
        /\ qualifies w sys out p = true
  | Val None => forallb (passed_over w sys out) table = true
  | Exc e =>
      e = ReError
      /\ exists l1 q l2,
           table = l1 ++ q :: l2
           /\ forallb (passed_over w sys out) l1 = true
           /\ platform_applies sys q = true
           /\ well_formed w (Py.get (regex q) "") = false
  end.
Proof.
  induction table as [|p rest IH]; [reflexivity|].
  cbn [match_loop].
  assert (Hskip : passed_over w sys out p = true ->
            match match_loop w sys out rest with
            | Val (Some p0) =>
                exists l1 l2, p :: rest = l1 ++ p0 :: l2
                  /\ forallb (passed_over w sys out) l1 = true
                  /\ qualifies w sys out p0 = true
            | Val None => forallb (passed_over w sys out) (p :: rest) = true
            | Exc e => e = ReError
                /\ exists l1 q l2, p :: rest = l1 ++ q :: l2
                     /\ forallb (passed_over w sys out) l1 = true
                     /\ platform_applies sys q = true
                     /\ well_formed w (Py.get (regex q) "") = false
            end).
  { intros Hq. destruct (match_loop w sys out rest) as [[p0|]|e].
    - destruct IH as (l1 & l2 & -> & Hl1 & Hp0).
      exists (p :: l1), l2. cbn [forallb app]. now rewrite Hq, Hl1.
    - cbn [forallb]. now rewrite Hq, IH.
    - destruct IH as (-> & l1 & q & l2 & -> & Hl1 & Ha & Hv). split; [reflexivity|].
      exists (p :: l1), q, l2. cbn [forallb app]. now rewrite Hq, Hl1. }
  destruct (platform_applies sys p) eqn:Happ; cbn [negb].
  2: { apply Hskip. unfold passed_over. now rewrite Happ. }
  destruct (re_search w (Py.get (regex p) "") out) as [[|]|e] eqn:Hs.
  - exists [], rest. cbn [app forallb]. unfold qualifies.
    rewrite <- platform_applies_contains, Happ, Hs. auto.
  - apply Hskip. unfold passed_over. rewrite Hs. apply orb_true_r.
  - apply re_search_raises in Hs as [-> Hc]. split; [reflexivity|].
    exists [], p, rest. auto.
Qed.

Lemma find_passed_over (w : world) (sys out : string) (l1 l2 : list pattern) :
  forallb (passed_over w sys out) l1 = true ->
  find (qualifies w sys out) (l1 ++ l2) = find (qualifies w sys out) l2.
Proof.
  induction l1 as [|q l1 IH]; [reflexivity|].
  cbn [forallb app find]. intros H. apply andb_true_iff in H as [Hq Hl1].
  now rewrite (passed_over_not_qualifies _ _ _ _ Hq), IH.
Qed.

(** When the search returns, it returns the first pattern that qualifies. *)
Lemma match_loop_returns (w : world) (sys out : string) (table : list pattern)
    (r : option pattern) :
  match_loop w sys out table = Val r -> r = first_qualifying w sys out table.
Proof.
  intros Hm. pose proof (match_loop_sound w sys out table) as Hs.
  rewrite Hm in Hs. unfold first_qualifying. destruct r as [p|].
  - destruct Hs as (l1 & l2 & -> & Hl1 & Hp).
    rewrite (find_passed_over _ _ _ _ _ Hl1). cbn [find]. now rewrite Hp.
  - rewrite <- (app_nil_r table), (find_passed_over _ _ _ _ _ Hs). reflexivity.
Qed.

Lemma match_loop_first (w : world) (sys out : string) (table : list pattern) :
  (forall q, In q table -> platform_applies sys q = true -> regex_valid w q) ->
  match_loop w sys out table = Val (first_qualifying w sys out table).
Proof.
  intros Hv. pose proof (match_loop_sound w sys out table) as Hs.
  destruct (match_loop w sys out table) as [r|e] eqn:Hm.
  - f_equal. now apply match_loop_returns.
  - exfalso. destruct Hs as (_ & l1 & q & l2 & -> & _ & Ha & Hbad).
    assert (Hin : In q (l1 ++ q :: l2)) by (apply in_or_app; right; now left).
    specialize (Hv q Hin Ha). unfold regex_valid in Hv. congruence.
Qed.

Lemma match_error_pattern_valid (w : world) (self : engine) (out : string) :
  table_well_formed w (Py.get (patterns (error_patterns self)) []) ->
  match_error_pattern w self out
  = Val (first_qualifying w (platform_system w) out
           (Py.get (patterns (error_patterns self)) [])).
Proof. intros Hv. unfold match_error_pattern. now apply match_loop_first. Qed.

Lemma match_error_pattern_in_table (w : world) (self : engine) (out : string)
    (p : pattern) :
  match_error_pattern w self out = Val (Some p) ->
  In p (Py.get (patterns (error_patterns self)) []).
Proof.
  unfold match_error_pattern. intros Hm.
  pose proof (match_loop_sound w (platform_system w) out
                (Py.get (patterns (error_patterns self)) [])) as Hs.
  rewrite Hm in Hs. destruct Hs as (l1 & l2 & -> & _).
  apply in_or_app. right. now left.
Qed.

(** ** Letter case *)

Lemma lower_idempotent (c : ascii) : Re.lower (Re.lower c) = Re.lower c.
Proof. destruct c as [[] [] [] [] [] [] [] []]; reflexivity. Qed.

Lemma lower_newline (c : ascii) :
  Ascii.eqb (Re.lower c) Re.newline = Ascii.eqb c Re.newline.
Proof. destruct c as [[] [] [] [] [] [] [] []]; reflexivity. Qed.

Lemma deriv_lower (c : ascii) (r : Re.regex) :
  Re.deriv (Re.lower c) r = Re.deriv c r.
Proof.
  induction r as [| |d| |r1 IH1 r2 IH2|r1 IH1 r2 IH2|r1 IH1]; cbn [Re.deriv];
    try reflexivity.
  - now rewrite lower_idempotent.
  - now rewrite lower_newline.
  - now rewrite IH1, IH2.
  - now rewrite IH1, IH2.
  - now rewrite IH1.
Qed.

Lemma match_here_lower (text : string) :
  forall r, Re.match_here r (lower_string text) = Re.match_here r text.
Proof.
  induction text as [|c text IH]; intros r; [reflexivity|].
  cbn [lower_string Re.match_here]. now rewrite deriv_lower, IH.
Qed.

Lemma search_from_lower (r : Re.regex) (text : string) :
  Re.search_from r (lower_string text) = Re.search_from r text.
Proof.
  induction text as [|c text IH]; [reflexivity|].
  cbn [lower_string Re.search_from]. rewrite IH.
  change (String (Re.lower c) (lower_string text)) with (lower_string (String c text)).
  now rewrite match_here_lower.
Qed.

Lemma re_search_lower (w : world) (re text : string) :
  Re.compile re <> None ->
  re_search w re (lower_string text) = re_search w re text.
Proof.
  unfold re_search. destruct (Re.compile re); [|congruence].
  intros _. now rewrite search_from_lower.
Qed.

Lemma match_loop_lower (w : world) (sys out : string) (table : list pattern) :
  (forall q, In q table -> platform_applies sys q = true ->
             Re.compile (Py.get (regex q) "") <> None) ->
  match_loop w sys (lower_string out) table = match_loop w sys out table.
Proof.
  induction table as [|p rest IH]; intros Hf; [reflexivity|].
  cbn [match_loop].
  rewrite IH by (intros q Hq; apply Hf; now right).
  destruct (platform_applies sys p) eqn:Happ; cbn [negb]; [|reflexivity].
  now rewrite re_search_lower by (apply Hf; [now left|exact Happ]).
Qed.

(** ** First match wins *)

(** C5, as stated, fails: a pattern with an ill-formed regex stands before
    the pattern whose regex is found in the output.  The second pattern is
    the first one that qualifies, and the call raises [re.error] instead of
    answering it. *)
Lemma malformed_regex_raises :
  first_qualifying Scenario.configure_broken "Linux" "CMake Error: generator not found"
    (Py.get (patterns (error_patterns Evaluation.malformed_table)) [])
  = Some Evaluation.generator_entry
  /\ match_error_pattern Scenario.configure_broken Evaluation.malformed_table
       "CMake Error: generator not found"
     = Exc ReError
  /\ ~ (forall w self error_output,
           match_error_pattern w self error_output
           = Val (first_qualifying w (platform_system w) error_output
                    (Py.get (patterns (error_patterns self)) []))).
Proof.
  assert (Heval : match_error_pattern Scenario.configure_broken
                    Evaluation.malformed_table "CMake Error: generator not found"
                  = Exc ReError) by (vm_compute; reflexivity).
  split; [vm_compute; reflexivity|]. split; [exact Heval|].
  intros Hall.
  rewrite (Hall Scenario.configure_broken Evaluation.malformed_table
             "CMake Error: generator not found") in Heval.
  discriminate.
Qed.

(** C5, as the code has it.  [match_error_pattern] examines the patterns
    in table order and leaves behind those whose platform list holds
    neither the current platform nor "all" and those whose regex is not
    found in the output.  It answers the first pattern that is not left
    behind when the regex of that pattern is found, [None] at the end of
    the table, and raises [re.error] when the regex of that pattern is
    ill formed.  So: whenever it returns, it returns the first pattern in
    table order that qualifies, or [None] when there is none; it returns
    whenever the regexes of the patterns for the current platform are well
    formed; a pattern whose platform list holds neither the current
    platform nor "all" is never the answer, whatever its regex; and for
    the patterns read by [Re] the search does not depend on the letter
    case of the output. *)
Theorem match_error_pattern_first_qualifying
    (w : world) (self : engine) (error_output : string) :
  let table := Py.get (patterns (error_patterns self)) [] in
  let sys := platform_system w in
  match match_error_pattern w self error_output with
  | Val (Some p) =>
      exists l1 l2,
        table = l1 ++ p :: l2
        /\ forallb (passed_over w sys error_output) l1 = true
        /\ qualifies w sys error_output p = true
  | Val None => forallb (passed_over w sys error_output) table = true
  | Exc e =>
      e = ReError
      /\ exists l1 q l2,
           table = l1 ++ q :: l2
           /\ forallb (passed_over w sys error_output) l1 = true
           /\ platform_applies sys q = true
           /\ well_formed w (Py.get (regex q) "") = false
  end
  /\ (forall r,
         match_error_pattern w self error_output = Val r ->
         r = first_qualifying w sys error_output table)
  /\ (table_well_formed w table ->
      match_error_pattern w self error_output
      = Val (first_qualifying w sys error_output table))
  /\ (forall p,
         Py.contains "all" (Py.get (platform p) ["all"]) = false ->
         Py.contains sys (Py.get (platform p) ["all"]) = false ->
         match_error_pattern w self error_output <> Val (Some p))
  /\ (table_in_fragment w table ->
      match_error_pattern w self (lower_string error_output)
      = match_error_pattern w self error_output).
Proof.
  intros table sys.
  pose proof (match_loop_sound w sys error_output table) as Hsound.
  unfold match_error_pattern. fold table. fold sys.
  split; [exact Hsound|]. split; [|split; [|split]].
  - intros r. apply match_loop_returns.
  - apply match_loop_first.
  - intros p Hall Hsys Heq. rewrite Heq in Hsound.
    destruct Hsound as (l1 & l2 & _ & _ & Hq).
    unfold qualifies in Hq. now rewrite Hall, Hsys in Hq.
  - apply match_loop_lower.
Qed.

(** C5 on a table whose first pattern is for another platform and has an
    ill-formed regex, and whose second pattern has an anchored regex: the
    second one is the answer. *)
Lemma match_error_pattern_first_qualifying_witness :
  table_well_formed Scenario.configure_broken
    (Py.get (patterns (error_patterns Evaluation.anchored_table)) [])
  /\ match_error_pattern Scenario.configure_broken Evaluation.anchored_table
       "CMake Error: GENERATOR NOT FOUND"
     = Val (Some Evaluation.anchored_entry).
Proof.
  assert (Hv : table_well_formed Scenario.configure_broken
                 (Py.get (patterns (error_patterns Evaluation.anchored_table)) [])).
  { intros q [<-|[<-|[]]] Happ; [discriminate Happ|reflexivity]. }
  split; [exact Hv|].
  destruct (match_error_pattern_first_qualifying Scenario.configure_broken
              Evaluation.anchored_table "CMake Error: GENERATOR NOT FOUND")
    as (_ & _ & Hfirst & _).
  rewrite (Hfirst Hv). vm_compute. reflexivity.
Defined.

(** C9.  A pattern whose [regex] key is missing or empty, and which
    applies to the current platform, is found in every output: the search
    never gets past it, so that the answer is the one of the table cut
    after this pattern, and is this pattern itself when nothing before it
    matched. *)
Theorem empty_regex_shadows_later_patterns
    (w : world) (self : engine) (error_output : string)
    (l1 l2 : list pattern) (p : pattern) :
  Py.get (patterns (error_patterns self)) [] = l1 ++ p :: l2 ->
  regex p = None \/ regex p = Some "" ->
  platform_applies (platform_system w) p = true ->
  Py.get (regex p) "" = ""
  /\ re_search w (Py.get (regex p) "") error_output = Val true
  /\ qualifies w (platform_system w) error_output p = true
  /\ match_error_pattern w self error_output
     = match_loop w (platform_system w) error_output (l1 ++ [p])
  /\ match match_loop w (platform_system w) error_output l1 with
     | Val None => match_error_pattern w self error_output = Val (Some p)
     | r => match_error_pattern w self error_output = r
     end.
Proof.
  intros Htable Hregex Happ.
  assert (Hre : Py.get (regex p) "" = "") by (destruct Hregex as [-> | ->]; reflexivity).
  assert (Hhere : forall rest,
             match_loop w (platform_system w) error_output (p :: rest) = Val (Some p)).
  { intros rest. cbn [match_loop]. now rewrite Happ, Hre, re_search_empty. }
  split; [exact Hre|]. split; [rewrite Hre; apply re_search_empty|]. split.
  { unfold qualifies. rewrite <- platform_applies_contains, Happ, Hre, re_search_empty.
    reflexivity. }
  unfold match_error_pattern. rewrite Htable, !match_loop_app, !Hhere.
  split; [reflexivity|].
  now destruct (match_loop w (platform_system w) error_output l1) as [[q|]|e].
Qed.

(** C9 on a table where a pattern without regex stands before the one
    written for the failure. *)
Lemma empty_regex_shadows_later_patterns_witness :
  match_error_pattern Scenario.configure_broken Evaluation.shadowed_table
    "CMake Error: generator not found"
  = Val (Some Evaluation.blank).
Proof.
  destruct (empty_regex_shadows_later_patterns Scenario.configure_broken
              Evaluation.shadowed_table "CMake Error: generator not found"
              [Scenario.entry "no such text" [] []] [Evaluation.generator_entry]
              Evaluation.blank)
    as (_ & _ & _ & _ & H).
  - reflexivity.
  - left. reflexivity.
  - reflexivity.
  - exact H.
Defined.

(** ** What [execute_auto_fix] runs *)

Lemma shell_runs_cons (e : event) (evs : list event) :
  shell_runs (e :: evs) = shell_runs [e] ++ shell_runs evs.
Proof. unfold shell_runs. simpl. now rewrite app_nil_r. Qed.

Lemma fix_report_skip (cmds : list string) (b : bool) (e : event) (evs : list event) :
  shell_runs [e] = [] ->
  fix_report cmds b evs -> fix_report cmds b (e :: evs).
Proof.
  intros He H. unfold fix_report in *. rewrite shell_runs_cons, He.
  destruct b; [|exact H].
  destruct H as (pre & line & r & later & m & Hr & Hz & Hp & Hc & before & Hb).
  exists pre, line, r, later, m. repeat split; auto.
  exists (e :: before). now rewrite Hb.
Qed.

Lemma fix_report_failed (cmds : list string) (b : bool) (line : string)
    (t : option nat) (r : outcome completed) (evs : list event) :
  exit_zero r = false ->
  fix_report cmds b evs ->
  fix_report (line :: cmds) b (Run (Shell line) t r :: evs).
Proof.
  intros Hr H. unfold fix_report in *. rewrite shell_runs_cons.
  change (shell_runs [Run (Shell line) t r]) with [(line, r)].
  destruct b.
  - destruct H as (pre & l & r' & later & m & Hs & Hz & Hp & Hc & before & Hb).
    exists ((line, r) :: pre), l, r', later, m. repeat split; auto.
    + simpl. now rewrite Hs.
    + simpl. unfold unsuccessful at 1. simpl. now rewrite Hr.
    + simpl. now rewrite Hc.
    + exists (Run (Shell line) t r :: before). now rewrite Hb.
  - destruct H as [Hm Hf]. split.
    + simpl. now rewrite Hm.
    + simpl. unfold unsuccessful at 1. simpl. now rewrite Hr.
Qed.

Lemma auto_fix_loop_report (w : world) (fixes : list action) :
  forall s, exists b evs,
    auto_fix_loop w fixes s = (Val b, extend s evs)
    /\ forallb remediation_event evs = true
    /\ fix_report (commands_of (platform_system w) fixes) b evs.
Proof.
  induction fixes as [|fx rest IH]; intros s.
  - exists false, []. rewrite extend_nil. repeat split; reflexivity.
  - cbn [auto_fix_loop]. unfold commands_of. cbn [flat_map].
    fold (commands_of (platform_system w) rest).
    destruct (Py.truthy (select_command (platform_system w) fx)) eqn:Hcmd; cbn [negb].
    + rewrite bind_log, bind_trying_run.
      set (s1 := extend s _).
      set (line := Py.get (select_command (platform_system w) fx) "").
      destruct (subprocess_run w (trace s1) (Shell line) (Some 30)) as [res|e] eqn:Hrun.
      * destruct (Z.eqb (returncode res) 0) eqn:Hz.
        -- rewrite bind_log. unfold ret. subst s1. rewrite !extend_extend.
           exists true. eexists. split; [reflexivity|]. split; [reflexivity|].
           exists [], line, (Val res), (commands_of (platform_system w) rest),
             (Py.get (method fx) "").
           simpl. repeat split; auto.
           now exists [Log INFO (ExecutingFix (Py.get (method fx) ""))].
        -- destruct (IH (extend s1 [Run (Shell line) (Some 30) (Val res)]))
             as (b & evs & Heq & Hrem & Hrep).
           rewrite Heq. subst s1. rewrite !extend_extend.
           exists b. eexists. split; [reflexivity|]. split.
           ++ simpl. exact Hrem.
           ++ simpl. apply fix_report_skip; [reflexivity|].
              apply fix_report_failed; [exact Hz|exact Hrep].
      * assert (Hgen : forall m lvl,
                   remediation_event (Log lvl m) = true ->
                   exists b evs,
                     bind (log lvl m) (fun _ => auto_fix_loop w rest)
                       (extend s1 [Run (Shell line) (Some 30) (Exc e)])
                     = (Val b, extend s evs)
                     /\ forallb remediation_event evs = true
                     /\ fix_report (line :: commands_of (platform_system w) rest) b evs).
        { intros m lvl Hm. rewrite bind_log.
          destruct (IH (extend (extend s1 [Run (Shell line) (Some 30) (Exc e)]) [Log lvl m]))
            as (b & evs & Heq & Hrem & Hrep).
          rewrite Heq. subst s1. rewrite !extend_extend.
          exists b. eexists. split; [reflexivity|]. split.
          - rewrite !forallb_app, Hrem. cbn [forallb]. rewrite Hm. reflexivity.
          - simpl. apply fix_report_skip; [reflexivity|].
            apply fix_report_failed; [reflexivity|].
            apply fix_report_skip; [reflexivity|]. exact Hrep. }
        destruct e; apply Hgen; reflexivity.
    + rewrite bind_log.
      destruct (IH (extend s [Log INFO (Informational (Py.get (message fx) (Py.get (method fx) "")))]))
        as (b & evs & Heq & Hrem & Hrep).
      rewrite Heq. rewrite !extend_extend.
      exists b. eexists. split; [reflexivity|]. split.
      * simpl. exact Hrem.
      * simpl. apply fix_report_skip; [reflexivity|]. exact Hrep.
Qed.

Lemma execute_auto_fix_report (w : world) (p : pattern) :
  forall s, exists b evs,
    execute_auto_fix w p s = (Val b, extend s evs)
    /\ forallb remediation_event evs = true
    /\ fix_report (commands_of (platform_system w) (Py.get (auto_fix p) [])) b evs.
Proof.
  intros s. unfold execute_auto_fix.
  destruct (Py.get (auto_fix p) []) as [|fx rest] eqn:Hfixes.
  - exists false, []. rewrite extend_nil. repeat split; reflexivity.
  - apply auto_fix_loop_report.
Qed.

Lemma count_app (f : event -> bool) (a b : list event) :
  count f (a ++ b) = count f a + count f b.
Proof. unfold count. now rewrite filter_app, length_app. Qed.

Lemma count_shell_runs (evs : list event) :
  count is_shell_run evs = length (shell_runs evs).
Proof.
  induction evs as [|e evs IH]; [reflexivity|].
  rewrite shell_runs_cons, length_app, <- IH.
  change (e :: evs) with ([e] ++ evs). rewrite count_app. f_equal.
  destruct e as [d r|c t r|f r|lvl m]; try reflexivity. now destruct c.
Qed.

Lemma commands_of_length (sys : string) (fixes : list action) :
  length (commands_of sys fixes) <= length fixes.
Proof.
  induction fixes as [|fx rest IH]; [apply le_n|].
  unfold commands_of in *. cbn [flat_map]. rewrite length_app. cbn [length].
  destruct (Py.truthy (select_command sys fx)); cbn [length]; lia.
Qed.

Lemma fix_report_bound (cmds : list string) (b : bool) (evs : list event) :
  fix_report cmds b evs -> count is_shell_run evs <= length cmds.
Proof.
  rewrite count_shell_runs. unfold fix_report. destruct b.
  - intros (pre & line & r & later & m & -> & _ & _ & -> & _).
    rewrite !length_app, length_map. cbn [length]. lia.
  - intros [<- _]. now rewrite length_map.
Qed.

(** [execute_auto_fix] starts at most one command per action. *)
Lemma execute_auto_fix_bounded (w : world) (p : pattern) (s : state) :
  exists b evs,
    execute_auto_fix w p s = (Val b, extend s evs)
    /\ forallb remediation_event evs = true
    /\ count is_shell_run evs <= length (Py.get (auto_fix p) []).
Proof.
  destruct (execute_auto_fix_report w p s) as (b & evs & Heq & Hrem & Hrep).
  exists b, evs. repeat split; auto.
  apply fix_report_bound in Hrep.
  pose proof (commands_of_length (platform_system w) (Py.get (auto_fix p) [])). lia.
Qed.

Lemma auto_fix_loop_command_raises (w : world) (fx : action) (rest : list action)
    (s : state) (e : exn) :
  let method := Py.get (method fx) "" in
  let cmd := select_command (platform_system w) fx in
  Py.truthy cmd = true ->
  subprocess_run w (trace (extend s [Log INFO (ExecutingFix method)]))
    (Shell (Py.get cmd "")) (Some 30) = Exc e ->
  auto_fix_loop w (fx :: rest) s
  = auto_fix_loop w rest
      (extend s [Log INFO (ExecutingFix method);
                 Run (Shell (Py.get cmd "")) (Some 30) (Exc e);
                 Log WARNING (warning_for method e)]).
Proof.
  intros method cmd Hcmd Hrun. cbn [auto_fix_loop]. fold method. fold cmd.
  rewrite Hcmd. cbn [negb]. rewrite bind_log, bind_trying_run, Hrun.
  destruct e; rewrite bind_log, !extend_extend; reflexivity.
Qed.

(** C6.  [execute_auto_fix] never raises and leaves only remediation
    events (shell commands under the 30 second limit and records about
    the actions).  The commands it runs are those of the actions that have
    one for this platform, in list order: [command_windows] on Windows and
    [command_linux] elsewhere, each replaced by [command] when missing or
    empty, an action without any being only logged.  It answers [True]
    exactly when the last command it ran exited 0, every command before
    failed, and nothing after it was touched; it answers [False] when every
    command was run and none exited 0, in particular for an empty list. *)
Theorem execute_auto_fix_first_success :
  (forall w p s,
      exists b evs,
        execute_auto_fix w p s = (Val b, extend s evs)
        /\ forallb remediation_event evs = true
        /\ fix_report (commands_of (platform_system w) (Py.get (auto_fix p) [])) b evs)
  /\ (forall w p s,
         match Py.get (auto_fix p) [] with
         | [] => execute_auto_fix w p s = (Val false, s)
         | _ :: _ => True
         end)
  /\ (forall fx,
         select_command "Windows" fx
         = (if Py.truthy (command_windows fx) then command_windows fx else command fx))
  /\ (forall sys fx,
         match String.eqb sys "Windows" with
         | true => True
         | false =>
             select_command sys fx
             = (if Py.truthy (command_linux fx) then command_linux fx else command fx)
         end)
  /\ (forall w fx rest s,
         match Py.truthy (select_command (platform_system w) fx) with
         | true => True
         | false =>
             auto_fix_loop w (fx :: rest) s
             = auto_fix_loop w rest
                 (extend s [Log INFO (Informational
                                        (Py.get (message fx) (Py.get (method fx) "")))])
         end).
Proof.
  split; [|split; [|split; [|split]]].
  - intros w p s. apply execute_auto_fix_report.
  - intros w p s. unfold execute_auto_fix.
    now destruct (Py.get (auto_fix p) []).
  - reflexivity.
  - intros sys fx. unfold select_command, Py.or_.
    now destruct (String.eqb sys "Windows").
  - intros w fx rest s. cbn [auto_fix_loop].
    now destruct (Py.truthy (select_command (platform_system w) fx)).
Qed.

(** ** The recovery block *)

Lemma fallback_loop_quiet (w : world) (fallbacks : list action) :
  forall s, exists evs,
    fallback_loop w fallbacks s = (Val tt, extend s evs)
    /\ forallb remediation_event evs = true
    /\ count is_shell_run evs <= length fallbacks.
Proof.
  induction fallbacks as [|fb rest IH]; intros s.
  - exists []. rewrite extend_nil. repeat split; auto.
  - cbn [fallback_loop]. unfold bind at 1.
    destruct (execute_auto_fix_bounded w (dict_auto_fix [fb]) s)
      as (b & evs & Heq & Hrem & Hn).
    rewrite Heq.
    destruct (IH (extend s evs)) as (evs' & Heq' & Hrem' & Hn').
    exists (evs ++ evs'). rewrite <- extend_extend. split; [|split].
    + now destruct b.
    + now rewrite forallb_app, Hrem, Hrem'.
    + rewrite count_app. cbn [dict_auto_fix auto_fix Py.get length] in Hn.
      cbn [length]. lia.
Qed.

Lemma actions_of_bound (table : list pattern) (p : pattern) :
  In p table -> actions_of p <= actions_bound table.
Proof.
  intros Hin. unfold actions_bound.
  assert (H : Forall (fun k => k <= list_max (map actions_of table)) (map actions_of table))
    by (apply list_max_le; apply le_n).
  rewrite Forall_forall in H. apply H. now apply in_map.
Qed.

Lemma remediation_is_recovery (evs : list event) :
  forallb remediation_event evs = true -> forallb recovery_event evs = true.
Proof.
  intros H. rewrite forallb_forall in *. intros e He.
  unfold recovery_event. now rewrite (H e He).
Qed.

Lemma recovery_is_quiet (evs : list event) :
  forallb recovery_event evs = true -> forallb quiet evs = true.
Proof.
  intros H. rewrite forallb_forall in *. intros e He.
  unfold quiet. now rewrite (H e He).
Qed.

(** The recovery block: it raises only what [match_error_pattern] raised;
    otherwise it asks for another attempt after a successful auto-fix, or
    answers the failure with the first 300 characters of the output. *)
Lemma handle_failure_summary (w : world) (self : engine) (failed : log_msg)
    (head : string) (result : completed) (s : state) :
  exists r evs,
    handle_failure w self failed head result s
    = (r, extend s (Log ERROR failed :: evs))
    /\ forallb recovery_event evs = true
    /\ count is_shell_run evs <= actions_bound (Py.get (patterns (error_patterns self)) [])
    /\ match r with
       | Exc e =>
           evs = []
           /\ match_error_pattern w self (stderr result ++ stdout result)%string = Exc e
       | Val Continue =>
           exists p, match_error_pattern w self (stderr result ++ stdout result)%string
                     = Val (Some p)
       | Val (Return res) =>
           res = (false, (head ++ Py.slice_to 300 (stderr result ++ stdout result))%string)
       end.
Proof.
  unfold handle_failure. rewrite bind_log, bind_lift.
  destruct (match_error_pattern w self (stderr result ++ stdout result)%string)
    as [[p|]|e] eqn:Hmatch.
  - pose proof (actions_of_bound _ _ (match_error_pattern_in_table _ _ _ _ Hmatch))
      as Hbound.
    unfold actions_of in Hbound.
    destruct (dict_truthy p) eqn:Htruthy.
    + rewrite bind_bind, bind_log. unfold bind at 1.
      set (s1 := extend (extend s _) _).
      destruct (execute_auto_fix_bounded w p s1) as (b & evs & Heq & Hrem & Hn).
      rewrite Heq. destruct b.
      * unfold ret. subst s1. rewrite !extend_extend.
        eexists. eexists. split; [reflexivity|]. split; [|split].
        -- simpl. now apply remediation_is_recovery.
        -- change (count is_shell_run evs <= actions_bound (Py.get (patterns (error_patterns self)) [])). lia.
        -- now exists p.
      * unfold bind at 1.
        destruct (fallback_loop_quiet w (Py.get (fallback p) []) (extend s1 evs))
          as (evs' & Heq' & Hrem' & Hn').
        rewrite Heq'. unfold ret. subst s1. rewrite !extend_extend.
        eexists. eexists. split; [reflexivity|]. split; [|split].
        -- simpl. rewrite forallb_app.
           now rewrite (remediation_is_recovery _ Hrem), (remediation_is_recovery _ Hrem').
        -- change (count is_shell_run (evs ++ evs') <= actions_bound (Py.get (patterns (error_patterns self)) [])).
           rewrite count_app. lia.
        -- reflexivity.
    + rewrite bind_ret. unfold bind, fallback_loop, ret.
      exists (Val (Return (false, (head ++ Py.slice_to 300 (stderr result ++ stdout result))%string))), [].
      repeat split. apply Nat.le_0_l.
  - rewrite bind_ret. unfold bind, fallback_loop, ret.
    exists (Val (Return (false, (head ++ Py.slice_to 300 (stderr result ++ stdout result))%string))), [].
    repeat split. apply Nat.le_0_l.
  - exists (Exc e), []. repeat split. apply Nat.le_0_l.
Qed.

Lemma handle_failure_unmatched (w : world) (self : engine) (failed : log_msg)
    (head : string) (result : completed) (s : state) :
  match_error_pattern w self (stderr result ++ stdout result)%string = Val None ->
  handle_failure w self failed head result s
  = (Val (Return (false,
                  (head ++ Py.slice_to 300 (stderr result ++ stdout result))%string)),
     extend s [Log ERROR failed]).
Proof.
  intros Hm. unfold handle_failure. rewrite bind_log, bind_lift, Hm. reflexivity.
Qed.

(** ** One attempt *)

Ltac same_events :=
  unfold extend; cbn [trace cwd]; repeat rewrite <- app_assoc; cbn [app]; reflexivity.

Lemma raised_at_run (w : world) (self : engine) (s0 s' : state) (c : cmdline) (e : exn) :
  subprocess_run w (trace s0) c None = Exc e ->
  c = configure_cmd \/ c = compile_cmd ->
  s' = extend s0 [Run c None (Exc e)] ->
  raised_at w self s' e.
Proof.
  intros Hrun Hc ->. left. exists (trace s0), c. repeat split; auto.
Qed.

Lemma raised_at_match (w : world) (self : engine) (s0 s' : state) (failed : log_msg)
    (out : string) (e : exn) :
  match_error_pattern w self out = Exc e ->
  s' = extend s0 [Log ERROR failed] ->
  raised_at w self s' e.
Proof.
  intros Hm ->. right. exists (trace s0), failed, out. split; auto.
Qed.

Lemma attempt_body_summary (w : world) (self : engine) (attempt : nat) (s : state) :
  exists r evs,
    attempt_body w self attempt s = (r, extend s evs)
    /\ attempt_shape attempt (max_retry_attempts self) evs
    /\ count is_shell_run evs <= actions_bound (Py.get (patterns (error_patterns self)) [])
    /\ match r with
       | Exc e => raised_at w self (extend s evs) e
       | Val _ => True
       end.
Proof.
  unfold attempt_body. rewrite !bind_log, bind_run.
  set (s1 := extend (extend s _) _).
  destruct (subprocess_run w (trace s1) configure_cmd None) as [res|e] eqn:Hcfg.
  - destruct (Z.eqb (returncode res) 0) eqn:Hz; cbn [negb].
    + rewrite bind_log, bind_run.
      set (s2 := extend (extend s1 _) _).
      destruct (subprocess_run w (trace s2) compile_cmd None) as [res2|e] eqn:Hcmp.
      * destruct (Z.eqb (returncode res2) 0) eqn:Hz2; cbn [negb].
        -- rewrite bind_log. unfold ret. subst s2 s1. rewrite !extend_extend.
           eexists. eexists. split; [reflexivity|].
           split; [|split; [apply Nat.le_0_l|exact I]].
           eexists. eexists. split; [reflexivity|]. right.
           eexists. eexists. split; reflexivity.
        -- set (s3 := extend s2 [Run compile_cmd None (Val res2)]).
           destruct (handle_failure_summary w self BuildFailed "Build failed: " res2 s3)
             as (r & evs & Heq & Hrec & Hn & Hres).
           rewrite Heq.
           exists r, ([Log INFO (BuildAttempt (attempt + 1) (max_retry_attempts self));
                       Log INFO RunningConfigure;
                       Run configure_cmd None (Val res);
                       Log INFO RunningBuild;
                       Run compile_cmd None (Val res2);
                       Log ERROR BuildFailed] ++ evs).
           split; [f_equal; subst s3 s2 s1; same_events|]. split; [|split].
           ++ eexists. eexists. split; [reflexivity|]. right.
              eexists. eexists. split; [reflexivity|].
              cbn [forallb]. now rewrite (recovery_is_quiet _ Hrec).
           ++ exact Hn.
           ++ destruct r as [v|e]; [exact I|]. destruct Hres as [-> Hm].
              eapply (raised_at_match w self s3); [exact Hm|].
              subst s3 s2 s1; same_events.
      * eexists. eexists. split; [f_equal; subst s2 s1; rewrite !extend_extend; reflexivity|].
        split; [|split].
        -- eexists. eexists. split; [reflexivity|]. right.
           eexists. eexists. split; reflexivity.
        -- apply Nat.le_0_l.
        -- eapply (raised_at_run w self s2); [exact Hcmp|auto|].
           subst s2 s1; same_events.
    + set (s3 := extend s1 [Run configure_cmd None (Val res)]).
      destruct (handle_failure_summary w self ConfigureFailed "CMake configure failed: " res s3)
        as (r & evs & Heq & Hrec & Hn & Hres).
      rewrite Heq.
      exists r, ([Log INFO (BuildAttempt (attempt + 1) (max_retry_attempts self));
                  Log INFO RunningConfigure;
                  Run configure_cmd None (Val res);
                  Log ERROR ConfigureFailed] ++ evs).
      split; [f_equal; subst s3 s1; same_events|]. split; [|split].
      * eexists. eexists. split; [reflexivity|]. left.
        cbn [forallb]. now rewrite (recovery_is_quiet _ Hrec).
      * exact Hn.
      * destruct r as [v|e]; [exact I|]. destruct Hres as [-> Hm].
        eapply (raised_at_match w self s3); [exact Hm|].
        subst s3 s1; same_events.
  - eexists. eexists. split; [f_equal; subst s1; rewrite !extend_extend; reflexivity|].
    split; [|split].
    + eexists. eexists. split; [reflexivity|]. left. reflexivity.
    + apply Nat.le_0_l.
    + eapply (raised_at_run w self s1); [exact Hcfg|auto|].
      subst s1; same_events.
Qed.

Lemma attempt_body_unmatched (w : world) (self : engine) (attempt : nat) (s : state) :
  (forall out, match_error_pattern w self out = Val None) ->
  exists r evs,
    attempt_body w self attempt s = (r, extend s evs)
    /\ count is_shell_run evs = 0
    /\ match r with
       | Val Continue => False
       | Val (Return (true, message)) => message = "Build completed successfully"
       | Val (Return (false, message)) => surfaced evs message
       | Exc _ => True
       end.
Proof.
  intros Hnone. unfold attempt_body. rewrite !bind_log, bind_run.
  set (s1 := extend (extend s _) _).
  destruct (subprocess_run w (trace s1) configure_cmd None) as [res|e] eqn:Hcfg.
  - destruct (Z.eqb (returncode res) 0) eqn:Hz; cbn [negb].
    + rewrite bind_log, bind_run.
      set (s2 := extend (extend s1 _) _).
      destruct (subprocess_run w (trace s2) compile_cmd None) as [res2|e] eqn:Hcmp.
      * destruct (Z.eqb (returncode res2) 0) eqn:Hz2; cbn [negb].
        -- rewrite bind_log. unfold ret. subst s2 s1. rewrite !extend_extend.
           eexists. eexists. split; [reflexivity|]. split; reflexivity.
        -- rewrite handle_failure_unmatched by apply Hnone.
           subst s2 s1. rewrite !extend_extend.
           eexists. eexists. split; [reflexivity|]. split; [reflexivity|].
           exists [Log INFO (BuildAttempt (attempt + 1) (max_retry_attempts self));
                   Log INFO RunningConfigure; Run configure_cmd None (Val res);
                   Log INFO RunningBuild],
             compile_cmd, BuildFailed, "Build failed: ", res2.
           repeat split; auto.
      * subst s2 s1. rewrite !extend_extend.
        eexists. eexists. split; [reflexivity|]. split; [reflexivity|exact I].
    + rewrite handle_failure_unmatched by apply Hnone.
      subst s1. rewrite !extend_extend.
      eexists. eexists. split; [reflexivity|]. split; [reflexivity|].
      exists [Log INFO (BuildAttempt (attempt + 1) (max_retry_attempts self));
              Log INFO RunningConfigure],
        configure_cmd, ConfigureFailed, "CMake configure failed: ", res.
      repeat split; auto.
  - subst s1. rewrite !extend_extend.
    eexists. eexists. split; [reflexivity|]. split; [reflexivity|exact I].
Qed.

Lemma count_none (f : event -> bool) (evs : list event) :
  (forall e, quiet e = true -> f e = false) ->
  forallb quiet evs = true -> count f evs = 0.
Proof.
  intros Hf. induction evs as [|e evs IH]; [reflexivity|].
  cbn [forallb]. intros H. apply andb_true_iff in H as [He Hevs].
  unfold count in *. cbn [filter]. rewrite (Hf e He). now apply IH.
Qed.

Lemma remediation_event_cases (e : event) :
  remediation_event e = true ->
  (exists line r, e = Run (Shell line) (Some 30) r) \/ (exists lvl m, e = Log lvl m).
Proof.
  destruct e as [d r|c t r|f r|lvl m]; try discriminate.
  - destruct c as [args|line]; [discriminate|].
    destruct t as [n|]; [|discriminate].
    do 30 (destruct n as [|n]; [discriminate|]).
    destruct n; [|discriminate]. intros _. left. now exists line, r.
  - intros _. right. now exists lvl, m.
Qed.

Lemma quiet_cases (e : event) :
  quiet e = true ->
  (exists line r, e = Run (Shell line) (Some 30) r)
  \/ (exists lvl m, e = Log lvl m /\ forall n t, m <> BuildAttempt n t).
Proof.
  unfold quiet, recovery_event. intros H.
  destruct (remediation_event e) eqn:Hrem.
  - destruct (remediation_event_cases e Hrem) as [(line & r & ->)|(lvl & m & ->)].
    + left. now exists line, r.
    + right. exists lvl, m. split; [reflexivity|].
      intros n t ->. now destruct lvl.
  - right. destruct e as [d r|c t r|f r|lvl m]; try discriminate.
    exists lvl, m. split; [reflexivity|]. intros n t ->. now destruct lvl.
Qed.

Lemma quiet_not_configure (e : event) : quiet e = true -> is_configure e = false.
Proof. intros H. now destruct (quiet_cases e H) as [(l & r & ->)|(lvl & m & -> & _)]. Qed.

Lemma quiet_not_compile (e : event) : quiet e = true -> is_compile e = false.
Proof. intros H. now destruct (quiet_cases e H) as [(l & r & ->)|(lvl & m & -> & _)]. Qed.

Lemma quiet_not_chdir (e : event) : quiet e = true -> is_chdir e = false.
Proof. intros H. now destruct (quiet_cases e H) as [(l & r & ->)|(lvl & m & -> & _)]. Qed.

Lemma quiet_in_range (limit : nat) (evs : list event) :
  forallb quiet evs = true -> forallb (attempt_in_range limit) evs = true.
Proof.
  intros H. rewrite forallb_forall in *. intros e He.
  destruct (quiet_cases e (H e He)) as [(l & r & ->)|(lvl & m & -> & Hm)]; [reflexivity|].
  destruct m; try reflexivity. now elim (Hm number total).
Qed.

(** One pass runs configure once, the build step at most once, never
    changes directory, and logs its own number only. *)
Lemma attempt_shape_counts (attempt total : nat) (evs : list event) :
  attempt_shape attempt total evs ->
  count is_configure evs = 1
  /\ count is_compile evs <= 1
  /\ count is_chdir evs = 0
  /\ (attempt < total -> forallb (attempt_in_range total) evs = true).
Proof.
  intros (r1 & rest & -> & Hrest).
  assert (Hhead : forall tl,
             count is_configure
               (Log INFO (BuildAttempt (attempt + 1) total)
                :: Log INFO RunningConfigure :: Run configure_cmd None r1 :: tl)
             = 1 + count is_configure tl) by reflexivity.
  assert (Hrange : attempt < total ->
                   attempt_in_range total (Log INFO (BuildAttempt (attempt + 1) total)) = true).
  { intros Hlt. cbn [attempt_in_range].
    rewrite Nat.eqb_refl, andb_true_r. apply andb_true_iff. split.
    - apply Nat.leb_le. lia.
    - apply Nat.leb_le. lia. }
  destruct Hrest as [Hq|(r2 & rest2 & -> & Hq)].
  - rewrite Hhead, (count_none _ _ quiet_not_configure Hq).
    repeat split.
    + change (count is_compile rest <= 1).
      rewrite (count_none _ _ quiet_not_compile Hq). lia.
    + change (count is_chdir rest = 0). apply (count_none _ _ quiet_not_chdir Hq).
    + intros Hlt. cbn [forallb]. rewrite (Hrange Hlt).
      cbn [attempt_in_range andb]. now apply quiet_in_range.
  - rewrite Hhead.
    change (count is_configure (Log INFO RunningBuild :: Run compile_cmd None r2 :: rest2))
      with (count is_configure rest2).
    rewrite (count_none _ _ quiet_not_configure Hq). repeat split.
    + change (S (count is_compile rest2) <= 1).
      rewrite (count_none _ _ quiet_not_compile Hq). lia.
    + change (count is_chdir rest2 = 0). apply (count_none _ _ quiet_not_chdir Hq).
    + intros Hlt. cbn [forallb]. rewrite (Hrange Hlt).
      cbn [attempt_in_range andb]. now apply quiet_in_range.
Qed.

(** ** The loop and the whole call *)

(** The whole loop, over any list of attempt numbers below the limit. *)
Lemma attempts_loop_summary (w : world) (self : engine) (attempts : list nat) :
  Forall (fun k => k < max_retry_attempts self) attempts ->
  forall s, exists r evs,
    attempts_loop w self attempts s = (r, extend s evs)
    /\ count is_configure evs <= length attempts
    /\ count is_compile evs <= length attempts
    /\ count is_chdir evs = 0
    /\ forallb (attempt_in_range (max_retry_attempts self)) evs = true
    /\ count is_shell_run evs <= length attempts * actions_bound (Py.get (patterns (error_patterns self)) [])
    /\ match r with
       | Exc e => raised_at w self (extend s evs) e
       | Val _ => True
       end.
Proof.
  induction attempts as [|k rest IH]; intros Hlt s.
  - exists (Val (false, ("Build failed after " ++ Py.str (max_retry_attempts self)
                         ++ " attempts")%string)), [].
    rewrite extend_nil. repeat split; auto.
  - inversion Hlt as [|? ? Hk Hrest]; subst.
    cbn [attempts_loop]. unfold bind at 1.
    destruct (attempt_body_summary w self k s) as (r & evs & Heq & Hshape & Hn & Hexc).
    destruct (attempt_shape_counts _ _ _ Hshape) as (Hcfg & Hcmp & Hcd & Hrange).
    rewrite Heq. destruct r as [[|res]|e].
    + destruct (IH Hrest (extend s evs))
        as (r' & evs' & Heq' & Hcfg' & Hcmp' & Hcd' & Hrange' & Hn' & Hexc').
      rewrite Heq'. exists r', (evs ++ evs'). rewrite <- extend_extend.
      rewrite !count_app, forallb_app, (Hrange Hk), Hrange'. cbn [length].
      repeat split; auto; lia.
    + exists (Val res), evs. cbn [length]. repeat split; auto; lia.
    + exists (Exc e), evs. cbn [length]. repeat split; auto; lia.
Qed.

Lemma attempts_below_limit (n : nat) : Forall (fun k => k < n) (seq 0 n).
Proof. apply Forall_forall. intros k Hk. apply in_seq in Hk. lia. Qed.

(** [build_with_validation] after a successful [os.chdir]. *)
Lemma build_summary (w : world) (self : engine) (project_dir : string) (s : state)
    (dir : string) :
  os_chdir w (trace s) (cwd s) project_dir = Val dir ->
  exists r evs,
    build_with_validation w self project_dir s
    = (r, {| cwd := dir; trace := trace s ++ Chdir project_dir (Val dir) :: evs |})
    /\ count is_configure evs <= max_retry_attempts self
    /\ count is_compile evs <= max_retry_attempts self
    /\ count is_chdir evs = 0
    /\ forallb (attempt_in_range (max_retry_attempts self)) evs = true
    /\ count is_shell_run evs <= max_retry_attempts self * actions_bound (Py.get (patterns (error_patterns self)) [])
    /\ match r with
       | Exc e =>
           raised_at w self
             {| cwd := dir; trace := trace s ++ Chdir project_dir (Val dir) :: evs |} e
       | Val _ => True
       end.
Proof.
  intros Hcd. unfold build_with_validation, bind, chdir. rewrite Hcd.
  set (s1 := {| cwd := dir; trace := trace s ++ [Chdir project_dir (Val dir)] |}).
  destruct (attempts_loop_summary w self _ (attempts_below_limit (max_retry_attempts self)) s1)
    as (r & evs & Heq & Hcfg & Hcmp & Hch & Hrange & Hn & Hexc).
  rewrite length_seq in Hcfg, Hcmp, Hn.
  assert (Hs : extend s1 evs
               = {| cwd := dir; trace := trace s ++ Chdir project_dir (Val dir) :: evs |}).
  { subst s1. unfold extend. cbn [cwd trace]. now rewrite <- app_assoc. }
  rewrite Hs in *. exists r, evs. rewrite Heq. repeat split; auto.
Qed.

(** [build_with_validation] when [os.chdir] raises. *)
Lemma build_chdir_raises (w : world) (self : engine) (project_dir : string) (s : state)
    (e : exn) :
  os_chdir w (trace s) (cwd s) project_dir = Exc e ->
  build_with_validation w self project_dir s
  = (Exc e, extend s [Chdir project_dir (Exc e)]).
Proof.
  intros Hcd. unfold build_with_validation, bind, chdir. now rewrite Hcd.
Qed.

(** ** The retry budget *)

(** C2.  An engine built by [__init__] has [max_retry_attempts = 3]; with
    that limit, whatever the directory, the table and the answers of the
    surroundings, a call of [build_with_validation] returns (the embedding
    needs no fuel), runs the configure step at most 3 times and the build
    step at most 3 times, starts at most 3 times as many remediation
    commands as the largest pattern of the table has actions, and every
    [Build attempt n/total] record it writes has [1 <= n <= 3] and
    [total = 3]. *)
Theorem build_attempts_bounded :
  (forall w decisions_file error_patterns_file s,
      match fst (__init__ w decisions_file error_patterns_file s) with
      | Val self => max_retry_attempts self = 3
      | Exc _ => True
      end)
  /\ (forall w table project_dir s,
         exists r s' evs,
           build_with_validation w
             {| error_patterns := table; max_retry_attempts := 3 |} project_dir s
           = (r, s')
           /\ trace s' = trace s ++ evs
           /\ count is_configure evs <= 3
           /\ count is_compile evs <= 3
           /\ count is_shell_run evs <= 3 * actions_bound (Py.get (patterns table) [])
           /\ forallb (attempt_in_range 3) evs = true).
Proof.
  split.
  - intros w f1 f2 s. unfold __init__, bind.
    destruct (_load_json w f1 s) as [[d|e] s1]; [|exact I].
    destruct (_load_json w f2 s1) as [[d2|e] s2]; [|exact I].
    reflexivity.
  - intros w table project_dir s.
    destruct (os_chdir w (trace s) (cwd s) project_dir) as [dir|e] eqn:Hcd.
    + destruct (build_summary w {| error_patterns := table; max_retry_attempts := 3 |}
                  project_dir s dir Hcd)
        as (r & evs & Heq & Hcfg & Hcmp & _ & Hrange & Hn & _).
      cbn [max_retry_attempts error_patterns] in *.
      exists r. eexists. exists (Chdir project_dir (Val dir) :: evs).
      split; [exact Heq|]. repeat split; auto.
    + rewrite (build_chdir_raises _ _ _ _ _ Hcd).
      exists (Exc e). eexists. exists [Chdir project_dir (Exc e)].
      split; [reflexivity|]. repeat split; auto.
      apply Nat.le_0_l.
Qed.

(** ** The working directory *)

(** C10.  When [os.chdir(project_dir)] succeeds, it is the first thing the
    call does, no other change of directory follows, and the working
    directory at the end of the call is the one [os.chdir] entered, whether
    the call answers success, answers failure or raises. *)
Theorem build_leaves_working_directory_changed
    (w : world) (self : engine) (project_dir : string) (s : state) (dir : string) :
  os_chdir w (trace s) (cwd s) project_dir = Val dir ->
  cwd (snd (build_with_validation w self project_dir s)) = dir
  /\ exists evs,
       trace (snd (build_with_validation w self project_dir s))
       = trace s ++ Chdir project_dir (Val dir) :: evs
       /\ count is_chdir evs = 0.
Proof.
  intros Hcd.
  destruct (build_summary w self project_dir s dir Hcd)
    as (r & evs & Heq & _ & _ & Hch & _).
  rewrite Heq. split; [reflexivity|]. now exists evs.
Qed.

(** C10 in a healthy project. *)
Lemma build_leaves_working_directory_changed_witness :
  os_chdir Scenario.healthy [] "/home/dev" "/work/proj" = Val "/work/proj"
  /\ cwd (snd (build_with_validation Scenario.healthy Evaluation.rescued_by_fix
                 "/work/proj" Scenario.start))
     = "/work/proj".
Proof.
  split; [reflexivity|].
  exact (proj1 (build_leaves_working_directory_changed Scenario.healthy
                  Evaluation.rescued_by_fix "/work/proj" Scenario.start "/work/proj"
                  eq_refl)).
Defined.

(** ** Exceptions *)

(** C8.  [execute_auto_fix] never raises; when a remediation command runs
    into the 30 second limit or raises anything else, a warning is logged
    and the loop goes on with the next action; and an exception that
    leaves [build_with_validation] was raised by [os.chdir], by starting
    one of the two cmake steps, or by the regex search right after the
    failure was logged: never by a remediation command. *)
Theorem remediation_failures_are_contained :
  (forall w p s, exists b s', execute_auto_fix w p s = (Val b, s'))
  /\ (forall w fx rest s,
         let method := Py.get (method fx) "" in
         let cmd := select_command (platform_system w) fx in
         let line := Py.get cmd "" in
         match Py.truthy cmd,
               subprocess_run w (trace (extend s [Log INFO (ExecutingFix method)]))
                 (Shell line) (Some 30)
         with
         | true, Exc e =>
             auto_fix_loop w (fx :: rest) s
             = auto_fix_loop w rest
                 (extend s [Log INFO (ExecutingFix method);
                            Run (Shell line) (Some 30) (Exc e);
                            Log WARNING (warning_for method e)])
         | _, _ => True
         end)
  /\ (forall w self project_dir s,
         match build_with_validation w self project_dir s with
         | (Exc e, s') =>
             s' = extend s [Chdir project_dir (Exc e)]
             \/ raised_at w self s' e
         | (Val _, _) => True
         end).
Proof.
  split; [|split].
  - intros w p s.
    destruct (execute_auto_fix_report w p s) as (b & evs & Heq & _).
    now exists b, (extend s evs).
  - intros w fx rest s method cmd line.
    destruct (Py.truthy cmd) eqn:Hcmd; [|exact I].
    destruct (subprocess_run w _ (Shell line) (Some 30)) as [res|e] eqn:Hrun; [exact I|].
    now apply auto_fix_loop_command_raises.
  - intros w self project_dir s.
    destruct (os_chdir w (trace s) (cwd s) project_dir) as [dir|e] eqn:Hcd.
    + destruct (build_summary w self project_dir s dir Hcd)
        as (r & evs & Heq & _ & _ & _ & _ & _ & Hexc).
      rewrite Heq. destruct r as [v|e]; [exact I|]. now right.
    + rewrite (build_chdir_raises _ _ _ _ _ Hcd). now left.
Qed.

(** C4, as stated, fails: with [cmake] not installed, starting the
    configure step raises and the exception leaves the call, so that not
    every call answers a pair. *)
Lemma missing_tool_raises :
  build_with_validation Scenario.tool_missing (Scenario.engine_of [])
    "/work/proj" Scenario.start
  = (Exc FileNotFoundError,
     {| cwd := "/work/proj";
        trace := [Chdir "/work/proj" (Val "/work/proj");
                  Log INFO (BuildAttempt 1 3);
                  Log INFO RunningConfigure;
                  Run configure_cmd None (Exc FileNotFoundError)] |})
  /\ ~ (forall w self project_dir s,
           exists success message s',
             build_with_validation w self project_dir s
             = (Val (success, message), s')).
Proof.
  assert (Heval : build_with_validation Scenario.tool_missing (Scenario.engine_of [])
                    "/work/proj" Scenario.start
                  = (Exc FileNotFoundError,
                     {| cwd := "/work/proj";
                        trace := [Chdir "/work/proj" (Val "/work/proj");
                                  Log INFO (BuildAttempt 1 3);
                                  Log INFO RunningConfigure;
                                  Run configure_cmd None (Exc FileNotFoundError)] |}))
    by (vm_compute; reflexivity).
  split; [exact Heval|].
  intros Hall.
  destruct (Hall Scenario.tool_missing (Scenario.engine_of []) "/work/proj" Scenario.start)
    as (success & message & s' & Heq).
  rewrite Heval in Heq. discriminate.
Qed.

(** C4, as the code has it.  The call answers a [(success, message)] pair
    whenever [os.chdir] succeeds, each of the two cmake steps can be
    started and comes back with an exit status, and the regexes of the
    patterns for the current platform are well formed (they compile, in
    [Re] or in the interpreter); nothing is asked of the exit statuses of
    the two steps nor of the remediation commands, whose exit statuses,
    timeouts and exceptions are all absorbed.  (An exception of
    [os.chdir], of starting cmake or of [re.search] is not caught.) *)
Theorem build_returns_a_pair
    (w : world) (self : engine) (project_dir : string) (s : state) (dir : string) :
  os_chdir w (trace s) (cwd s) project_dir = Val dir ->
  (forall h, exists res, subprocess_run w h configure_cmd None = Val res) ->
  (forall h, exists res, subprocess_run w h compile_cmd None = Val res) ->
  table_well_formed w (Py.get (patterns (error_patterns self)) []) ->
  exists success message s',
    build_with_validation w self project_dir s = (Val (success, message), s').
Proof.
  intros Hcd Hcfg Hcmp Hvalid.
  destruct (build_summary w self project_dir s dir Hcd)
    as (r & evs & Heq & _ & _ & _ & _ & _ & Hexc).
  rewrite Heq. destruct r as [[success message]|e].
  - now exists success, message; eexists.
  - exfalso. destruct Hexc as [(h & c & _ & [->| ->] & Hrun)|(h & failed & out & _ & Hm)].
    + destruct (Hcfg h) as [res Hres]. congruence.
    + destruct (Hcmp h) as [res Hres]. congruence.
    + rewrite (match_error_pattern_valid w self out Hvalid) in Hm. discriminate.
Qed.

(** C4, amended, where configure fails on every attempt, the pattern that
    matches has an anchored regex, which [Re] does not read, the pattern
    before it, for another platform, has an ill-formed regex, and every
    remediation command runs into its time limit: the failure of configure
    and the two timeouts are absorbed, and the call answers the failure. *)
Lemma build_returns_a_pair_witness :
  Re.compile "^CMake Error" = None
  /\ count is_shell_run
       (trace (snd (build_with_validation Scenario.fix_hangs Evaluation.anchored_table
                      "/work/proj" Scenario.start))) = 2
  /\ exists success message s',
       build_with_validation Scenario.fix_hangs Evaluation.anchored_table
         "/work/proj" Scenario.start
       = (Val (success, message), s').
Proof.
  split; [reflexivity|]. split; [vm_compute; reflexivity|].
  apply (build_returns_a_pair Scenario.fix_hangs Evaluation.anchored_table
           "/work/proj" Scenario.start "/work/proj").
  - reflexivity.
  - intros h. eexists. reflexivity.
  - intros h. eexists. reflexivity.
  - intros q [<-|[<-|[]]] Happ; [discriminate Happ|reflexivity].
Defined.

(** ** Failures that match no pattern *)

(** The whole call on the empty table: one configure step, one build step
    when configure exits 0, and the answer made of the step that failed. *)
Lemma empty_table_run (w : world) (project_dir : string) (s : state) (dir : string) :
  os_chdir w (trace s) (cwd s) project_dir = Val dir ->
  let h1 := trace s ++ [Chdir project_dir (Val dir); Log INFO (BuildAttempt 1 3);
                        Log INFO RunningConfigure] in
  build_with_validation w
    {| error_patterns := empty_dict; max_retry_attempts := 3 |} project_dir s
  = match subprocess_run w h1 configure_cmd None with
    | Exc e' =>
        (Exc e', {| cwd := dir; trace := h1 ++ [Run configure_cmd None (Exc e')] |})
    | Val configured =>
        if Z.eqb (returncode configured) 0 then
          let h2 := h1 ++ [Run configure_cmd None (Val configured);
                           Log INFO RunningBuild] in
          match subprocess_run w h2 compile_cmd None with
          | Exc e' =>
              (Exc e', {| cwd := dir; trace := h2 ++ [Run compile_cmd None (Exc e')] |})
          | Val built =>
              if Z.eqb (returncode built) 0 then
                (Val (true, "Build completed successfully"),
                 {| cwd := dir;
                    trace := h2 ++ [Run compile_cmd None (Val built);
                                    Log INFO BuildSuccessful] |})
              else
                (Val (false,
                      ("Build failed: "
                       ++ Py.slice_to 300 (stderr built ++ stdout built))%string),
                 {| cwd := dir;
                    trace := h2 ++ [Run compile_cmd None (Val built);
                                    Log ERROR BuildFailed] |})
          end
        else
          (Val (false,
                ("CMake configure failed: "
                 ++ Py.slice_to 300 (stderr configured ++ stdout configured))%string),
           {| cwd := dir;
              trace := h1 ++ [Run configure_cmd None (Val configured);
                              Log ERROR ConfigureFailed] |})
    end.
Proof.
  intros Hcd h1. subst h1. cbv zeta.
  unfold build_with_validation, bind at 1, chdir. rewrite Hcd.
  cbn [max_retry_attempts]. change (seq 0 3) with [0; 1; 2].
  cbn [attempts_loop]. unfold bind at 1, attempt_body.
  rewrite !bind_log, bind_run.
  rewrite ?extend_extend; unfold extend; cbn [trace cwd app Nat.add];
    repeat rewrite <- app_assoc; cbn [app].
  destruct (subprocess_run w _ configure_cmd None) as [configured|e'] eqn:Hcfg;
    [|repeat rewrite <- app_assoc; reflexivity].
  destruct (Z.eqb (returncode configured) 0) eqn:Hrc; cbn [negb].
  - rewrite bind_log, bind_run.
    rewrite ?extend_extend; unfold extend; cbn [trace cwd app];
      repeat rewrite <- app_assoc; cbn [app].
    destruct (subprocess_run w _ compile_cmd None) as [built|e'] eqn:Hcmp;
      [|repeat rewrite <- app_assoc; reflexivity].
    destruct (Z.eqb (returncode built) 0); cbn [negb].
    + rewrite bind_log. unfold ret, extend. cbn [trace cwd].
      repeat rewrite <- app_assoc. reflexivity.
    + rewrite handle_failure_unmatched by reflexivity.
      unfold extend. cbn [trace cwd]. repeat rewrite <- app_assoc. reflexivity.
  - rewrite handle_failure_unmatched by reflexivity.
    unfold extend. cbn [trace cwd]. repeat rewrite <- app_assoc. reflexivity.
Qed.

(** C7.  When the pattern file is missing or does not decode,
    [_load_json] logs a warning and answers [{}], and [__init__] keeps
    that as the table.  With that table [match_error_pattern] answers
    [None] for every output, and a call of [build_with_validation] never
    runs a shell command and never goes to a second attempt.  Once
    [os.chdir] has succeeded the call is this: a configure step that exits
    non-zero is answered [(False, "CMake configure failed: " +
    output[:300])] at once; after a configure step that exits 0, a build
    step that exits non-zero is answered [(False, "Build failed: " +
    output[:300])], and one that exits 0 is answered [(True, "Build
    completed successfully")]; [output] is [stderr + stdout] of the step
    that failed; and a step that cannot be started raises. *)
Theorem missing_database_surfaces_raw_failure
    (w : world) (error_patterns_file : string) (e : exn) :
  e = FileNotFoundError \/ e = JSONDecodeError ->
  (forall h, json_load w h error_patterns_file = Exc e) ->
  (forall s,
      _load_json w error_patterns_file s
      = (Val empty_dict,
         extend s [Load error_patterns_file (Exc e);
                   Log WARNING (LoadFailed error_patterns_file e)]))
  /\ (forall decisions_file s,
         match fst (__init__ w decisions_file error_patterns_file s) with
         | Val self => self = {| error_patterns := empty_dict; max_retry_attempts := 3 |}
         | Exc _ => True
         end)
  /\ (forall out,
         match_error_pattern w
           {| error_patterns := empty_dict; max_retry_attempts := 3 |} out = Val None)
  /\ (forall project_dir s,
         exists r s' evs,
           build_with_validation w
             {| error_patterns := empty_dict; max_retry_attempts := 3 |} project_dir s
           = (r, s')
           /\ trace s' = trace s ++ evs
           /\ count is_shell_run evs = 0
           /\ count is_configure evs <= 1
           /\ match r with
              | Val (true, message) => message = "Build completed successfully"
              | Val (false, message) =>
                  exists before evs', evs = before :: evs' /\ surfaced evs' message
              | Exc _ => True
              end)
  /\ (forall project_dir s dir,
         os_chdir w (trace s) (cwd s) project_dir = Val dir ->
         let h1 := trace s ++ [Chdir project_dir (Val dir);
                               Log INFO (BuildAttempt 1 3);
                               Log INFO RunningConfigure] in
         build_with_validation w
           {| error_patterns := empty_dict; max_retry_attempts := 3 |} project_dir s
         = match subprocess_run w h1 configure_cmd None with
           | Exc e' =>
               (Exc e',
                {| cwd := dir; trace := h1 ++ [Run configure_cmd None (Exc e')] |})
           | Val configured =>
               if Z.eqb (returncode configured) 0 then
                 let h2 := h1 ++ [Run configure_cmd None (Val configured);
                                  Log INFO RunningBuild] in
                 match subprocess_run w h2 compile_cmd None with
                 | Exc e' =>
                     (Exc e',
                      {| cwd := dir;
                         trace := h2 ++ [Run compile_cmd None (Exc e')] |})
                 | Val built =>
                     if Z.eqb (returncode built) 0 then
                       (Val (true, "Build completed successfully"),
                        {| cwd := dir;
                           trace := h2 ++ [Run compile_cmd None (Val built);
                                           Log INFO BuildSuccessful] |})
                     else
                       (Val (false,
                             ("Build failed: "
                              ++ Py.slice_to 300 (stderr built ++ stdout built))%string),
                        {| cwd := dir;
                           trace := h2 ++ [Run compile_cmd None (Val built);
                                           Log ERROR BuildFailed] |})
                 end
               else
                 (Val (false,
                       ("CMake configure failed: "
                        ++ Py.slice_to 300
                             (stderr configured ++ stdout configured))%string),
                  {| cwd := dir;
                     trace := h1 ++ [Run configure_cmd None (Val configured);
                                     Log ERROR ConfigureFailed] |})
           end).
Proof.
  intros He Hload.
  assert (Hjson : forall s,
             _load_json w error_patterns_file s
             = (Val empty_dict,
                extend s [Load error_patterns_file (Exc e);
                          Log WARNING (LoadFailed error_patterns_file e)])).
  { intros s. unfold _load_json, bind, trying, load. rewrite Hload.
    destruct He as [-> | ->]; unfold log, ret, record, extend; cbn [cwd trace];
      rewrite <- app_assoc; reflexivity. }
  split; [exact Hjson|]. split; [|split; [|split]].
  4: { intros project_dir s dir Hcd. now apply empty_table_run. }
  - intros decisions_file s. unfold __init__, bind.
    destruct (_load_json w decisions_file s) as [[d|e'] s1]; [|exact I].
    now rewrite Hjson.
  - reflexivity.
  - intros project_dir s.
    set (self := {| error_patterns := empty_dict; max_retry_attempts := 3 |}).
    destruct (os_chdir w (trace s) (cwd s) project_dir) as [dir|e'] eqn:Hcd.
    + unfold build_with_validation, bind, chdir. rewrite Hcd.
      set (s1 := {| cwd := dir; trace := trace s ++ [Chdir project_dir (Val dir)] |}).
      change (seq 0 (max_retry_attempts self)) with [0; 1; 2].
      cbn [attempts_loop]. unfold bind at 1.
      destruct (attempt_body_unmatched w self 0 s1 (fun out => eq_refl))
        as (r & evs & Heq & Hshell & Hres).
      destruct (attempt_body_summary w self 0 s1) as (r' & evs2 & Heq2 & Hshape & _).
      assert (evs2 = evs) as ->.
      { rewrite Heq in Heq2. inversion Heq2 as [[Hr Ht]].
        now apply app_inv_head in Ht. }
      destruct (attempt_shape_counts _ _ _ Hshape) as (Hcfg & _).
      rewrite Heq.
      assert (Htrace : trace (extend s1 evs)
                       = trace s ++ Chdir project_dir (Val dir) :: evs).
      { subst s1. unfold extend. cbn [trace]. now rewrite <- app_assoc. }
      destruct r as [[|[[|] message]]|e'].
      * contradiction.
      * exists (Val (true, message)), (extend s1 evs), (Chdir project_dir (Val dir) :: evs).
        repeat split; auto. change (count is_configure evs <= 1). lia.
      * exists (Val (false, message)), (extend s1 evs), (Chdir project_dir (Val dir) :: evs).
        repeat split; auto.
        -- change (count is_configure evs <= 1). lia.
        -- now exists (Chdir project_dir (Val dir)), evs.
      * exists (Exc e'), (extend s1 evs), (Chdir project_dir (Val dir) :: evs).
        repeat split; auto. change (count is_configure evs <= 1). lia.
    + rewrite (build_chdir_raises _ _ _ _ _ Hcd).
      exists (Exc e'). eexists. exists [Chdir project_dir (Exc e')].
      split; [reflexivity|]. repeat split; auto.
Qed.

(** C7 where no JSON file exists and configure fails with a message
    that a table would know: the failure is answered as it is, after one
    configure step and no remediation. *)
Lemma missing_database_surfaces_raw_failure_witness :
  _load_json Scenario.configure_broken "error-patterns.json" Scenario.start
  = (Val empty_dict,
     extend Scenario.start
       [Load "error-patterns.json" (Exc FileNotFoundError);
        Log WARNING (LoadFailed "error-patterns.json" FileNotFoundError)])
  /\ build_with_validation Scenario.configure_broken Evaluation.without_table
       "/work/proj" Scenario.start
     = (Val (false, "CMake configure failed: CMake Error: generator not found"),
        {| cwd := "/work/proj";
           trace := [Chdir "/work/proj" (Val "/work/proj");
                     Log INFO (BuildAttempt 1 3);
                     Log INFO RunningConfigure;
                     Run configure_cmd None
                       (Scenario.failed 1 "" "CMake Error: generator not found");
                     Log ERROR ConfigureFailed] |}).
Proof.
  destruct (missing_database_surfaces_raw_failure Scenario.configure_broken
              "error-patterns.json" FileNotFoundError
              (or_introl eq_refl) (fun h => eq_refl))
    as (Hload & _ & _ & _ & Hrun).
  split; [apply Hload|].
  unfold Evaluation.without_table.
  rewrite (Hrun "/work/proj" Scenario.start "/work/proj" eq_refl).
  reflexivity.
Defined.

(** C3, as stated, fails: the build step fails on every attempt with an
    output that matches no pattern of the table, and the answer is the
    failure of the first attempt, not the one for exhausted attempts. *)
Lemma unmatched_compile_failure_is_not_retried :
  (forall h, subprocess_run Scenario.compile_broken h compile_cmd None
             = Val Evaluation.broken_step)
  /\ match_error_pattern Scenario.compile_broken Evaluation.rescued_by_fix
       (stderr Evaluation.broken_step ++ stdout Evaluation.broken_step)%string
     = Val None
  /\ fst (build_with_validation Scenario.compile_broken Evaluation.rescued_by_fix
            "/work/proj" Scenario.start)
     = Val (false, "Build failed: undefined reference to main")
  /\ fst (build_with_validation Scenario.compile_broken Evaluation.rescued_by_fix
            "/work/proj" Scenario.start)
     <> Val (false, "Build failed after 3 attempts").
Proof.
  split; [reflexivity|]. split; [vm_compute; reflexivity|].
  split; [vm_compute; reflexivity|]. vm_compute. discriminate.
Qed.

(** C3, as the code has it.  When configure succeeds and the build step
    fails with an output that matches no pattern, the call ends on that
    first attempt: it answers [(False, "Build failed: " + output[:300])]
    after one configure and one build step, and does not run the remaining
    attempts. *)
Theorem unmatched_compile_failure_ends_the_call
    (w : world) (self : engine) (project_dir : string) (s : state)
    (dir : string) (configured built : completed) :
  os_chdir w (trace s) (cwd s) project_dir = Val dir ->
  0 < max_retry_attempts self ->
  (forall h, subprocess_run w h configure_cmd None = Val configured) ->
  returncode configured = 0%Z ->
  (forall h, subprocess_run w h compile_cmd None = Val built) ->
  returncode built <> 0%Z ->
  match_error_pattern w self (stderr built ++ stdout built)%string = Val None ->
  build_with_validation w self project_dir s
  = (Val (false,
          ("Build failed: " ++ Py.slice_to 300 (stderr built ++ stdout built))%string),
     {| cwd := dir;
        trace := trace s ++
                 [Chdir project_dir (Val dir);
                  Log INFO (BuildAttempt 1 (max_retry_attempts self));
                  Log INFO RunningConfigure;
                  Run configure_cmd None (Val configured);
                  Log INFO RunningBuild;
                  Run compile_cmd None (Val built);
                  Log ERROR BuildFailed] |}).
Proof.
  intros Hcd Hpos Hcfg Hok Hcmp Hbad Hnone.
  unfold build_with_validation, bind at 1, chdir. rewrite Hcd.
  destruct (max_retry_attempts self) as [|n] eqn:Hmax; [lia|].
  cbn [seq attempts_loop]. unfold bind at 1, attempt_body.
  rewrite !bind_log, bind_run, Hcfg, Hok. cbn [Z.eqb negb].
  rewrite bind_log, bind_run, Hcmp.
  apply Z.eqb_neq in Hbad. rewrite Hbad. cbn [negb].
  rewrite handle_failure_unmatched by exact Hnone.
  unfold ret. f_equal. rewrite !extend_extend. unfold extend. cbn [cwd trace].
  rewrite <- app_assoc, Hmax. reflexivity.
Qed.

(** C3, amended, where the build step always fails with an unknown
    message. *)
Lemma unmatched_compile_failure_ends_the_call_witness :
  fst (build_with_validation Scenario.compile_broken Evaluation.rescued_by_fix
         "/work/proj" Scenario.start)
  = Val (false, "Build failed: undefined reference to main").
Proof.
  rewrite (unmatched_compile_failure_ends_the_call Scenario.compile_broken
             Evaluation.rescued_by_fix "/work/proj" Scenario.start "/work/proj"
             Evaluation.configured_step Evaluation.broken_step).
  - reflexivity.
  - reflexivity.
  - cbn. lia.
  - intros h. reflexivity.
  - reflexivity.
  - intros h. reflexivity.
  - discriminate.
  - vm_compute. reflexivity.
Defined.

(** ** A fallback that succeeds *)

(** C1.  Configure fails with a known message, the auto-fix command exits
    1 and the fallback command exits 0: the call does not go to a second
    attempt.  It runs configure once and answers the failure. *)
Theorem successful_fallback_does_not_retry :
  build_with_validation Scenario.configure_broken Evaluation.rescued_by_fallback
    "/work/proj" Scenario.start
  = (Val (false, "CMake configure failed: CMake Error: generator not found"),
     {| cwd := "/work/proj";
        trace :=
          [Chdir "/work/proj" (Val "/work/proj");
           Log INFO (BuildAttempt 1 3);
           Log INFO RunningConfigure;
           Run configure_cmd None
             (Scenario.failed 1 "" "CMake Error: generator not found");
           Log ERROR ConfigureFailed;
           Log WARNING (UserMessage "known problem");
           Log INFO (ExecutingFix "install");
           Run (Shell "false") (Some 30) (Scenario.failed 1 "" "");
           Log INFO (ExecutingFix "install");
           Run (Shell "true") (Some 30) (Scenario.ok "");
           Log INFO (Fixed "install")] |}).
Proof. vm_compute. reflexivity. Qed.

(** * Properties of the rest of the script *)

(** ** The environment check *)

Lemma probe_compilers_summary (w : world) (compilers : list string) :
  forall s, exists r evs,
    probe_compilers w compilers s = (r, extend s evs)
    /\ evs = map (fun p => Run (compiler_version_cmd (fst p)) (Some 2) (snd p))
               (compiler_probes evs)
    /\ match r with
       | Val false =>
           map fst (compiler_probes evs) = compilers
           /\ forallb probe_skipped (compiler_probes evs) = true
       | Val true =>
           exists before compiler res later,
             compiler_probes evs = before ++ [(compiler, Val res)]
             /\ returncode res = 0%Z
             /\ forallb probe_skipped before = true
             /\ compilers = map fst before ++ compiler :: later
       | Exc e =>
           exists before compiler r0 later,
             compiler_probes evs = before ++ [(compiler, r0)]
             /\ forallb probe_skipped before = true
             /\ compilers = map fst before ++ compiler :: later
             /\ e <> FileNotFoundError /\ e <> TimeoutExpired
             /\ (r0 = Exc e
                 \/ exists res, r0 = Val res /\ returncode res <> 0%Z
                                /\ e = called_process_error)
       end.
Proof.
  induction compilers as [|c rest IH]; intros s.
  - exists (Val false), []. rewrite extend_nil. repeat split; reflexivity.
  - cbn [probe_compilers]. unfold run_checked.
    unfold bind at 1, trying, bind at 1, run.
    set (r0 := subprocess_run w (trace s) (compiler_version_cmd c) (Some 2)).
    change (record (Run (compiler_version_cmd c) (Some 2) r0) s)
      with (extend s [Run (compiler_version_cmd c) (Some 2) r0]).
    set (s1 := extend s [Run (compiler_version_cmd c) (Some 2) r0]).
    assert (Hskip : probe_skipped (c, r0) = true ->
              exists r evs,
                probe_compilers w rest s1 = (r, extend s evs)
                /\ evs = map (fun p => Run (compiler_version_cmd (fst p)) (Some 2) (snd p))
                           (compiler_probes evs)
                /\ match r with
                   | Val false =>
                       map fst (compiler_probes evs) = c :: rest
                       /\ forallb probe_skipped (compiler_probes evs) = true
                   | Val true =>
                       exists before compiler res later,
                         compiler_probes evs = before ++ [(compiler, Val res)]
                         /\ returncode res = 0%Z
                         /\ forallb probe_skipped before = true
                         /\ c :: rest = map fst before ++ compiler :: later
                   | Exc e =>
                       exists before compiler r1 later,
                         compiler_probes evs = before ++ [(compiler, r1)]
                         /\ forallb probe_skipped before = true
                         /\ c :: rest = map fst before ++ compiler :: later
                         /\ e <> FileNotFoundError /\ e <> TimeoutExpired
                         /\ (r1 = Exc e
                             \/ exists res, r1 = Val res /\ returncode res <> 0%Z
                                            /\ e = called_process_error)
                   end).
    { intros Hsk. destruct (IH s1) as (r & evs & Heq & Hevs & Hres).
      exists r, (Run (compiler_version_cmd c) (Some 2) r0 :: evs).
      assert (Hp : compiler_probes (Run (compiler_version_cmd c) (Some 2) r0 :: evs)
                   = (c, r0) :: compiler_probes evs) by reflexivity.
      split; [rewrite Heq; subst s1; now rewrite extend_extend|].
      split; [rewrite Hp; cbn [map fst snd]; now rewrite <- Hevs|].
      rewrite Hp. destruct r as [[|]|e].
      - destruct Hres as (before & compiler & res & later & Hb & Hz & Hsk' & Hc).
        exists ((c, r0) :: before), compiler, res, later.
        rewrite Hb. cbn [map fst forallb app]. rewrite Hsk, Hsk', Hc. repeat split; auto.
      - destruct Hres as [Hm Hf]. cbn [map fst forallb]. now rewrite Hm, Hsk, Hf.
      - destruct Hres as (before & compiler & r1 & later & Hb & Hsk' & Hc & Hne1 & Hne2 & Hor).
        exists ((c, r0) :: before), compiler, r1, later.
        rewrite Hb. cbn [map fst forallb app]. rewrite Hsk, Hsk', Hc. repeat split; auto. }
    assert (Hone : compiler_probes [Run (compiler_version_cmd c) (Some 2) r0] = [(c, r0)])
      by reflexivity.
    destruct r0 as [res|e] eqn:Hr0.
    + destruct (Z.eqb (returncode res) 0) eqn:Hz; cbn [negb].
      * exists (Val true), [Run (compiler_version_cmd c) (Some 2) (Val res)].
        split; [reflexivity|]. split; [reflexivity|].
        exists [], c, res, rest. rewrite Hone. apply Z.eqb_eq in Hz. auto.
      * exists (Exc called_process_error), [Run (compiler_version_cmd c) (Some 2) (Val res)].
        split; [reflexivity|]. split; [reflexivity|].
        exists [], c, (Val res), rest. rewrite Hone. apply Z.eqb_neq in Hz.
        repeat split; try discriminate. right. now exists res.
    + destruct e; try (apply Hskip; reflexivity).
      * exists (Exc JSONDecodeError), [Run (compiler_version_cmd c) (Some 2) (Exc JSONDecodeError)].
        split; [reflexivity|]. split; [reflexivity|].
        exists [], c, (Exc JSONDecodeError), rest. rewrite Hone.
        repeat split; try discriminate. now left.
      * exists (Exc ReError), [Run (compiler_version_cmd c) (Some 2) (Exc ReError)].
        split; [reflexivity|]. split; [reflexivity|].
        exists [], c, (Exc ReError), rest. rewrite Hone.
        repeat split; try discriminate. now left.
      * exists (Exc (OtherError name)), [Run (compiler_version_cmd c) (Some 2) (Exc (OtherError name))].
        split; [reflexivity|]. split; [reflexivity|].
        exists [], c, (Exc (OtherError name)), rest. rewrite Hone.
        repeat split; try discriminate. now left.
Qed.

(** Everything [validate_environment] does: the cmake probe under 5
    seconds, then, unless [CXX] is set, the compiler probes under 2
    seconds each, in the order of the platform's list. *)
Lemma validate_environment_summary (w : world) (environ_cxx : option string)
    (fix_ : bool) (s : state) :
  exists r r0 evs,
    validate_environment w environ_cxx fix_ s
    = (r, extend s (Run cmake_version_cmd (Some 5) r0 :: evs))
    /\ r0 = subprocess_run w (trace s) cmake_version_cmd (Some 5)
    /\ evs = map (fun p => Run (compiler_version_cmd (fst p)) (Some 2) (snd p))
               (compiler_probes evs)
    /\ (exists later,
           compilers_for (platform_system w) = map fst (compiler_probes evs) ++ later)
    /\ ((exists e, r0 = Exc e /\ e <> FileNotFoundError /\ r = Exc e /\ evs = [])
        \/ ((forall e, r0 = Exc e -> e = FileNotFoundError)
            /\ ((Py.truthy environ_cxx = true /\ evs = []
                 /\ r = Val (Nat.eqb (length (cmake_issues r0)) 0, cmake_issues r0))
                \/ (Py.truthy environ_cxx = false
                    /\ exists before last,
                         compiler_probes evs = before ++ [last]
                         /\ forallb probe_skipped before = true
                         /\ ((probe_succeeded last = true
                              /\ r = Val (Nat.eqb (length (cmake_issues r0)) 0,
                                          cmake_issues r0))
                             \/ exists e, probe_raises last e /\ r = Exc e))
                \/ (Py.truthy environ_cxx = false
                    /\ map fst (compiler_probes evs) = compilers_for (platform_system w)
                    /\ forallb probe_skipped (compiler_probes evs) = true
                    /\ r = Val (false, cmake_issues r0 ++ [no_compiler]))))).
Proof.
  unfold validate_environment. unfold bind at 1, trying, run.
  set (r0 := subprocess_run w (trace s) cmake_version_cmd (Some 5)).
  change (record (Run cmake_version_cmd (Some 5) r0) s)
    with (extend s [Run cmake_version_cmd (Some 5) r0]).
  set (s1 := extend s [Run cmake_version_cmd (Some 5) r0]).
  assert (Hgo : (forall e, r0 = Exc e -> e = FileNotFoundError) ->
            exists r evs,
              bind (if negb (Py.truthy environ_cxx)
                    then bind (probe_compilers w (compilers_for (platform_system w)))
                           (fun found =>
                              ret (if negb found then cmake_issues r0 ++ [no_compiler]
                                   else cmake_issues r0))
                    else ret (cmake_issues r0))
                (fun issues => ret (Nat.eqb (length issues) 0, issues)) s1
              = (r, extend s (Run cmake_version_cmd (Some 5) r0 :: evs))
              /\ evs = map (fun p => Run (compiler_version_cmd (fst p)) (Some 2) (snd p))
                         (compiler_probes evs)
              /\ (exists later,
                     compilers_for (platform_system w)
                     = map fst (compiler_probes evs) ++ later)
              /\ ((Py.truthy environ_cxx = true /\ evs = []
                   /\ r = Val (Nat.eqb (length (cmake_issues r0)) 0, cmake_issues r0))
                  \/ (Py.truthy environ_cxx = false
                      /\ exists before last,
                           compiler_probes evs = before ++ [last]
                           /\ forallb probe_skipped before = true
                           /\ ((probe_succeeded last = true
                                /\ r = Val (Nat.eqb (length (cmake_issues r0)) 0,
                                            cmake_issues r0))
                               \/ exists e, probe_raises last e /\ r = Exc e))
                  \/ (Py.truthy environ_cxx = false
                      /\ map fst (compiler_probes evs) = compilers_for (platform_system w)
                      /\ forallb probe_skipped (compiler_probes evs) = true
                      /\ r = Val (false, cmake_issues r0 ++ [no_compiler])))).
  { intros _. destruct (Py.truthy environ_cxx) eqn:Hcxx; cbn [negb].
    - exists (Val (Nat.eqb (length (cmake_issues r0)) 0, cmake_issues r0)), [].
      split; [reflexivity|]. split; [reflexivity|].
      split; [now exists (compilers_for (platform_system w))|]. left. auto.
    - unfold bind at 1. unfold bind at 1.
      destruct (probe_compilers_summary w (compilers_for (platform_system w)) s1)
        as (r & evs & Heq & Hevs & Hres).
      rewrite Heq. subst s1. rewrite extend_extend. cbn [app].
      destruct r as [[|]|e].
      + destruct Hres as (before & compiler & res & later & Hb & Hz & Hsk & Hc).
        exists (Val (Nat.eqb (length (cmake_issues r0)) 0, cmake_issues r0)), evs.
        split; [reflexivity|]. split; [exact Hevs|]. split.
        * exists later. rewrite Hb, map_app, <- app_assoc. exact Hc.
        * right. left. split; [reflexivity|].
          exists before, (compiler, Val res). repeat split; auto. left.
          split; [|reflexivity]. unfold probe_succeeded. cbn [snd].
          now apply Z.eqb_eq.
      + destruct Hres as [Hm Hsk].
        exists (Val (false, cmake_issues r0 ++ [no_compiler])), evs.
        split.
        { unfold ret. cbn [negb].
          replace (Nat.eqb (length (cmake_issues r0 ++ [no_compiler])) 0) with false;
            [reflexivity|].
          symmetry. apply Nat.eqb_neq. rewrite length_app. cbn [length]. lia. }
        split; [exact Hevs|]. split.
        * exists []. now rewrite app_nil_r.
        * right. right. auto.
      + destruct Hres as (before & compiler & r1 & later & Hb & Hsk & Hc & Hn1 & Hn2 & Hor).
        exists (Exc e), evs.
        split; [reflexivity|]. split; [exact Hevs|]. split.
        * exists later. rewrite Hb, map_app, <- app_assoc. exact Hc.
        * right. left. split; [reflexivity|].
          exists before, (compiler, r1). repeat split; auto. right.
          exists e. split; [|reflexivity]. repeat split; auto. }
  destruct r0 as [res|e] eqn:Hr0.
  - rewrite bind_ret.
    destruct Hgo as (r & evs & Heq & Hevs & Hlater & Hcases); [discriminate|].
    exists r, (Val res), evs. cbn [cmake_issues] in Heq.
    destruct (Z.eqb (returncode res) 0); cbn [negb]; rewrite Heq;
      (split; [reflexivity|]); (split; [reflexivity|]); (split; [exact Hevs|]);
      (split; [exact Hlater|]); right; (split; [discriminate|exact Hcases]).
  - destruct e.
    + rewrite bind_ret.
      destruct Hgo as (r & evs & Heq & Hevs & Hlater & Hcases);
        [intros e He; now inversion He|].
      exists r, (Exc FileNotFoundError), evs. cbn [cmake_issues] in Heq. rewrite Heq.
      split; [reflexivity|]. split; [reflexivity|]. split; [exact Hevs|].
      split; [exact Hlater|]. right. split; [|exact Hcases].
      intros e He. now inversion He.
    + exists (Exc JSONDecodeError), (Exc JSONDecodeError), [].
      split; [reflexivity|]. split; [reflexivity|]. split; [reflexivity|].
      split; [now exists (compilers_for (platform_system w))|]. left.
      exists JSONDecodeError. repeat split; discriminate.
    + exists (Exc TimeoutExpired), (Exc TimeoutExpired), [].
      split; [reflexivity|]. split; [reflexivity|]. split; [reflexivity|].
      split; [now exists (compilers_for (platform_system w))|]. left.
      exists TimeoutExpired. repeat split; discriminate.
    + exists (Exc ReError), (Exc ReError), [].
      split; [reflexivity|]. split; [reflexivity|]. split; [reflexivity|].
      split; [now exists (compilers_for (platform_system w))|]. left.
      exists ReError. repeat split; discriminate.
    + exists (Exc (OtherError name)), (Exc (OtherError name)), [].
      split; [reflexivity|]. split; [reflexivity|]. split; [reflexivity|].
      split; [now exists (compilers_for (platform_system w))|]. left.
      exists (OtherError name). repeat split; discriminate.
Qed.

Lemma cmake_issues_empty (r0 : outcome completed) :
  Nat.eqb (length (cmake_issues r0)) 0 = true ->
  cmake_issues r0 = [] /\ exists res, r0 = Val res /\ returncode res = 0%Z.
Proof.
  destruct r0 as [res|e]; cbn [cmake_issues]; [|discriminate].
  destruct (Z.eqb (returncode res) 0) eqn:Hz; [|discriminate].
  intros _. split; [reflexivity|]. exists res. split; [reflexivity|].
  now apply Z.eqb_eq.
Qed.

(** X1.  When [validate_environment] answers success, the issue list is
    empty, [cmake --version] ran and exited 0, and either [CXX] is set or
    the last compiler probed, one of the platform's list, exited 0 on
    [--version]. *)
Theorem validation_success_is_sound
    (w : world) (environ_cxx : option string) (fix_ : bool) (s s' : state)
    (issues : list string) :
  validate_environment w environ_cxx fix_ s = (Val (true, issues), s') ->
  issues = []
  /\ exists res evs,
       s' = extend s (Run cmake_version_cmd (Some 5) (Val res) :: evs)
       /\ returncode res = 0%Z
       /\ ((Py.truthy environ_cxx = true /\ evs = [])
           \/ exists before compiler found,
                compiler_probes evs = before ++ [(compiler, Val found)]
                /\ returncode found = 0%Z
                /\ In compiler (compilers_for (platform_system w))).
Proof.
  intros Hrun.
  destruct (validate_environment_summary w environ_cxx fix_ s)
    as (r & r0 & evs & Heq & _ & _ & (later & Hlater) & Hcases).
  rewrite Hrun in Heq. inversion Heq as [[Hr Hs]]. clear Heq.
  destruct Hcases as [(e & _ & _ & He & _)|[_ Hcases]]; [congruence|].
  destruct Hcases as [(Hcxx & Hevs & Hres)|[(Hcxx & before & last & Hb & Hsk & Hlast)|
                                            (_ & _ & _ & Hres)]].
  - rewrite Hres in Hr. inversion Hr as [[Hok Hissues]].
    symmetry in Hok. destruct (cmake_issues_empty _ Hok) as (Hnil & res & -> & Hz).
    split; [first [exact Hnil|congruence]|]. exists res, evs. repeat split; auto.
  - destruct Hlast as [[Hsucc Hres]|(e & _ & Hres)]; [|congruence].
    rewrite Hres in Hr. inversion Hr as [[Hok Hissues]].
    symmetry in Hok. destruct (cmake_issues_empty _ Hok) as (Hnil & res & -> & Hz).
    split; [first [exact Hnil|congruence]|]. exists res, evs. repeat split; auto.
    right. destruct last as [compiler [found|e]]; unfold probe_succeeded in Hsucc;
      cbn [snd] in Hsucc; [|discriminate].
    exists before, compiler, found. split; [exact Hb|].
    split; [now apply Z.eqb_eq|].
    rewrite Hlater, Hb, map_app. apply in_or_app. left. apply in_or_app. right.
    now left.
  - rewrite Hres in Hr. discriminate.
Qed.

(** X1 where every program succeeds. *)
Lemma validation_success_is_sound_witness :
  validate_environment Scenario.healthy None false Scenario.start
  = (Val (true, []),
     extend Scenario.start
       [Run cmake_version_cmd (Some 5) (Scenario.ok "");
        Run (compiler_version_cmd "g++") (Some 2) (Scenario.ok "")])
  /\ exists res evs,
       extend Scenario.start
         [Run cmake_version_cmd (Some 5) (Scenario.ok "");
          Run (compiler_version_cmd "g++") (Some 2) (Scenario.ok "")]
       = extend Scenario.start (Run cmake_version_cmd (Some 5) (Val res) :: evs)
       /\ returncode res = 0%Z
       /\ ((Py.truthy None = true /\ evs = [])
           \/ exists before compiler found,
                compiler_probes evs = before ++ [(compiler, Val found)]
                /\ returncode found = 0%Z
                /\ In compiler (compilers_for (platform_system Scenario.healthy))).
Proof.
  assert (Hrun : validate_environment Scenario.healthy None false Scenario.start
                 = (Val (true, []),
                    extend Scenario.start
                      [Run cmake_version_cmd (Some 5) (Scenario.ok "");
                       Run (compiler_version_cmd "g++") (Some 2) (Scenario.ok "")]))
    by (vm_compute; reflexivity).
  split; [exact Hrun|].
  exact (proj2 (validation_success_is_sound _ _ _ _ _ _ Hrun)).
Defined.

(** X2.  When [CXX] is set to a non-empty string, the only program run is
    [cmake --version]: no compiler is probed, the one [CXX] names is not
    checked, and the issues are those of the cmake probe alone. *)
Theorem cxx_set_skips_compiler_detection
    (w : world) (environ_cxx : option string) (fix_ : bool) (s : state) :
  Py.truthy environ_cxx = true ->
  let r0 := subprocess_run w (trace s) cmake_version_cmd (Some 5) in
  snd (validate_environment w environ_cxx fix_ s)
  = extend s [Run cmake_version_cmd (Some 5) r0]
  /\ match fst (validate_environment w environ_cxx fix_ s) with
     | Val (ok, issues) =>
         issues = cmake_issues r0 /\ ~ In no_compiler issues
     | Exc e => r0 = Exc e
     end.
Proof.
  intros Hcxx r0.
  destruct (validate_environment_summary w environ_cxx fix_ s)
    as (r & r0' & evs & Heq & Hr0 & _ & _ & Hcases).
  fold r0 in Hr0. subst r0'. rewrite Heq. cbn [fst snd].
  destruct Hcases as [(e & He & _ & -> & ->)|[_ Hcases]]; [now split|].
  destruct Hcases as [(_ & -> & ->)|[(Hf & _)|(Hf & _)]]; try congruence.
  split; [reflexivity|]. split; [reflexivity|].
  clearbody r0.
  destruct r0 as [res|e]; cbn [cmake_issues];
    [destruct (Z.eqb (returncode res) 0)|];
    unfold cmake_not_in_path, cmake_not_installed, no_compiler, In;
    intuition discriminate.
Qed.

(** X2 with [CXX] naming a program that does not exist. *)
Lemma cxx_set_skips_compiler_detection_witness :
  Py.truthy (Some "no-such-compiler") = true
  /\ snd (validate_environment Scenario.tool_missing (Some "no-such-compiler") false
            Scenario.start)
     = extend Scenario.start [Run cmake_version_cmd (Some 5) (Exc FileNotFoundError)].
Proof.
  split; [reflexivity|].
  exact (proj1 (cxx_set_skips_compiler_detection Scenario.tool_missing
                  (Some "no-such-compiler") false Scenario.start eq_refl)).
Defined.

(** X3.  With [CXX] unset, a first compiler that starts and exits non-zero
    on [--version] ends the check with [CalledProcessError]: the next
    compilers are not tried and no issue list is answered. *)
Theorem failing_compiler_aborts_validation
    (w : world) (environ_cxx : option string) (fix_ : bool) (s : state)
    (probed : completed) :
  Py.truthy environ_cxx = false ->
  (forall e, subprocess_run w (trace s) cmake_version_cmd (Some 5) = Exc e ->
             e = FileNotFoundError) ->
  (forall h, subprocess_run w h (compiler_version_cmd "g++") (Some 2) = Val probed) ->
  returncode probed <> 0%Z ->
  validate_environment w environ_cxx fix_ s
  = (Exc called_process_error,
     extend s [Run cmake_version_cmd (Some 5)
                 (subprocess_run w (trace s) cmake_version_cmd (Some 5));
               Run (compiler_version_cmd "g++") (Some 2) (Val probed)]).
Proof.
  intros Hcxx Hcmake Hgxx Hbad.
  assert (Hprobe : forall s1,
             probe_compilers w (compilers_for (platform_system w)) s1
             = (Exc called_process_error,
                extend s1 [Run (compiler_version_cmd "g++") (Some 2) (Val probed)])).
  { intros s1. unfold compilers_for.
    apply Z.eqb_neq in Hbad.
    destruct (String.eqb (platform_system w) "Windows");
      cbn [probe_compilers]; unfold run_checked, bind, trying, run;
      rewrite Hgxx, Hbad; reflexivity. }
  assert (Hrest : forall r0 issues,
             bind (if negb (Py.truthy environ_cxx)
                   then bind (probe_compilers w (compilers_for (platform_system w)))
                          (fun found =>
                             ret (if negb found then issues ++ [no_compiler] else issues))
                   else ret issues)
               (fun issues => ret (Nat.eqb (length issues) 0, issues))
               (extend s [Run cmake_version_cmd (Some 5) r0])
             = (Exc called_process_error,
                extend s [Run cmake_version_cmd (Some 5) r0;
                          Run (compiler_version_cmd "g++") (Some 2) (Val probed)])).
  { intros r0 issues. rewrite Hcxx. cbn [negb]. unfold bind. rewrite Hprobe.
    now rewrite extend_extend. }
  unfold validate_environment. unfold bind at 1, trying, run. cbv zeta.
  remember (subprocess_run w (trace s) cmake_version_cmd (Some 5)) as r0 eqn:Hr0.
  destruct r0 as [res|e].
  - rewrite bind_ret. apply Hrest.
  - rewrite (Hcmake e eq_refl). rewrite bind_ret. apply Hrest.
Qed.

(** X3 where [g++] is broken and every other program works. *)
Lemma failing_compiler_aborts_validation_witness :
  validate_environment broken_gxx None false Scenario.start
  = (Exc called_process_error,
     extend Scenario.start
       [Run cmake_version_cmd (Some 5) (Scenario.ok "");
        Run (compiler_version_cmd "g++") (Some 2)
          (Scenario.failed 1 "" "g++: internal error")]).
Proof.
  apply (failing_compiler_aborts_validation broken_gxx None false Scenario.start
           {| returncode := 1; stdout := ""; stderr := "g++: internal error" |}).
  - reflexivity.
  - intros e H. discriminate H.
  - intros h. reflexivity.
  - discriminate.
Defined.

(** X4.  [validate_environment] never raises [FileNotFoundError]; a
    timeout leaves it only from the cmake probe; and an answer
    [(ok, issues)] has [ok] true exactly when [issues] is empty, with at
    most two issues, each one of the three messages of the function. *)
Theorem validate_environment_answers
    (w : world) (environ_cxx : option string) (fix_ : bool) (s : state) :
  match validate_environment w environ_cxx fix_ s with
  | (Exc e, s') =>
      e <> FileNotFoundError
      /\ (e = TimeoutExpired ->
          s' = extend s [Run cmake_version_cmd (Some 5) (Exc TimeoutExpired)])
  | (Val (ok, issues), _) =>
      (ok = true <-> issues = [])
      /\ length issues <= 2
      /\ incl issues [cmake_not_in_path; cmake_not_installed; no_compiler]
  end.
Proof.
  destruct (validate_environment_summary w environ_cxx fix_ s)
    as (r & r0 & evs & Heq & _ & _ & _ & Hcases).
  rewrite Heq.
  assert (Hissues : (Nat.eqb (length (cmake_issues r0)) 0 = true <-> cmake_issues r0 = [])
                    /\ length (cmake_issues r0) <= 1
                    /\ incl (cmake_issues r0) [cmake_not_in_path; cmake_not_installed]).
  { destruct r0 as [res|e]; cbn [cmake_issues].
    - destruct (Z.eqb (returncode res) 0); cbn; repeat split; auto;
        try discriminate; try (intros x [<-|[]]; now left).
      intros x [].
    - cbn. repeat split; auto; try discriminate.
      intros x [<-|[]]. right. now left. }
  destruct Hissues as (Hiff & Hlen & Hincl).
  destruct Hcases as [(e & -> & Hne & -> & ->)|[_ Hcases]].
  - split; [exact Hne|]. intros ->. reflexivity.
  - destruct Hcases as [(_ & _ & ->)|[(_ & before & last & _ & _ & Hlast)|(_ & _ & _ & ->)]].
    + split; [exact Hiff|]. split; [lia|].
      intros x Hx. apply Hincl in Hx. destruct Hx as [<-|[<-|[]]]; cbn; auto.
    + destruct Hlast as [[_ ->]|(e & (Hn1 & Hn2 & _) & ->)].
      * split; [exact Hiff|]. split; [lia|].
        intros x Hx. apply Hincl in Hx. destruct Hx as [<-|[<-|[]]]; cbn; auto.
      * split; [exact Hn1|]. intros ->. congruence.
    + split; [|split].
      * split; [discriminate|]. intros H. now destruct (cmake_issues r0).
      * rewrite length_app. cbn [length]. lia.
      * intros x Hx. apply in_app_or in Hx. destruct Hx as [Hx|[<-|[]]].
        -- apply Hincl in Hx. destruct Hx as [<-|[<-|[]]]; cbn; auto.
        -- cbn. auto.
Qed.

(** X5.  The programs [validate_environment] runs are [cmake --version]
    under 5 seconds and then compilers' [--version] under 2 seconds each,
    the compilers being an initial part of the platform's list in its
    order; [cl] is probed on Windows only. *)
Theorem compilers_probed_in_platform_order
    (w : world) (environ_cxx : option string) (fix_ : bool) (s : state) :
  exists r0 evs later,
    snd (validate_environment w environ_cxx fix_ s)
    = extend s (Run cmake_version_cmd (Some 5) r0 :: evs)
    /\ evs = map (fun p => Run (compiler_version_cmd (fst p)) (Some 2) (snd p))
               (compiler_probes evs)
    /\ compilers_for (platform_system w) = map fst (compiler_probes evs) ++ later
    /\ (if String.eqb (platform_system w) "Windows" then True
        else ~ In "cl" (map fst (compiler_probes evs))).
Proof.
  destruct (validate_environment_summary w environ_cxx fix_ s)
    as (r & r0 & evs & Heq & _ & Hevs & (later & Hlater) & _).
  exists r0, evs, later. rewrite Heq. repeat split; auto.
  unfold compilers_for in Hlater.
  destruct (String.eqb (platform_system w) "Windows"); [exact I|].
  intros Hin.
  assert (Hin' : In "cl" ["g++"; "clang++"])
    by (rewrite Hlater; apply in_or_app; now left).
  cbn in Hin'. destruct Hin' as [H|[H|[]]]; discriminate.
Qed.

(** ** Python text *)

Lemma append_assoc (a b c : string) : ((a ++ b) ++ c = a ++ (b ++ c))%string.
Proof. induction a as [|x a IH]; [reflexivity|]. cbn. now rewrite IH. Qed.

Lemma append_nil_r (a : string) : (a ++ "" = a)%string.
Proof. induction a as [|x a IH]; [reflexivity|]. cbn. now rewrite IH. Qed.

Lemma prefix_append (x y : string) : String.prefix x (x ++ y) = true.
Proof.
  induction x as [|c x IH]; [now destruct y|].
  cbn. destruct (ascii_dec c c) as [_|Hne]; [exact IH|now elim Hne].
Qed.

Lemma is_in_here (x y : string) : Text.is_in x (x ++ y) = true.
Proof.
  destruct (x ++ y)%string eqn:Heq; cbn [Text.is_in];
    rewrite <- Heq, prefix_append; reflexivity.
Qed.

Lemma is_in_append_r (x a b : string) :
  Text.is_in x b = true -> Text.is_in x (a ++ b) = true.
Proof.
  intros H. induction a as [|c a IH]; [exact H|].
  cbn [append Text.is_in]. rewrite IH. apply orb_true_r.
Qed.

(** ** Creating the project files *)

Lemma orderly_fret {A : Type} (own : exn -> Prop) (a : A) : orderly own (fret a).
Proof. intros h. exists (Val a), []. rewrite app_nil_r. now split. Qed.

Lemma orderly_flift {A : Type} (own : exn -> Prop) (r : outcome A) :
  (forall e, r = Exc e -> own e) -> orderly own (flift r).
Proof.
  intros Hown h. exists r, []. rewrite app_nil_r. split; [reflexivity|].
  destruct r as [a|e]; [reflexivity|]. left. split; [reflexivity|]. now apply Hown.
Qed.

Lemma orderly_mkdir (own : exn -> Prop) (d : disk) (p : path) :
  orderly own (mkdir d p).
Proof.
  intros h. unfold mkdir. exists (mkdir_exist_ok d h p), [Mkdir p (mkdir_exist_ok d h p)].
  split; [reflexivity|].
  destruct (mkdir_exist_ok d h p) as [u|e] eqn:Hr; [reflexivity|].
  right. exists [], (Mkdir p (Exc e)). repeat split.
Qed.

Lemma orderly_write (own : exn -> Prop) (d : disk) (p : path) (content : string) :
  orderly own (write d p content).
Proof.
  intros h. unfold write.
  exists (write_text d h p content), [WriteText p content (write_text d h p content)].
  split; [reflexivity|].
  destruct (write_text d h p content) as [u|e] eqn:Hr; [reflexivity|].
  right. exists [], (WriteText p content (Exc e)). repeat split.
Qed.

Lemma orderly_fbind {A B : Type} (own : exn -> Prop) (m : F A) (k : A -> F B) :
  orderly own m -> (forall a, orderly own (k a)) -> orderly own (fbind m k).
Proof.
  intros Hm Hk h. unfold fbind.
  destruct (Hm h) as (r & evs & Heq & Hr). rewrite Heq.
  destruct r as [a|e].
  - destruct (Hk a (h ++ evs)) as (r' & evs' & Heq' & Hr'). rewrite Heq'.
    exists r', (evs ++ evs'). rewrite app_assoc. split; [reflexivity|].
    destruct r' as [b|e].
    + now rewrite forallb_app, Hr, Hr'.
    + destruct Hr' as [[Hacc Hown]|(before & last & -> & Hacc & Hlast)].
      * left. now rewrite forallb_app, Hr, Hacc.
      * right. exists (evs ++ before), last. rewrite app_assoc.
        now rewrite forallb_app, Hr, Hacc.
  - exists (Exc e), evs. split; [reflexivity|exact Hr].
Qed.

Lemma create_basic_project_orderly (d : disk) (project_name project_type : string)
    (gui_framework : option string) :
  orderly own_error (create_basic_project d project_name project_type gui_framework).
Proof.
  unfold create_basic_project.
  repeat (apply orderly_fbind; [|intros _]);
    try apply orderly_mkdir; try apply orderly_write; try apply orderly_fret.
  - destruct (String.eqb project_type "gui" && Py.truthy gui_framework).
    + unfold _create_gui_cmakelists. apply orderly_fbind.
      * apply orderly_flift. unfold gui_package_lines. intros e.
        destruct (String.eqb _ "qt6"); [discriminate|].
        destruct (String.eqb _ "wxwidgets"); [|discriminate].
        intros H. inversion H. now left.
      * intros lines. apply orderly_write.
    + apply orderly_write.
  - destruct (String.eqb project_type "gui").
    + unfold _create_gui_main. apply orderly_fbind.
      * apply orderly_flift. unfold gui_main_text. intros e.
        destruct gui_framework as [fw|].
        -- destruct (String.eqb fw "qt6"); [discriminate|].
           destruct (String.eqb fw "wxwidgets"); discriminate.
        -- intros H. inversion H. now right.
      * intros content. apply orderly_write.
    + apply orderly_write.
  - destruct (Py.truthy gui_framework); [apply orderly_write|apply orderly_fret].
Qed.

Lemma performs_fret {A : Type} (a : A) (post : A -> Prop) :
  post a -> performs (fret a) [] post.
Proof.
  intros Hpost h. cbn. split; [exact Hpost|]. exists []. now rewrite app_nil_r.
Qed.

Lemma performs_flift {A : Type} (r : outcome A) : performs (flift r) [] (fun _ => True).
Proof.
  intros h. unfold flift. destruct r; [|exact I].
  split; [exact I|]. exists []. now rewrite app_nil_r.
Qed.

Lemma performs_mkdir (d : disk) (p : path) :
  performs (mkdir d p) [(false, p)] (fun _ => True).
Proof.
  intros h. unfold mkdir. destruct (mkdir_exist_ok d h p) as [u|e]; [|exact I].
  split; [exact I|]. now exists [Mkdir p (Val u)].
Qed.

Lemma performs_write (d : disk) (p : path) (content : string) :
  performs (write d p content) [(true, p)] (fun _ => True).
Proof.
  intros h. unfold write. destruct (write_text d h p content) as [u|e]; [|exact I].
  split; [exact I|]. now exists [WriteText p content (Val u)].
Qed.

Lemma performs_fbind {A B : Type} (m : F A) (k : A -> F B)
    (ps qs : list (bool * path)) (post : B -> Prop) :
  performs m ps (fun _ => True) -> (forall a, performs (k a) qs post) ->
  performs (fbind m k) (ps ++ qs) post.
Proof.
  intros Hm Hk h. unfold fbind. specialize (Hm h).
  destruct (m h) as [[a|e] h1]; [|exact I].
  destruct Hm as (_ & evs & -> & Hacc & Hreq).
  specialize (Hk a (h ++ evs)).
  destruct (k a (h ++ evs)) as [[b|e] h2]; [|exact I].
  destruct Hk as (Hpost & evs' & -> & Hacc' & Hreq').
  split; [exact Hpost|]. exists (evs ++ evs'). rewrite app_assoc.
  split; [reflexivity|]. split; [now rewrite forallb_app, Hacc, Hacc'|].
  unfold requests in *. now rewrite map_app, Hreq, Hreq'.
Qed.

Lemma create_basic_project_performs (d : disk) (project_name project_type : string)
    (gui_framework : option string) :
  performs (create_basic_project d project_name project_type gui_framework)
    (project_files project_name gui_framework) (fun b => b = true).
Proof.
  unfold create_basic_project, project_files.
  apply (performs_fbind _ _ [_]); [apply performs_mkdir|intros _].
  apply (performs_fbind _ _ [_]); [apply performs_mkdir|intros _].
  apply (performs_fbind _ _ [_]); [apply performs_mkdir|intros _].
  apply (performs_fbind _ _ [_]); [apply performs_write|intros _].
  apply (performs_fbind _ _ [_]).
  { destruct (String.eqb project_type "gui" && Py.truthy gui_framework).
    - unfold _create_gui_cmakelists.
      apply (performs_fbind _ _ []); [apply performs_flift|intros lines].
      apply performs_write.
    - apply performs_write. }
  intros _. apply (performs_fbind _ _ [_]).
  { destruct (String.eqb project_type "gui").
    - unfold _create_gui_main.
      apply (performs_fbind _ _ []); [apply performs_flift|intros content].
      apply performs_write.
    - apply performs_write. }
  intros _. apply performs_fbind.
  { destruct (Py.truthy gui_framework); [apply performs_write|].
    now apply performs_fret. }
  intros _. apply (performs_fbind _ _ [_] []); [apply performs_write|intros _].
  now apply performs_fret.
Qed.

(** X6.  When [create_basic_project] returns, it returns [True], the disk
    accepted every request, and the requests were, in this order: the
    project directory, [src], [include], then the files [.gitignore],
    [CMakeLists.txt], [src/main.cpp], [vcpkg.json] when a framework is
    named (whatever the project type), and [.clang-format]. *)
Theorem created_project_files
    (d : disk) (project_name project_type : string) (gui_framework : option string)
    (h h' : list fs_event) (answer : bool) :
  create_basic_project d project_name project_type gui_framework h = (Val answer, h') ->
  answer = true
  /\ exists evs,
       h' = h ++ evs
       /\ forallb accepted evs = true
       /\ requests evs = project_files project_name gui_framework.
Proof.
  intros Hrun.
  pose proof (create_basic_project_performs d project_name project_type gui_framework h)
    as H.
  now rewrite Hrun in H.
Qed.

(** X6 for a command-line project that names a framework. *)
Lemma created_project_files_witness :
  exists evs,
    snd (create_basic_project willing_disk "work/proj" "cli" (Some "qt6") []) = [] ++ evs
    /\ forallb accepted evs = true
    /\ requests evs = project_files "work/proj" (Some "qt6").
Proof.
  apply (created_project_files willing_disk "work/proj" "cli" (Some "qt6") []
           (snd (create_basic_project willing_disk "work/proj" "cli" (Some "qt6") []))
           true).
  vm_compute. reflexivity.
Defined.

(** X7.  [create_basic_project] never answers [False].  It stops at the
    first request the disk refuses, with that exception and nothing undone;
    the only exceptions of its own are [IndexError] and [AttributeError],
    raised while every request so far was accepted. *)
Theorem create_basic_project_stops_at_first_failure
    (d : disk) (project_name project_type : string) (gui_framework : option string)
    (h : list fs_event) :
  exists r evs,
    create_basic_project d project_name project_type gui_framework h = (r, h ++ evs)
    /\ match r with
       | Val answer => answer = true /\ forallb accepted evs = true
       | Exc e =>
           (forallb accepted evs = true /\ (e = index_error \/ e = attribute_error))
           \/ exists before last,
                evs = before ++ [last]
                /\ forallb accepted before = true
                /\ refused_with last e
       end.
Proof.
  destruct (create_basic_project_orderly d project_name project_type gui_framework h)
    as (r & evs & Heq & Hr).
  exists r, evs. split; [exact Heq|].
  destruct r as [answer|e]; [|exact Hr].
  split; [|exact Hr].
  pose proof (create_basic_project_performs d project_name project_type gui_framework h)
    as H.
  rewrite Heq in H. now destruct H.
Qed.

Lemma fbind_mkdir {B : Type} (d : disk) (p : path) (k : unit -> F B)
    (h : list fs_event) :
  fbind (mkdir d p) k h
  = match mkdir_exist_ok d h p with
    | Val u => k u (h ++ [Mkdir p (Val u)])
    | Exc e => (Exc e, h ++ [Mkdir p (Exc e)])
    end.
Proof. unfold fbind, mkdir. now destruct (mkdir_exist_ok d h p). Qed.

Lemma fbind_write {B : Type} (d : disk) (p : path) (content : string)
    (k : unit -> F B) (h : list fs_event) :
  fbind (write d p content) k h
  = match write_text d h p content with
    | Val u => k u (h ++ [WriteText p content (Val u)])
    | Exc e => (Exc e, h ++ [WriteText p content (Exc e)])
    end.
Proof. unfold fbind, write. now destruct (write_text d h p content). Qed.

(** The first four requests of [create_basic_project], before any text is
    computed: either all are accepted and the rest of the function runs,
    or one is refused and ends the call. *)
Lemma scaffold_cases {B : Type} (d : disk) (project_name : string) (k : F B)
    (h : list fs_event) :
  let project_dir := Base project_name in
  let m :=
    fbind (mkdir d project_dir) (fun _ =>
    fbind (mkdir d (Child project_dir "src")) (fun _ =>
    fbind (mkdir d (Child project_dir "include")) (fun _ =>
    fbind (write d (Child project_dir ".gitignore") gitignore_text) (fun _ => k)))) in
  (exists u1 u2 u3 u4,
      m h = k (h ++ [Mkdir project_dir (Val u1);
                     Mkdir (Child project_dir "src") (Val u2);
                     Mkdir (Child project_dir "include") (Val u3);
                     WriteText (Child project_dir ".gitignore") gitignore_text (Val u4)]))
  \/ (exists e before last,
         m h = (Exc e, h ++ before ++ [last])
         /\ forallb accepted before = true
         /\ refused_with last e
         /\ incl (written (before ++ [last])) [Child project_dir ".gitignore"]).
Proof.
  intros project_dir m. subst m.
  rewrite fbind_mkdir.
  destruct (mkdir_exist_ok d h project_dir) as [u1|e] eqn:H1.
  - rewrite fbind_mkdir.
    destruct (mkdir_exist_ok d _ (Child project_dir "src")) as [u2|e] eqn:H2.
    + rewrite fbind_mkdir.
      destruct (mkdir_exist_ok d _ (Child project_dir "include")) as [u3|e] eqn:H3.
      * rewrite fbind_write.
        destruct (write_text d _ (Child project_dir ".gitignore") gitignore_text)
          as [u4|e] eqn:H4.
        -- left. exists u1, u2, u3, u4. now rewrite <- !app_assoc.
        -- right. exists e, [Mkdir project_dir (Val u1);
                             Mkdir (Child project_dir "src") (Val u2);
                             Mkdir (Child project_dir "include") (Val u3)],
             (WriteText (Child project_dir ".gitignore") gitignore_text (Exc e)).
           rewrite <- !app_assoc. repeat split. intros x Hx. exact Hx.
      * right. exists e, [Mkdir project_dir (Val u1);
                          Mkdir (Child project_dir "src") (Val u2)],
          (Mkdir (Child project_dir "include") (Exc e)).
        rewrite <- !app_assoc. repeat split. intros x [].
    + right. exists e, [Mkdir project_dir (Val u1)],
        (Mkdir (Child project_dir "src") (Exc e)).
      rewrite <- !app_assoc. repeat split. intros x [].
  - right. exists e, [], (Mkdir project_dir (Exc e)). repeat split. intros x [].
Qed.

(** X8.  A GUI project with the wxwidgets framework is never created: the
    call always raises.  When the disk accepts the three directories and
    [.gitignore], it raises [IndexError] (the [str.format] of the link line
    has three fields and two arguments) before [CMakeLists.txt] is written;
    otherwise it raises what the disk raised.  No file other than
    [.gitignore] is ever written. *)
Theorem wxwidgets_project_is_never_created
    (d : disk) (project_name : string) (h : list fs_event) :
  exists e evs,
    create_basic_project d project_name "gui" (Some "wxwidgets") h = (Exc e, h ++ evs)
    /\ incl (written evs) [Child (Base project_name) ".gitignore"]
    /\ ((e = index_error
         /\ forallb accepted evs = true
         /\ requests evs = [(false, Base project_name);
                            (false, Child (Base project_name) "src");
                            (false, Child (Base project_name) "include");
                            (true, Child (Base project_name) ".gitignore")])
        \/ exists before last,
             evs = before ++ [last]
             /\ forallb accepted before = true
             /\ refused_with last e).
Proof.
  unfold create_basic_project.
  match goal with
  | |- context [fbind (write d (Child (Base project_name) ".gitignore") gitignore_text)
                  (fun _ => ?k)] =>
      destruct (scaffold_cases d project_name k h)
        as [(u1 & u2 & u3 & u4 & Heq)|(e & before & last & Heq & Hacc & Href & Hincl)]
  end.
  - cbv zeta in Heq. rewrite Heq. clear Heq.
    exists index_error. eexists. split; [reflexivity|].
    split; [intros x Hx; exact Hx|].
    left. repeat split.
  - exists e, (before ++ [last]). cbv zeta in Heq. rewrite Heq.
    split; [reflexivity|]. split; [exact Hincl|].
    right. now exists before, last.
Qed.

(** X9.  A GUI project without a framework is never created either: after
    the directories, [.gitignore] and the command-line [CMakeLists.txt], the
    call raises [AttributeError] (the text of [main.cpp] asks [None] for
    its upper case); otherwise it raises what the disk raised.
    [src/main.cpp] is never written. *)
Theorem gui_project_without_framework_raises
    (d : disk) (project_name : string) (h : list fs_event) :
  exists e evs,
    create_basic_project d project_name "gui" None h = (Exc e, h ++ evs)
    /\ incl (written evs) [Child (Base project_name) ".gitignore";
                           Child (Base project_name) "CMakeLists.txt"]
    /\ ((e = attribute_error
         /\ forallb accepted evs = true
         /\ exists accepted_scaffold u,
              evs = accepted_scaffold
                    ++ [WriteText (Child (Base project_name) "CMakeLists.txt")
                          (cli_cmakelists_text project_name) (Val u)])
        \/ exists before last,
             evs = before ++ [last]
             /\ forallb accepted before = true
             /\ refused_with last e).
Proof.
  unfold create_basic_project.
  match goal with
  | |- context [fbind (write d (Child (Base project_name) ".gitignore") gitignore_text)
                  (fun _ => ?k)] =>
      destruct (scaffold_cases d project_name k h)
        as [(u1 & u2 & u3 & u4 & Heq)|(e & before & last & Heq & Hacc & Href & Hincl)]
  end.
  - cbv zeta in Heq. rewrite Heq. clear Heq.
    cbn [String.eqb Ascii.eqb Bool.eqb Py.truthy andb].
    unfold _create_cli_cmakelists. rewrite fbind_write.
    match goal with
    | |- context [write_text d ?h1 ?p ?c] =>
        destruct (write_text d h1 p c) as [u|e] eqn:Hw
    end.
    + unfold fbind, _create_gui_main, gui_main_text, flift. rewrite <- app_assoc.
      exists attribute_error. eexists. split; [reflexivity|].
      split.
      { intros x Hx. cbn in Hx. cbn. tauto. }
      left. split; [reflexivity|]. split; [reflexivity|].
      eexists. exists u. cbn [app].
      match goal with
      | |- ?a :: ?b :: ?c :: ?dd :: [?last] = _ =>
          change (a :: b :: c :: dd :: [last]) with ([a; b; c; dd] ++ [last])
      end.
      reflexivity.
    + exists e. eexists. split; [rewrite <- app_assoc; reflexivity|].
      split.
      { intros x Hx. cbn in Hx. cbn. tauto. }
      right.
      exists [Mkdir (Base project_name) (Val u1);
              Mkdir (Child (Base project_name) "src") (Val u2);
              Mkdir (Child (Base project_name) "include") (Val u3);
              WriteText (Child (Base project_name) ".gitignore") gitignore_text (Val u4)],
        (WriteText (Child (Base project_name) "CMakeLists.txt")
           (cli_cmakelists_text project_name) (Exc e)).
      repeat split.
  - exists e, (before ++ [last]). cbv zeta in Heq. rewrite Heq.
    split; [reflexivity|]. split.
    + intros x Hx. apply Hincl in Hx. destruct Hx as [<-|[]]. now left.
    + right. now exists before, last.
Qed.

Lemma cmakelists_holds_link_line (project_name find_package target_link : string) :
  Text.is_in target_link (gui_cmakelists_text project_name find_package target_link)
  = true.
Proof.
  unfold gui_cmakelists_text.
  repeat first [apply is_in_here | apply is_in_append_r].
Qed.

(** X10.  For a framework other than qt6 and wxwidgets (fltk, imgui, ...),
    the generated [CMakeLists.txt] holds a link line that ends with the
    text [::{framework})], braces included, in place of the framework's
    name. *)
Theorem other_framework_link_line_keeps_placeholder
    (d : disk) (project_dir : path) (project_name framework : string)
    (h : list fs_event) :
  framework <> "qt6" -> framework <> "wxwidgets" ->
  exists content upper_name,
    _create_gui_cmakelists d project_dir project_name framework h
    = write d (Child project_dir "CMakeLists.txt") content h
    /\ Text.is_in ("target_link_libraries(" ++ project_name ++ " PRIVATE "
                   ++ upper_name ++ "::{framework})")%string content
       = true.
Proof.
  intros Hqt Hwx. apply String.eqb_neq in Hqt, Hwx.
  unfold _create_gui_cmakelists, gui_package_lines. rewrite Hqt, Hwx.
  eexists. exists (upper framework). split; [reflexivity|].
  cbn [fst snd]. apply cmakelists_holds_link_line.
Qed.

(** X10 for fltk. *)
Lemma other_framework_link_line_keeps_placeholder_witness :
  exists content upper_name,
    _create_gui_cmakelists willing_disk (Base "proj") "proj" "fltk" []
    = write willing_disk (Child (Base "proj") "CMakeLists.txt") content []
    /\ Text.is_in ("target_link_libraries(" ++ "proj" ++ " PRIVATE "
                   ++ upper_name ++ "::{framework})")%string content
       = true.
Proof.
  apply (other_framework_link_line_keeps_placeholder willing_disk (Base "proj")
           "proj" "fltk" []); discriminate.
Defined.

(** ** Reading the request *)

Lemma lower_append (a b : string) :
  Text.lower (a ++ b) = (Text.lower a ++ Text.lower b)%string.
Proof. induction a as [|c a IH]; [reflexivity|]. cbn. now rewrite IH. Qed.

Lemma lower_char_idempotent (c : ascii) :
  Text.lower_char (Text.lower_char c) = Text.lower_char c.
Proof. destruct c as [[] [] [] [] [] [] [] []]; vm_compute; reflexivity. Qed.

Lemma text_lower_idempotent (s : string) : Text.lower (Text.lower s) = Text.lower s.
Proof.
  induction s as [|c s IH]; [reflexivity|].
  cbn. now rewrite lower_char_idempotent, IH.
Qed.

Lemma prefix_append_l (x a b : string) :
  String.prefix x a = true -> String.prefix x (a ++ b) = true.
Proof.
  revert a. induction x as [|c x IH]; intros a H; [now destruct (a ++ b)%string|].
  destruct a as [|c' a]; [discriminate|].
  cbn in *. destruct (ascii_dec c c'); [now apply IH|discriminate].
Qed.

Lemma is_in_append_l (x a b : string) :
  Text.is_in x a = true -> Text.is_in x (a ++ b) = true.
Proof.
  induction a as [|c a IH]; intros H.
  - cbn in H. rewrite orb_false_r in H.
    destruct x; [|discriminate].
    destruct (EmptyString ++ b)%string; reflexivity.
  - cbn [Text.is_in] in H. apply orb_true_iff in H as [H|H].
    + change (String c a ++ b)%string with (String c (a ++ b)).
      cbn [Text.is_in].
      change (String c (a ++ b)) with (String c a ++ b)%string.
      now rewrite (prefix_append_l _ _ _ H).
    + cbn [append Text.is_in]. rewrite (IH H). apply orb_true_r.
Qed.

Lemma is_in_middle (x a b : string) : Text.is_in x (a ++ x ++ b) = true.
Proof. apply is_in_append_r, is_in_here. Qed.

Lemma any_in_In (words : list string) (word text : string) :
  In word words -> Text.is_in word text = true -> any_in words text = true.
Proof.
  intros Hin H. apply existsb_exists. exists word. now split.
Qed.

Lemma gui_words_lower (word : string) : In word gui_words -> Text.lower word = word.
Proof.
  unfold gui_words. cbn [In].
  intros H; repeat (destruct H as [<-|H]; [reflexivity|]); contradiction.
Qed.

Lemma has_char_append (c : ascii) (a b : string) :
  Text.has_char c (a ++ b) = Text.has_char c a || Text.has_char c b.
Proof.
  induction a as [|x a IH]; [reflexivity|].
  cbn. rewrite IH. apply orb_assoc.
Qed.

Lemma no_space_snoc (word : string) (c : ascii) :
  no_space word -> Text.is_space c = false -> no_space (word ++ String c "").
Proof.
  intros Hw Hc x Hx. rewrite has_char_append in Hx.
  apply orb_true_iff in Hx as [Hx|Hx]; [now apply Hw|].
  cbn in Hx. rewrite orb_false_r in Hx.
  apply Ascii.eqb_eq in Hx. now subst.
Qed.

Lemma is_empty_snoc (word : string) (c : ascii) :
  Text.is_empty (word ++ String c "") = false.
Proof. now destruct word. Qed.

Lemma split_from_words (s word : string) :
  no_space word ->
  Forall (fun k => Text.is_empty k = false /\ no_space k) (Text.split_from s word).
Proof.
  revert word. induction s as [|c s IH]; intros word Hw; cbn [Text.split_from].
  - destruct (Text.is_empty word) eqn:He; constructor; auto.
  - destruct (Text.is_space c) eqn:Hc.
    + destruct (Text.is_empty word) eqn:He.
      * apply IH. intros x Hx; discriminate.
      * constructor; [auto|]. apply IH. intros x Hx; discriminate.
    + apply IH. now apply no_space_snoc.
Qed.

Lemma split_from_lower (s word : string) :
  Text.lower s = s -> Text.lower word = word ->
  Forall (fun k => Text.lower k = k) (Text.split_from s word).
Proof.
  revert word. induction s as [|c s IH]; intros word Hs Hw; cbn [Text.split_from].
  - destruct (Text.is_empty word); constructor; auto.
  - cbn in Hs. injection Hs as Hc Hs.
    destruct (Text.is_space c).
    + destruct (Text.is_empty word); [|constructor; [exact Hw|]]; now apply IH.
    + apply IH; [exact Hs|].
      rewrite lower_append, Hw. cbn. now rewrite Hc.
Qed.

Lemma split_from_characters (s word : string) :
  fold_right append EmptyString (Text.split_from s word)
  = (word ++ without_spaces s)%string.
Proof.
  revert word. induction s as [|c s IH]; intros word;
    cbn [Text.split_from without_spaces].
  - destruct word; cbn; [reflexivity|]. now rewrite !append_nil_r.
  - destruct (Text.is_space c).
    + destruct (Text.is_empty word) eqn:He.
      * destruct word; [|discriminate]. apply IH.
      * cbn [fold_right]. now rewrite IH.
    + rewrite IH, append_assoc. reflexivity.
Qed.

(** X11.  A request that contains one of the words of the GUI list
    anywhere, as a word or inside another one and in any surroundings, is
    read as a GUI project: the library words are looked for only when none
    of them occurs.  So [build a shared library], which holds [ui], is a
    GUI project. *)
Theorem gui_words_take_precedence
    (frameworks : frameworks_table) (before word after : string) :
  In word gui_words ->
  project_type (parse_user_request frameworks (before ++ word ++ after))
  = Some "gui".
Proof.
  intros Hin. unfold parse_user_request. cbn [project_type].
  rewrite !lower_append, (gui_words_lower _ Hin).
  rewrite (any_in_In gui_words word _ Hin (is_in_middle _ _ _)).
  reflexivity.
Qed.

Lemma gui_words_take_precedence_witness :
  project_type (parse_user_request sample_frameworks "Build a shared library")
  = Some "gui".
Proof.
  apply (gui_words_take_precedence sample_frameworks "B" "ui" "ld a shared library").
  cbn. auto.
Defined.

(** X12.  The keywords of a request are the words of its lower-case form:
    none is empty, none holds a white space character, each is in lower
    case, and put together they are the lower-case request without its
    white space. *)
Theorem keywords_are_the_words_of_the_request
    (frameworks : frameworks_table) (user_request : string) :
  exists ks,
    keywords (parse_user_request frameworks user_request) = Some ks
    /\ Forall (fun k => k <> EmptyString /\ no_space k /\ Text.lower k = k) ks
    /\ fold_right append EmptyString ks = without_spaces (Text.lower user_request).
Proof.
  exists (Text.split (Text.lower user_request)).
  split; [reflexivity|]. split.
  - unfold Text.split.
    assert (Hn : no_space EmptyString) by (intros c Hc; discriminate).
    pose proof (split_from_words (Text.lower user_request) EmptyString Hn) as H1.
    pose proof (split_from_lower (Text.lower user_request) EmptyString
                  (text_lower_idempotent _) eq_refl) as H2.
    rewrite Forall_forall in *. intros k Hk.
    destruct (H1 k Hk) as [He Hs]. repeat split; auto.
    intros ->. discriminate.
  - unfold Text.split. now rewrite split_from_characters.
Qed.

(** ** Choosing a framework *)

Lemma contains_In (x : string) (xs : list string) :
  Py.contains x xs = true <-> In x xs.
Proof.
  induction xs as [|y ys IH]; cbn; [split; [discriminate|contradiction]|].
  rewrite orb_true_iff, IH, String.eqb_eq. split; intros [H|H]; auto.
Qed.

Lemma scores_of_nil (frameworks : frameworks_table) (info : request_info) :
  scores_of frameworks info = [] <->
  (forall entry, In entry frameworks -> score info (snd entry) = 0).
Proof.
  unfold scores_of. induction frameworks as [|e l IH]; cbn [flat_map].
  - split; [intros _ entry []|reflexivity].
  - destruct (score info (snd e)) as [|n] eqn:Hs.
    + change (0 <? 0)%nat with false. cbn [app]. rewrite IH. split.
      * intros H entry [<-|Hin]; auto.
      * intros H entry Hin. apply H. now right.
    + change (0 <? S n)%nat with true. cbn [app].
      split; [discriminate|]. intros H.
      specialize (H e (or_introl eq_refl)). congruence.
Qed.

Lemma scores_of_keys (frameworks : frameworks_table) (info : request_info)
    (item : string * nat) :
  In item (scores_of frameworks info) ->
  exists fw, In (fst item, fw) frameworks /\ snd item = score info fw
             /\ 0 < snd item.
Proof.
  unfold scores_of. intros H. apply in_flat_map in H as ([name fw] & Hin & H).
  cbn [fst snd] in H.
  destruct (0 <? score info fw)%nat eqn:Hs; [|contradiction].
  destruct H as [<-|[]]. exists fw. cbn. apply Nat.ltb_lt in Hs. auto.
Qed.

Lemma best_cases (items : list (string * nat)) (so_far : string * nat) :
  (best items so_far = so_far
   /\ forall x, In x items -> snd x <= snd so_far)
  \/ (exists l1 l2,
         items = l1 ++ best items so_far :: l2
         /\ snd so_far < snd (best items so_far)
         /\ (forall x, In x l1 -> snd x < snd (best items so_far))
         /\ (forall x, In x l2 -> snd x <= snd (best items so_far))).
Proof.
  revert so_far. induction items as [|x rest IH]; intros so_far; cbn [best].
  - left. split; [reflexivity|intros x []].
  - destruct (snd so_far <? snd x)%nat eqn:Hlt.
    + apply Nat.ltb_lt in Hlt. right.
      destruct (IH x) as [[Heq Hle]|(l1 & l2 & Heq & Hgt & H1 & H2)].
      * exists [], rest. rewrite Heq. cbn. repeat split; auto.
        intros y [].
      * exists (x :: l1), l2. split; [cbn; now rewrite <- Heq|].
        split; [lia|]. split; [|exact H2].
        intros y [<-|Hy]; auto.
    + apply Nat.ltb_ge in Hlt.
      destruct (IH so_far) as [[Heq Hle]|(l1 & l2 & Heq & Hgt & H1 & H2)].
      * left. split; [exact Heq|]. intros y [<-|Hy]; auto.
      * right. exists (x :: l1), l2. split; [cbn; now rewrite <- Heq|].
        split; [exact Hgt|]. split; [|exact H2].
        intros y [<-|Hy]; [lia|auto].
Qed.

(** The first of the items with the highest score. *)
Lemma best_first (first : string * nat) (rest : list (string * nat)) :
  exists l1 l2,
    first :: rest = l1 ++ best rest first :: l2
    /\ (forall x, In x l1 -> snd x < snd (best rest first))
    /\ (forall x, In x l2 -> snd x <= snd (best rest first)).
Proof.
  destruct (best_cases rest first) as [[Heq Hle]|(l1 & l2 & Heq & Hgt & H1 & H2)].
  - exists [], rest. rewrite Heq. repeat split; auto. intros x [].
  - exists (first :: l1), l2. split; [cbn; now rewrite <- Heq|].
    split; [|exact H2]. intros y [<-|Hy]; auto.
Qed.

Lemma scores_of_app (l1 l2 : frameworks_table) (info : request_info) :
  scores_of (l1 ++ l2) info = scores_of l1 info ++ scores_of l2 info.
Proof. unfold scores_of. apply flat_map_app. Qed.

Lemma scores_of_split (frameworks : frameworks_table) (info : request_info)
    (l1 l2 : list (string * nat)) (item : string * nat) :
  scores_of frameworks info = l1 ++ item :: l2 ->
  exists before fw after,
    frameworks = before ++ (fst item, fw) :: after
    /\ scores_of before info = l1
    /\ score info fw = snd item /\ 0 < snd item
    /\ scores_of after info = l2.
Proof.
  revert l1. induction frameworks as [|[name fw] l IH]; intros l1 H.
  - cbn in H. now destruct l1.
  - unfold scores_of in H. cbn [flat_map fst snd] in H.
    fold (scores_of l info) in H.
    destruct (0 <? score info fw)%nat eqn:Hs.
    + destruct l1 as [|y l1]; cbn in H.
      * injection H as <- H. exists [], fw, l. cbn.
        apply Nat.ltb_lt in Hs. repeat split; auto.
      * injection H as <- H.
        destruct (IH l1 H) as (before & fw' & after & -> & H1 & H2 & H3 & H4).
        exists ((name, fw) :: before), fw', after.
        unfold scores_of at 1. cbn [flat_map fst snd app]. rewrite Hs.
        fold (scores_of before info). rewrite H1. repeat split; auto.
    + cbn in H.
      destruct (IH l1 H) as (before & fw' & after & -> & H1 & H2 & H3 & H4).
      exists ((name, fw) :: before), fw', after.
      unfold scores_of at 1. cbn [flat_map fst snd app]. rewrite Hs.
      fold (scores_of before info). rewrite H1. repeat split; auto.
Qed.

Lemma scores_below (l : frameworks_table) (info : request_info) (n : nat) :
  0 < n ->
  (forall x, In x (scores_of l info) -> snd x < n) ->
  forall entry, In entry l -> score info (snd entry) < n.
Proof.
  intros Hn H [name fw] Hin. cbn [snd].
  destruct (score info fw) as [|k] eqn:Hs; [exact Hn|].
  apply (H (name, S k)). unfold scores_of. apply in_flat_map.
  exists (name, fw). split; [exact Hin|]. cbn [fst snd]. rewrite Hs. cbn. auto.
Qed.

Lemma scores_at_most (l : frameworks_table) (info : request_info) (n : nat) :
  (forall x, In x (scores_of l info) -> snd x <= n) ->
  forall entry, In entry l -> score info (snd entry) <= n.
Proof.
  intros H [name fw] Hin. cbn [snd].
  destruct (score info fw) as [|k] eqn:Hs; [lia|].
  apply (H (name, S k)). unfold scores_of. apply in_flat_map.
  exists (name, fw). split; [exact Hin|]. cbn [fst snd]. rewrite Hs. cbn. auto.
Qed.

Lemma count_if_positive {A : Type} (f : A -> bool) (xs : list A) (x : A) :
  In x xs -> f x = true -> 1 <= count_if f xs.
Proof.
  intros Hin Hf. unfold count_if.
  assert (H : In x (filter f xs)) by (apply filter_In; auto).
  destruct (filter f xs); [contradiction|cbn; lia].
Qed.

Lemma keyword_scores (info : request_info) (fw : framework_info)
    (ks : list string) (keyword : string) :
  keywords info = Some ks -> In keyword ks ->
  Text.is_in keyword (Text.str_list (Py.get (use_case_keywords fw) [])) = true ->
  5 <= score info fw.
Proof.
  intros Hk Hin H. unfold score. rewrite Hk. cbn [Py.get].
  pose proof (count_if_positive
                (fun keyword =>
                   Text.is_in keyword
                     (Text.str_list (Py.get (use_case_keywords fw) [])))
                ks keyword Hin H).
  lia.
Qed.

Lemma repr_chars_plain (q : ascii) (s : string) :
  plain s = true -> q = Text.quote -> Text.repr_chars q s = s.
Proof.
  intros H ->. induction s as [|c s IH]; [reflexivity|].
  cbn [plain Text.repr_chars] in *.
  apply andb_true_iff in H as [Hc Hs]. rewrite (IH Hs).
  unfold plain_char in Hc.
  apply andb_true_iff in Hc as [Hc Hb].
  apply andb_true_iff in Hc as [Hc Hd].
  apply andb_true_iff in Hc as [Hp Hq].
  unfold Text.repr_char.
  apply negb_true_iff in Hq, Hb. rewrite Hq, Hb. cbn [orb].
  assert (Hn : 32 <= nat_of_ascii c).
  { unfold Text.is_printable in Hp. cbv zeta in Hp.
    apply orb_true_iff in Hp as [Hp|Hp];
      apply andb_true_iff in Hp as [Hp _]; apply Nat.leb_le in Hp; lia. }
  replace (nat_of_ascii c =? 9)%nat with false by (symmetry; apply Nat.eqb_neq; lia).
  replace (nat_of_ascii c =? 10)%nat with false by (symmetry; apply Nat.eqb_neq; lia).
  replace (nat_of_ascii c =? 13)%nat with false by (symmetry; apply Nat.eqb_neq; lia).
  rewrite Hp. reflexivity.
Qed.

Lemma has_char_plain (s : string) :
  plain s = true -> Text.has_char Text.quote s = false.
Proof.
  induction s as [|c s IH]; [reflexivity|].
  cbn [plain Text.has_char]. intros H.
  apply andb_true_iff in H as [Hc Hs]. rewrite (IH Hs), orb_false_r.
  unfold plain_char in Hc.
  apply andb_true_iff in Hc as [Hc _].
  apply andb_true_iff in Hc as [Hc _].
  apply andb_true_iff in Hc as [_ Hq].
  now apply negb_true_iff in Hq.
Qed.

Lemma repr_plain (s : string) :
  plain s = true ->
  Text.repr s = String Text.quote (s ++ String Text.quote "").
Proof.
  intros H. unfold Text.repr. rewrite (has_char_plain _ H). cbn [andb].
  now rewrite (repr_chars_plain _ _ H eq_refl).
Qed.

Lemma is_in_repr_items (x word : string) (words : list string) :
  In word words -> Text.is_in x (Text.repr word) = true ->
  Text.is_in x (Text.repr_items words) = true.
Proof.
  induction words as [|w rest IH]; [intros []|].
  intros [->|Hin] H.
  - destruct rest; cbn [Text.repr_items]; [exact H|]. now apply is_in_append_l.
  - destruct rest as [|w' rest']; [destruct Hin|].
    change (Text.repr_items (w :: w' :: rest'))
      with (Text.repr w ++ ", " ++ Text.repr_items (w' :: rest'))%string.
    apply is_in_append_r, is_in_append_r. now apply IH.
Qed.

Lemma is_in_str_list (x word : string) (words : list string) :
  In word words -> plain word = true -> Text.is_in x word = true ->
  Text.is_in x (Text.str_list words) = true.
Proof.
  intros Hin Hp H. unfold Text.str_list.
  apply is_in_append_r, is_in_append_l.
  apply (is_in_repr_items x word words Hin).
  rewrite (repr_plain _ Hp).
  apply (is_in_append_r x (String Text.quote "")).
  now apply is_in_append_l.
Qed.

(** X13.  When no framework of the table scores, the answer is
    [wxwidgets] and nothing is logged, also when the request names a
    framework of the table and also when [wxwidgets] is no framework of
    the table. *)
Theorem no_score_defaults_to_wxwidgets
    (frameworks : frameworks_table) (info : request_info) :
  (forall entry, In entry frameworks -> score info (snd entry) = 0) ->
  auto_select_gui_framework frameworks info = ("wxwidgets", None).
Proof.
  intros H. unfold auto_select_gui_framework.
  now rewrite (proj2 (scores_of_nil frameworks info) H).
Qed.

Lemma no_score_defaults_to_wxwidgets_witness :
  mentioned_frameworks (parse_user_request sample_frameworks "Qt6 !")
  = Some ["qt6"]
  /\ auto_select_gui_framework sample_frameworks
       (parse_user_request sample_frameworks "Qt6 !")
     = ("wxwidgets", None).
Proof.
  split; [reflexivity|].
  apply (no_score_defaults_to_wxwidgets sample_frameworks).
  intros entry Hin. cbn in Hin.
  repeat (destruct Hin as [<-|Hin]; [vm_compute; reflexivity|]).
  contradiction.
Defined.

(** X14.  When some framework scores and the first mentioned framework is
    a framework of the table, that one is the answer, whatever the scores
    are, and the conflict with the framework of the scores is logged. *)
Theorem mentioned_framework_overrides_scores
    (frameworks : frameworks_table) (info : request_info)
    (mentioned : string) (others : list string) :
  (exists entry, In entry frameworks /\ 0 < score info (snd entry)) ->
  mentioned_frameworks info = Some (mentioned :: others) ->
  In mentioned (map fst frameworks) ->
  exists selected,
    auto_select_gui_framework frameworks info
    = (mentioned, Some (selected, mentioned)).
Proof.
  intros (entry & Hin & Hpos) Hm Hkey. unfold auto_select_gui_framework.
  destruct (scores_of frameworks info) as [|first rest] eqn:Hs.
  - rewrite (proj1 (scores_of_nil _ _) Hs entry Hin) in Hpos. lia.
  - rewrite Hm. cbn [Py.get].
    rewrite (proj2 (contains_In _ _) Hkey). eauto.
Qed.

Lemma mentioned_framework_overrides_scores_witness :
  exists selected,
    auto_select_gui_framework sample_frameworks
      (parse_user_request sample_frameworks "a simple game with qt6")
    = ("qt6", Some (selected, "qt6")).
Proof.
  apply (mentioned_framework_overrides_scores sample_frameworks _ "qt6" []).
  - eexists. split; [right; left; reflexivity|]. vm_compute. lia.
  - reflexivity.
  - cbn. auto.
Defined.

Lemma auto_select_by_scores (frameworks : frameworks_table) (info : request_info)
    (first : string * nat) (rest : list (string * nat)) :
  scores_of frameworks info = first :: rest ->
  match Py.get (mentioned_frameworks info) [] with
  | mentioned :: _ => ~ In mentioned (map fst frameworks)
  | [] => True
  end ->
  auto_select_gui_framework frameworks info = (fst (best rest first), None).
Proof.
  intros Hs Hm. unfold auto_select_gui_framework. rewrite Hs. cbv zeta.
  destruct (Py.get (mentioned_frameworks info) []) as [|m ms]; [reflexivity|].
  destruct (Py.contains m (map fst frameworks)) eqn:Hc; [|reflexivity].
  apply contains_In in Hc. contradiction.
Qed.

(** X15.  When some framework scores and no mentioned framework is
    honoured (none is mentioned, or the first mentioned one is no framework
    of the table), the answer is a framework of the table whose score is
    positive, higher than the score of every framework before it in the
    table and at least the score of every framework after it: the first
    of the frameworks with the highest score. *)
Theorem selected_framework_has_the_best_score
    (frameworks : frameworks_table) (info : request_info) :
  (exists entry, In entry frameworks /\ 0 < score info (snd entry)) ->
  match Py.get (mentioned_frameworks info) [] with
  | mentioned :: _ => ~ In mentioned (map fst frameworks)
  | [] => True
  end ->
  exists before fw after,
    frameworks
    = before ++ (fst (auto_select_gui_framework frameworks info), fw) :: after
    /\ snd (auto_select_gui_framework frameworks info) = None
    /\ 0 < score info fw
    /\ (forall entry, In entry before -> score info (snd entry) < score info fw)
    /\ (forall entry, In entry after -> score info (snd entry) <= score info fw).
Proof.
  intros (entry & Hin & Hpos) Hm.
  destruct (scores_of frameworks info) as [|first rest] eqn:Hs.
  { rewrite (proj1 (scores_of_nil _ _) Hs entry Hin) in Hpos. lia. }
  rewrite (auto_select_by_scores _ _ _ _ Hs Hm). cbn [fst snd].
  destruct (best_first first rest) as (l1 & l2 & Heq & H1 & H2).
  rewrite Heq in Hs.
  destruct (scores_of_split _ _ _ _ _ Hs)
    as (before & fw & after & Hf & Hb & Hsc & Hp & Ha).
  exists before, fw, after. split; [exact Hf|]. split; [reflexivity|].
  rewrite Hsc. split; [exact Hp|]. split.
  - apply scores_below; [exact Hp|]. now rewrite Hb.
  - apply scores_at_most. now rewrite Ha.
Qed.

Lemma selected_framework_has_the_best_score_witness :
  let info := parse_user_request sample_frameworks "a 3D viewer for game debug" in
  exists before fw after,
    sample_frameworks
    = before ++ (fst (auto_select_gui_framework sample_frameworks info), fw) :: after
    /\ snd (auto_select_gui_framework sample_frameworks info) = None
    /\ 0 < score info fw
    /\ (forall entry, In entry before -> score info (snd entry) < score info fw)
    /\ (forall entry, In entry after -> score info (snd entry) <= score info fw).
Proof.
  apply (selected_framework_has_the_best_score sample_frameworks
           (parse_user_request sample_frameworks "a 3D viewer for game debug")).
  - eexists. split; [right; right; left; reflexivity|]. vm_compute. lia.
  - exact I.
Defined.

(** X16.  The answer is [wxwidgets] or the name of a framework of the
    table. *)
Theorem answer_is_the_default_or_a_framework
    (frameworks : frameworks_table) (info : request_info) :
  fst (auto_select_gui_framework frameworks info) = "wxwidgets"
  \/ In (fst (auto_select_gui_framework frameworks info)) (map fst frameworks).
Proof.
  unfold auto_select_gui_framework.
  destruct (scores_of frameworks info) as [|first rest] eqn:Hs; [now left|].
  right. cbv zeta.
  assert (Hsel : In (fst (best rest first)) (map fst frameworks)).
  { destruct (best_first first rest) as (l1 & l2 & Heq & _).
    assert (Hin : In (best rest first) (scores_of frameworks info)).
    { rewrite Hs, Heq. apply in_or_app. right. now left. }
    destruct (scores_of_keys _ _ _ Hin) as (fw & Hfw & _).
    apply in_map_iff. exists (fst (best rest first), fw). auto. }
  destruct (Py.get (mentioned_frameworks info) []) as [|m ms]; [exact Hsel|].
  destruct (Py.contains m (map fst frameworks)) eqn:Hc; [|exact Hsel].
  now apply contains_In.
Qed.

(** X17.  A keyword of the request counts for a framework as soon as it
    occurs inside one of the framework's use case keywords (written with
    printable characters other than quotes and backslash): the keyword is
    looked for in the text of the list, not among its members.  So the
    word [a] of a request counts for a framework with the keyword
    [game]. *)
Theorem keyword_matches_inside_words
    (info : request_info) (fw : framework_info)
    (ks words : list string) (keyword word : string) :
  keywords info = Some ks -> In keyword ks ->
  use_case_keywords fw = Some words -> In word words ->
  plain word = true -> Text.is_in keyword word = true ->
  5 <= score info fw.
Proof.
  intros Hk Hin Hw Hword Hp H.
  apply (keyword_scores info fw ks keyword Hk Hin).
  rewrite Hw. cbn [Py.get]. now apply (is_in_str_list keyword word).
Qed.

Lemma keyword_matches_inside_words_witness :
  5 <= score (parse_user_request sample_frameworks "a tool")
         {| auto_select_when := None; use_case_keywords := Some ["game"] |}.
Proof.
  apply (keyword_matches_inside_words _ _ ["a"; "tool"] ["game"] "a" "game");
    try reflexivity; cbn; auto.
Defined.

(** X18.  A keyword of the request that is an opening or a closing square
    bracket counts for every framework, whatever its use case keywords are
    and also when it has none: the text of a list starts and ends with a
    bracket. *)
Theorem brackets_count_for_every_framework
    (info : request_info) (fw : framework_info)
    (ks : list string) (keyword : string) :
  keywords info = Some ks -> In keyword ks ->
  keyword = "[" \/ keyword = "]" ->
  5 <= score info fw.
Proof.
  intros Hk Hin Hb. apply (keyword_scores info fw ks keyword Hk Hin).
  unfold Text.str_list. destruct Hb as [->| ->].
  - apply is_in_here.
  - apply is_in_append_r, is_in_append_r. reflexivity.
Qed.

Lemma brackets_count_for_every_framework_witness :
  5 <= score (parse_user_request sample_frameworks "fix [ this")
         {| auto_select_when := None; use_case_keywords := None |}.
Proof.
  apply (brackets_count_for_every_framework _ _ ["fix"; "["; "this"] "[");
    [reflexivity|cbn; auto|now left].
Defined.

Lemma filter_first {A : Type} (f : A -> bool) (l : list A) (x : A) (rest : list A) :
  filter f l = x :: rest ->
  exists l1 l2, l = l1 ++ x :: l2 /\ f x = true
                /\ forall y, In y l1 -> f y = false.
Proof.
  induction l as [|a l IH]; [discriminate|].
  cbn [filter]. destruct (f a) eqn:Ha.
  - intros H. injection H as -> H. exists [], l. repeat split; auto.
    intros y [].
  - intros H. destruct (IH H) as (l1 & l2 & -> & Hx & Hl).
    exists (a :: l1), l2. repeat split; auto.
    intros y [<-|Hy]; auto.
Qed.

(** X19.  From the request to the answer: when the request holds the name
    of a framework of the table, in any case of letters, the first such
    framework in the order of the table is the answer, provided some
    framework scores; when none scores the answer is [wxwidgets]. *)
Theorem named_framework_is_chosen
    (frameworks : frameworks_table) (user_request mentioned : string)
    (others : list string) :
  let info := parse_user_request frameworks user_request in
  mentioned_frameworks info = Some (mentioned :: others) ->
  (exists before after,
      map fst frameworks = before ++ mentioned :: after
      /\ Text.is_in (Text.lower mentioned) (Text.lower user_request) = true
      /\ forall name, In name before ->
                      Text.is_in (Text.lower name) (Text.lower user_request) = false)
  /\ ((fst (auto_select_gui_framework frameworks info) = mentioned
       /\ exists entry, In entry frameworks /\ 0 < score info (snd entry))
      \/ (auto_select_gui_framework frameworks info = ("wxwidgets", None)
          /\ forall entry, In entry frameworks -> score info (snd entry) = 0)).
Proof.
  intros info Hm.
  assert (Hf : filter (fun f => Text.is_in (Text.lower f) (Text.lower user_request))
                 (map fst frameworks) = mentioned :: others).
  { unfold info, parse_user_request in Hm. cbn [mentioned_frameworks] in Hm.
    now injection Hm. }
  destruct (filter_first _ _ _ _ Hf) as (before & after & Hkeys & Hin & Hbefore).
  split; [exists before, after; auto|].
  assert (Hkey : In mentioned (map fst frameworks)).
  { rewrite Hkeys. apply in_or_app. right. now left. }
  destruct (scores_of frameworks info) as [|first rest] eqn:Hs.
  - right. pose proof (proj1 (scores_of_nil _ _) Hs) as Hz.
    split; [|exact Hz].
    unfold auto_select_gui_framework. now rewrite Hs.
  - left. split.
    + unfold auto_select_gui_framework. rewrite Hs, Hm. cbn [Py.get].
      now rewrite (proj2 (contains_In _ _) Hkey).
    + assert (Hfirst : In first (scores_of frameworks info))
        by (rewrite Hs; now left).
      destruct (scores_of_keys _ _ _ Hfirst) as (fw & Hfw & Hsc & Hpos).
      exists (fst first, fw). split; [exact Hfw|]. cbn [snd]. now rewrite <- Hsc.
Qed.

Lemma named_framework_is_chosen_witness :
  fst (auto_select_gui_framework sample_frameworks
         (parse_user_request sample_frameworks "a debug view in ImGui or Qt6"))
  = "qt6"
  \/ auto_select_gui_framework sample_frameworks
        (parse_user_request sample_frameworks "a debug view in ImGui or Qt6")
      = ("wxwidgets", None).
Proof.
  destruct (named_framework_is_chosen sample_frameworks
              "a debug view in ImGui or Qt6" "qt6" ["imgui"] eq_refl)
    as [_ [[H _]|[H _]]]; [left|right]; exact H.
Defined.


(** ** From the request to the project *)

(** X20.  A GUI project whose framework is the answer of
    [auto_select_gui_framework] to a request for which no framework of the
    table scores is never created: the answer is [wxwidgets], and
    [create_basic_project] raises with no file written but, at most,
    [.gitignore]. *)
Theorem unscored_request_cannot_be_scaffolded
    (frameworks : frameworks_table) (user_request project_name : string)
    (d : disk) (h : list fs_event) :
  let info := parse_user_request frameworks user_request in
  (forall entry, In entry frameworks -> score info (snd entry) = 0) ->
  exists e evs,
    create_basic_project d project_name "gui"
      (Some (fst (auto_select_gui_framework frameworks info))) h
    = (Exc e, h ++ evs)
    /\ incl (written evs) [Child (Base project_name) ".gitignore"]
    /\ (e = index_error
        \/ exists before last, evs = before ++ [last] /\ refused_with last e).
Proof.
  intros info Hz. unfold auto_select_gui_framework.
  rewrite (proj2 (scores_of_nil frameworks info) Hz). cbn [fst].
  unfold create_basic_project.
  match goal with
  | |- context [fbind (write d (Child (Base project_name) ".gitignore") gitignore_text)
                  (fun _ => ?k)] =>
      destruct (scaffold_cases d project_name k h)
        as [(u1 & u2 & u3 & u4 & Heq)|(e & before & last & Heq & Hacc & Href & Hincl)]
  end.
  - cbv zeta in Heq. rewrite Heq. clear Heq.
    exists index_error. eexists. split; [reflexivity|].
    split; [intros x Hx; exact Hx|]. now left.
  - exists e, (before ++ [last]). cbv zeta in Heq. rewrite Heq.
    split; [reflexivity|]. split; [exact Hincl|].
    right. now exists before, last.
Qed.

Lemma unscored_request_cannot_be_scaffolded_witness :
  exists e evs,
    create_basic_project willing_disk "demo" "gui"
      (Some (fst (auto_select_gui_framework sample_frameworks
                    (parse_user_request sample_frameworks "window")))) []
    = (Exc e, [] ++ evs)
    /\ incl (written evs) [Child (Base "demo") ".gitignore"]
    /\ (e = index_error
        \/ exists before last, evs = before ++ [last] /\ refused_with last e).
Proof.
  apply (unscored_request_cannot_be_scaffolded sample_frameworks "window" "demo"
           willing_disk []).
  intros entry Hin. cbn in Hin.
  repeat (destruct Hin as [<-|Hin]; [vm_compute; reflexivity|]).
  contradiction.
Defined.
